(** * archinstall: the guided installation pipeline and the hardware detectors

    A shallow embedding of
      - [archinstall/lib/hardware.py]                  (module [Hardware]),
      - [archinstall/scripts/guided.py] and
        [examples/interactive_installation.py]         (module [Guided]),
    over a small model of the Python values, dictionaries and exceptions
    that these files manipulate (module [Python]).  The concrete machines
    and plans used as examples are in [Scenarios]; the properties of the
    detectors are in [HardwareSpec], the lemmas on runs in [Runs] and the
    properties of the pipeline in [GuidedSpec]. *)

From Stdlib Require Import ZArith List String Ascii Bool Lia.
From stdpp Require Import base option gmap strings list.

Set Warnings "-register-all".

Local Open Scope string_scope.
Local Open Scope Z_scope.

(* ===================================================================== *)
(** * Python values, exceptions and dictionaries                          *)
(* ===================================================================== *)

Module Python.

(** The values stored in [archinstall.arguments] and [archinstall.storage]:
    what a JSON configuration holds (None, bool, int, float, str, list and
    dict with str keys), paths, and the repository's own values.
    Instances of its classes (DiskLayoutConfiguration, DiskEncryption,
    ProfileConfiguration, ...) are [PyObj] with their attributes; members
    of its enumerations are [PyEnum].  [PyFloat m e] is the finite float
    [m * 2^e]. *)
Inductive pyval : Type :=
  | PyNone
  | PyBool (b : bool)
  | PyInt (n : Z)
  | PyFloat (m e : Z)
  | PyStr (s : string)
  | PyList (l : list pyval)
  | PyDict (d : gmap string pyval)
  | PyPath (p : string)
  | PyEnum (cls member : string)
  | PyObj (cls : string) (attrs : list (string * pyval)).

(** The exceptions that the modelled code can meet. *)
Inductive exn : Type :=
  | KeyError (key : string)
  | TypeError
  | AttributeError
  | ValueError
  | IndexError
  | FileNotFoundError (path : string)
  | SysCallError (message : string)
  | KeyboardInterrupt
  | OtherError (name : string).

(** [exit(n)] raises SystemExit; everything else is an exception proper. *)
Inductive abort : Type :=
  | SystemExit (code : Z)
  | Raised (e : exn).

Inductive result (A : Type) : Type :=
  | Ok (a : A)
  | Fail (x : abort).
Arguments Ok {A} a.
Arguments Fail {A} x.

Definition raise {A} (e : exn) : result A := Fail (Raised e).

Definition is_ok {A} (r : result A) : bool :=
  match r with
  | Ok _ => true
  | Fail _ => false
  end.

#[global] Instance result_ret : MRet result := fun _ a => Ok a.
#[global] Instance result_bind : MBind result := fun _ _ f r =>
  match r with
  | Ok a => f a
  | Fail x => Fail x
  end.

(** Status of the interpreter process once the script has ended, as a
    shell reports it: 0 at the end of the script, the low byte of the
    argument of [exit], 1 after an uncaught exception; after an uncaught
    KeyboardInterrupt the interpreter ends itself with SIGINT, which a
    shell reports as 128 + 2. *)
Definition exit_status {A} (r : result A) : Z :=
  match r with
  | Ok _ => 0
  | Fail (SystemExit code) => code mod 256
  | Fail (Raised KeyboardInterrupt) => 130
  | Fail (Raised _) => 1
  end.

(** [except Exception:] catches every exception except those that derive
    from BaseException only: SystemExit, KeyboardInterrupt and, as
    archinstall declares it, SysCallError.  [except:] catches everything,
    SystemExit included. *)
Definition is_Exception (x : abort) : bool :=
  match x with
  | SystemExit _ => false
  | Raised KeyboardInterrupt => false
  | Raised (SysCallError _) => false
  | Raised _ => true
  end.

(** The exceptions that the operations on values below raise. *)
Definition operand_error (x : abort) : bool :=
  match x with
  | Raised (KeyError _) | Raised TypeError | Raised AttributeError
  | Raised IndexError => true
  | _ => false
  end.

(** Truth value testing.  Enum members and instances of the repository's
    classes define neither [__bool__] nor [__len__]: they are true. *)
Definition truthy (v : pyval) : bool :=
  match v with
  | PyNone => false
  | PyBool b => b
  | PyInt n => negb (n =? 0)
  | PyFloat m _ => negb (m =? 0)
  | PyStr s => negb (String.eqb s "")
  | PyList l => match l with [] => false | _ :: _ => true end
  | PyDict d => negb (Nat.eqb (size d) 0)
  | PyPath _ => true
  | PyEnum _ _ => true
  | PyObj _ _ => true
  end.

(** [v is False] *)
Definition is_False (v : pyval) : bool :=
  match v with
  | PyBool false => true
  | _ => false
  end.

(** [v is not None] *)
Definition is_not_None (v : pyval) : bool :=
  match v with
  | PyNone => false
  | _ => true
  end.

(** [v == 'literal'] *)
Definition eq_str (v : pyval) (s : string) : bool :=
  match v with
  | PyStr t => String.eqb t s
  | _ => false
  end.

(** [v == Cls.member]: enum members compare by identity. *)
Definition eq_enum (v : pyval) (cls member : string) : bool :=
  match v with
  | PyEnum c m => String.eqb c cls && String.eqb m member
  | _ => false
  end.

(** [needle in haystack] on str *)
Fixpoint is_substring (needle haystack : string) : bool :=
  String.prefix needle haystack
  || match haystack with
     | EmptyString => false
     | String _ rest => is_substring needle rest
     end.

(** [c in s] for one character *)
Fixpoint has_char (c : ascii) (s : string) : bool :=
  match s with
  | EmptyString => false
  | String c' rest => Ascii.eqb c' c || has_char c rest
  end.

(** ['literal' in v] *)
Definition contains_str (s : string) (v : pyval) : result bool :=
  match v with
  | PyList l => Ok (existsb (fun x => eq_str x s) l)
  | PyStr t => Ok (is_substring s t)
  | PyDict d => Ok (bool_decide (is_Some (d !! s)))
  | _ => raise TypeError
  end.

(** [v[0]] *)
Definition item0 (v : pyval) : result pyval :=
  match v with
  | PyList (x :: _) => Ok x
  | PyList [] => raise IndexError
  | PyStr (String c _) => Ok (PyStr (String c EmptyString))
  | PyStr EmptyString => raise IndexError
  | PyDict _ => raise (KeyError "0")
  | _ => raise TypeError
  end.

(** [len(v)] *)
Definition len (v : pyval) : result Z :=
  match v with
  | PyList l => Ok (Z.of_nat (length l))
  | PyStr s => Ok (Z.of_nat (String.length s))
  | PyDict d => Ok (Z.of_nat (size d))
  | _ => raise TypeError
  end.

Fixpoint assoc (name : string) (attrs : list (string * pyval)) : option pyval :=
  match attrs with
  | [] => None
  | (k, v) :: rest => if String.eqb k name then Some v else assoc name rest
  end.

(** [v.name] *)
Definition getattr (v : pyval) (name : string) : result pyval :=
  match v with
  | PyObj _ attrs =>
      match assoc name attrs with
      | Some x => Ok x
      | None => raise AttributeError
      end
  | _ => raise AttributeError
  end.

(** [d.get(key, default)] and [d.get(key)] *)
Definition get_or (d : gmap string pyval) (key : string) (default : pyval) : pyval :=
  match d !! key with
  | Some v => v
  | None => default
  end.

Definition get (d : gmap string pyval) (key : string) : pyval :=
  get_or d key PyNone.

(** [d[key]] *)
Definition getitem (d : gmap string pyval) (key : string) : result pyval :=
  match d !! key with
  | Some v => Ok v
  | None => raise (KeyError key)
  end.

(** ** str methods (the text is ASCII, as the pseudo-files of /proc are) *)

Definition LF : ascii := "010"%char.
Definition CR : ascii := "013"%char.

(** [str.isspace] on one ASCII character *)
Definition isspace (c : ascii) : bool :=
  match c with
  | "009" | "010" | "011" | "012" | "013"
  | "028" | "029" | "030" | "031" | " " => true
  | _ => false
  end%char.

Fixpoint lstrip_by (drop : ascii -> bool) (s : string) : string :=
  match s with
  | EmptyString => EmptyString
  | String c rest => if drop c then lstrip_by drop rest else s
  end.

Definition strip_by (drop : ascii -> bool) (s : string) : string :=
  String.rev (lstrip_by drop (String.rev (lstrip_by drop s))).

(** [s.strip()] *)
Definition strip (s : string) : string := strip_by isspace s.

(** [s.strip('\r\n')] *)
Definition strip_crlf (s : string) : string :=
  strip_by (fun c => Ascii.eqb c CR || Ascii.eqb c LF) s.

(** [s.split(sep)] for a one-character separator: all the fields. *)
Fixpoint split_on (sep : ascii) (cur : string) (s : string) : list string :=
  match s with
  | EmptyString => [String.rev cur]
  | String c rest =>
      if Ascii.eqb c sep then String.rev cur :: split_on sep EmptyString rest
      else split_on sep (String c cur) rest
  end.

Definition split (sep : ascii) (s : string) : list string :=
  split_on sep EmptyString s.

(** [s.split(sep, maxsplit=1)]: the text before and after the first
    separator, or the text alone. *)
Fixpoint split1_on (sep : ascii) (cur : string) (s : string) : list string :=
  match s with
  | EmptyString => [String.rev cur]
  | String c rest =>
      if Ascii.eqb c sep then [String.rev cur; rest]
      else split1_on sep (String c cur) rest
  end.

Definition split1 (sep : ascii) (s : string) : list string :=
  split1_on sep EmptyString s.

(** [s.split()]: the maximal runs of non-blank characters. *)
Fixpoint split_ws_go (cur : option string) (s : string) : list string :=
  match s with
  | EmptyString => option_list (String.rev <$> cur)
  | String c rest =>
      if isspace c
      then option_list (String.rev <$> cur) ++ split_ws_go None rest
      else split_ws_go (Some (String c (default EmptyString cur))) rest
  end.

Definition split_ws (s : string) : list string := split_ws_go None s.

(** The value of a decimal digit, from its code ('0' is 48). *)
Definition digit (c : ascii) : option Z :=
  let code := Z.of_nat (nat_of_ascii c) in
  if (48 <=? code) && (code <=? 57) then Some (code - 48) else None.

(** Decimal digits, with single underscores allowed between digits.
    [prev] says whether the previous character was a digit. *)
Fixpoint digits (acc : Z) (prev : bool) (s : string) : option Z :=
  match s with
  | EmptyString => if prev then Some acc else None
  | String c rest =>
      match digit c with
      | Some d => digits (10 * acc + d) true rest
      | None =>
          if Ascii.eqb c "_"%char && prev then digits acc false rest
          else None
      end
  end.

(** The number of decimal digits in [s]. *)
Fixpoint digit_count (s : string) : nat :=
  match s with
  | EmptyString => 0
  | String c rest =>
      (match digit c with Some _ => 1 | None => 0 end + digit_count rest)%nat
  end.

(** [sys.int_max_str_digits], as the interpreter starts with it. *)
Definition int_max_str_digits : nat := 4300.

(** [int(s)] for a text without surrounding blanks; a text with more
    digits than [int_max_str_digits] is refused. *)
Definition int (s : string) : result Z :=
  let body (t : string) : option Z := digits 0 false t in
  let parsed :=
    match s with
    | String "-"%char t => Z.opp <$> body t
    | String "+"%char t => body t
    | _ => body s
    end in
  match parsed with
  | Some n =>
      if Nat.ltb int_max_str_digits (digit_count s) then raise ValueError
      else Ok n
  | None => raise ValueError
  end.

Definition upper_char (c : ascii) : ascii :=
  let n := nat_of_ascii c in
  if (Nat.leb 97 n && Nat.leb n 122)%bool then ascii_of_nat (n - 32) else c.

(** [s.upper()] *)
Fixpoint upper (s : string) : string :=
  match s with
  | EmptyString => EmptyString
  | String c rest => String (upper_char c) (upper rest)
  end.

Definition lower_char (c : ascii) : ascii :=
  let n := nat_of_ascii c in
  if (Nat.leb 65 n && Nat.leb n 90)%bool then ascii_of_nat (n + 32) else c.

(** [s.lower()] *)
Fixpoint lower (s : string) : string :=
  match s with
  | EmptyString => EmptyString
  | String c rest => String (lower_char c) (lower rest)
  end.

(** Iterating over a text file opened with the default [newline=None]:
    "\r\n" and "\r" read as "\n", and every line keeps its "\n". *)
Fixpoint universal_newlines (s : string) : string :=
  match s with
  | EmptyString => EmptyString
  | String c rest =>
      if Ascii.eqb c CR then
        match rest with
        | String c' rest' =>
            if Ascii.eqb c' LF then String LF (universal_newlines rest')
            else String LF (universal_newlines rest)
        | EmptyString => String LF EmptyString
        end
      else String c (universal_newlines rest)
  end.

Fixpoint lines_go (cur : string) (s : string) : list string :=
  match s with
  | EmptyString =>
      match cur with
      | EmptyString => []
      | _ => [String.rev cur]
      end
  | String c rest =>
      if Ascii.eqb c LF then String.rev (String c cur) :: lines_go EmptyString rest
      else lines_go (String c cur) rest
  end.

Definition file_lines (content : string) : list string :=
  lines_go EmptyString (universal_newlines content).

(** [v.upper()]: a method of str *)
Definition upper_method (v : pyval) : result string :=
  match v with
  | PyStr s => Ok (upper s)
  | _ => raise AttributeError
  end.

(** [os.fspath(v)] *)
Definition fspath (v : pyval) : result string :=
  match v with
  | PyStr s => Ok s
  | PyPath p => Ok p
  | _ => raise TypeError
  end.

Definition endswith_sep (s : string) : bool :=
  match String.rev s with
  | String "/"%char _ => true
  | _ => false
  end.

(** [os.path.join(a, b)] (posixpath) *)
Definition os_path_join (a b : pyval) : result string :=
  path ← fspath a;
  b ← fspath b;
  if String.prefix "/" b then Ok b
  else if String.eqb path "" || endswith_sep path then Ok (path +:+ b)
  else Ok (path +:+ "/" +:+ b).

(** An f-string before it is rendered: literal text and interpolated
    values.  It renders to a known text when every interpolated value is
    a str, whose [str()] is the value itself. *)
Inductive fpart : Type :=
  | Lit (s : string)
  | Interp (v : pyval).

Definition fstring : Type := list fpart.

Fixpoint render (f : fstring) : option string :=
  match f with
  | [] => Some EmptyString
  | Lit s :: rest => String.append s <$> render rest
  | Interp (PyStr s) :: rest => String.append s <$> render rest
  | Interp _ :: _ => None
  end.

End Python.

(* ===================================================================== *)
(** * archinstall/lib/hardware.py                                         *)
(* ===================================================================== *)

Module Hardware.
Import Python.

(** What [SysCommand(cmd)] gives back when the command succeeds:
    [str(cmd)] and the lines obtained by iterating over it. *)
Record output : Type := {
  text : string;
  lines : list string
}.

(** The machine the detectors look at. *)
Record machine : Type := {
  files : gmap string string;          (* readable text files and their content *)
  directories : gset string;           (* existing directories *)
  commands : string -> result output   (* SysCommand: output, or SysCallError *)
}.

(** The module-level [_sys_info] object with its two [cached_property]
    slots, and the messages handed to [debug]. *)
Record state : Type := {
  cpu_info_cache : option (gmap string string);
  mem_info_cache : option (gmap string Z);
  debug_log : list string
}.

Definition initial : state :=
  {| cpu_info_cache := None; mem_info_cache := None; debug_log := [] |}.

Definition H (A : Type) : Type := state -> result A * state.

#[global] Instance H_ret : MRet H := fun _ a st => (Ok a, st).
#[global] Instance H_bind : MBind H := fun _ _ f m st =>
  match m st with
  | (Ok a, st') => f a st'
  | (Fail x, st') => (Fail x, st')
  end.

Definition lift {A} (r : result A) : H A := fun st => (r, st).

Definition debug (msg : string) : H unit := fun st =>
  (Ok tt, {| cpu_info_cache := cpu_info_cache st;
             mem_info_cache := mem_info_cache st;
             debug_log := debug_log st ++ [msg] |}).

(** [open(path)] followed by reading the whole file *)
Definition open (m : machine) (path : string) : result string :=
  match files m !! path with
  | Some content => Ok content
  | None => raise (FileNotFoundError path)
  end.

(** [for x in l: acc = body(acc, x)], stopping at the first exception *)
Fixpoint for_each {A S} (body : S -> A -> result S) (acc : S) (l : list A) : result S :=
  match l with
  | [] => Ok acc
  | x :: rest =>
      match body acc x with
      | Ok acc' => for_each body acc' rest
      | Fail e => Fail e
      end
  end.

Section SysInfo.
Variable m : machine.

(** ** class _SysInfo *)

Definition cpu_info_line (cpu : gmap string string) (line : string)
  : result (gmap string string) :=
  let line := strip line in
  if negb (String.eqb line "") then
    match split1 ":" line with
    | [key; value] => Ok (<[strip key := strip value]> cpu)
    | _ => raise ValueError
    end
  else Ok cpu.

Definition read_cpu_info : result (gmap string string) :=
  content ← open m "/proc/cpuinfo";
  for_each cpu_info_line ∅ (file_lines content).

Definition cpu_info : H (gmap string string) := fun st =>
  match cpu_info_cache st with
  | Some cpu => (Ok cpu, st)
  | None =>
      match read_cpu_info with
      | Ok cpu => (Ok cpu, {| cpu_info_cache := Some cpu;
                              mem_info_cache := mem_info_cache st;
                              debug_log := debug_log st |})
      | Fail e => (Fail e, st)
      end
  end.

Definition mem_info_line (mem_info : gmap string Z) (line : string)
  : result (gmap string Z) :=
  match split ":" (strip line) with
  | [key; value] =>
      match split_ws value with
      | num :: _ => n ← int num; Ok (<[key := n]> mem_info)
      | [] => raise IndexError
      end
  | _ => raise ValueError
  end.

Definition read_mem_info : result (gmap string Z) :=
  content ← open m "/proc/meminfo";
  for_each mem_info_line ∅ (file_lines content).

Definition mem_info : H (gmap string Z) := fun st =>
  match mem_info_cache st with
  | Some mem => (Ok mem, st)
  | None =>
      match read_mem_info with
      | Ok mem => (Ok mem, {| cpu_info_cache := cpu_info_cache st;
                              mem_info_cache := Some mem;
                              debug_log := debug_log st |})
      | Fail e => (Fail e, st)
      end
  end.

Definition mem_info_by_key (key : string) : H Z :=
  mem ← mem_info;
  match mem !! key with
  | Some n => mret n
  | None => lift (raise (KeyError key))
  end.

(** ** class SysInfo *)

Definition has_uefi : bool :=
  bool_decide ("/sys/firmware/efi" ∈ directories m).

Definition cpu_vendor : H (option string) :=
  cpu ← cpu_info; mret (cpu !! "vendor_id").

Definition cpu_model : H (option string) :=
  cpu ← cpu_info; mret (cpu !! "model name").

(** [file.read()] on a file opened in text mode: the line ends are
    translated as they are for the iteration over the lines. *)
Definition read (content : string) : string := universal_newlines content.

Definition sys_vendor : H string :=
  lift (vendor ← open m "/sys/devices/virtual/dmi/id/sys_vendor";
        mret (strip (read vendor))).

Definition product_name : H string :=
  lift (product ← open m "/sys/devices/virtual/dmi/id/product_name";
        mret (strip (read product))).

Definition mem_available : H Z := mem_info_by_key "MemAvailable".
Definition mem_free : H Z := mem_info_by_key "MemFree".
Definition mem_total : H Z := mem_info_by_key "MemTotal".

Definition virtualization : H (option string) :=
  match commands m "systemd-detect-virt" with
  | Ok out => mret (Some (strip_crlf (text out)))
  | Fail (Raised (SysCallError err)) =>
      debug ("Could not detect virtual system: " +:+ err);;
      mret None
  | Fail x => lift (Fail x)
  end.

Definition is_vm : H bool :=
  match commands m "systemd-detect-virt" with
  | Ok result =>
      mret (negb (is_substring "none" (lower (String.concat "" (lines result)))))
  | Fail (Raised (SysCallError err)) =>
      debug ("System is not running in a VM: " +:+ err);;
      mret false
  | Fail x => lift (Fail x)
  end.

End SysInfo.

(** ** What a line of /proc/cpuinfo says *)

(** The line is not blank and sets [key]. *)
Definition defines (key : string) (line : string) : bool :=
  negb (String.eqb (strip line) "")
  && match split1 ":" (strip line) with
     | [k; _] => String.eqb (strip k) key
     | _ => false
     end.

Definition value_of (line : string) : string :=
  match split1 ":" (strip line) with
  | [_; value] => strip value
  | _ => EmptyString
  end.

(** The value that the last line setting [key] gives it, if any. *)
Fixpoint last_value (key : string) (found : option string) (l : list string)
  : option string :=
  match l with
  | [] => found
  | line :: rest =>
      last_value key (if defines key line then Some (value_of line) else found) rest
  end.

(** ** What a line of /proc/meminfo says *)

(** The text before the only ':' of the line is [key], as it stands. *)
Definition mem_defines (key : string) (line : string) : bool :=
  match split ":" (strip line) with
  | [k; _] => String.eqb k key
  | _ => false
  end.

(** The integer that the first word after the ':' reads as. *)
Definition amount_of (line : string) : option Z :=
  match split ":" (strip line) with
  | [_; value] =>
      match split_ws value with
      | num :: _ =>
          match int num with
          | Ok n => Some n
          | Fail _ => None
          end
      | [] => None
      end
  | _ => None
  end.

(** The amount that the last line setting [key] gives it, if any. *)
Fixpoint last_amount (key : string) (found : option Z) (l : list string)
  : option Z :=
  match l with
  | [] => found
  | line :: rest =>
      last_amount key (if mem_defines key line then amount_of line else found) rest
  end.

(** The first character of [s], if any, is kept by [drop]. *)
Definition head_kept (drop : ascii -> bool) (s : string) : Prop :=
  match s with
  | EmptyString => True
  | String c _ => drop c = false
  end.

(** Neither end of [s] would be removed by [strip_by drop]. *)
Definition stripped (drop : ascii -> bool) (s : string) : Prop :=
  head_kept drop s /\ head_kept drop (String.rev s).

(** ** The lines that the two parsers reject *)

(** A cpu-info line is rejected when it is not blank and has no ':'. *)
Definition cpu_line_malformed (line : string) : bool :=
  negb (String.eqb (strip line) "") && negb (has_char ":" (strip line)).

(** A mem-info line is accepted when it has exactly one ':' and the first
    word after it reads as an integer. *)
Definition mem_line_wellformed (line : string) : bool :=
  match split ":" (strip line) with
  | [_; value] =>
      match split_ws value with
      | num :: _ => is_ok (int num)
      | [] => false
      end
  | _ => false
  end.

End Hardware.

(* ===================================================================== *)
(** * archinstall/scripts/guided.py, examples/interactive_installation.py *)
(* ===================================================================== *)

Module Guided.
Import Python.

(** The two scripts share [ask_user_questions] and [perform_installation]
    up to three literals; [script] says which file is being read. *)
Inductive script : Type :=
  | guided_py
  | interactive_installation_py.

(** The three places that call [installation.add_additional_packages]. *)
Inductive call_site : Type :=
  | bootloader_prerequisite
  | user_packages
  | pulseaudio_server.

(** The calls into the rest of archinstall and into the terminal; a run is
    recorded as the list of the calls it makes. *)
Inductive event : Type :=
  | Print (text : string)
  | Info (message : fstring)
  | Debug (message : fstring)
  | Check_mirror_reachable
  | GlobalMenu_run (entries : list (string * bool))
  | ConfigurationOutput_init
  | ConfigurationOutput_show
  | ConfigurationOutput_save
  | Input (prompt : string)
  | FilesystemHandler_init (disk_config disk_encryption : pyval)
  | Partition_and_format
  | Installer_enter (mountpoint disk_config disk_encryption kernels : pyval)
  | Installer_exit
  | Mount_ordered_layout
  | Sanity_check
  | Generate_key_files
  | Use_mirrors (region : pyval)
  | Minimal_installation (testing multilib : bool) (hostname : pyval)
                         (locales : list fstring)
  | Set_mirrors (region : pyval)
  | Setup_swap (kind : string)
  | Add_additional_packages (site : call_site) (packages : pyval)
  | Add_bootloader (bootloader : pyval)
  | Config_installer (network_config profile_config : pyval)
  | Create_users (users : pyval)
  | PipewireProfile_install
  | Install_profile_config (profile_config : pyval)
  | Set_timezone (timezone : pyval)
  | Activate_time_syncronization
  | Accessibility_tools_in_use
  | Enable_espeakup
  | User_set_pw (user : string) (password : pyval)
  | Set_keyboard_language (layout : pyval)
  | Post_install (profile : pyval)
  | Enable_service (services : pyval)
  | Run_custom_user_commands (commands : pyval)
  | Genfstab
  | Menu_run (prompt : string)
  | Drop_to_shell.

(** What a run finds around it. *)
Record env : Type := {
  machine : Hardware.machine;
  storage : gmap string pyval;               (* archinstall.storage *)
  raises : event -> option abort;            (* calls that raise, or exit, instead of returning *)
  mirror_reachable : bool;                   (* answer of check_mirror_reachable() *)
  menu_result : list (string * bool) -> gmap string pyval -> gmap string pyval;
                                             (* the data store once GlobalMenu.run() returns *)
  accessibility_tools : bool;                (* answer of accessibility_tools_in_use() *)
  chroot_choice_is_yes : bool;               (* choice.value == Menu.yes() *)
  disk_layouts : pyval                       (* answer of disk.disk_layouts() *)
}.

(** A run: the calls made so far and how the code ended. *)
Definition M (A : Type) : Type := (list event * result A)%type.

Definition trace {A} (m : M A) : list event := fst m.
Definition outcome {A} (m : M A) : result A := snd m.

#[global] Instance M_ret : MRet M := fun _ a => ([], Ok a).
#[global] Instance M_bind : MBind M := fun _ _ f m =>
  match m with
  | (t, Ok a) => let r := f a in ((t ++ trace r)%list, outcome r)
  | (t, Fail x) => (t, Fail x)
  end.

Definition lift {A} (r : result A) : M A := ([], r).

Definition exit {A} (code : Z) : M A := ([], Fail (SystemExit code)).

Definition pass : M unit := mret tt.

Section Run.
Variable E : env.

(** An external call: it is made, then returns, raises or exits. *)
Definition call (e : event) : M unit :=
  ([e], match raises E e with
        | Some x => Fail x
        | None => Ok tt
        end).

(** An external call that returns [answer]. *)
Definition ask {A} (e : event) (answer : A) : M A :=
  call e;; mret answer.

(** [try: m / except: pass] and [try: m / except Exception: pass] *)
Definition try_except_pass (caught : abort -> bool) (m : M unit) : M unit :=
  match m with
  | (t, Fail x) => if caught x then (t, Ok tt) else (t, Fail x)
  | (t, Ok a) => (t, Ok a)
  end.

(** [with Installer(...) as installation: body]; [__exit__] runs on every
    way out of the body and lets an exception through. *)
Definition with_Installer (mountpoint disk_config disk_encryption kernels : pyval)
    (body : M unit) : M unit :=
  call (Installer_enter mountpoint disk_config disk_encryption kernels);;
  match outcome body with
  | Ok _ => ((trace body ++ [Installer_exit])%list, outcome (call Installer_exit))
  | Fail x => ((trace body ++ [Installer_exit])%list, Fail x)
  end.

Definition menu_entries (arguments : gmap string pyval) : list (string * bool) :=
  [ ("archinstall-language", false);
    ("keyboard-layout", false);
    ("mirror-region", false);
    ("sys-language", false);
    ("sys-encoding", false);
    ("disk_config", true);
    ("disk_encryption", false);
    ("bootloader", false);
    ("swap", false);
    ("hostname", false);
    ("!root-password", true);
    ("!users", true);
    ("profile_config", false);
    ("audio", false);
    ("kernels", false);
    ("packages", false) ]
  ++ (if truthy (get_or arguments "advanced" (PyBool false))
      then [("parallel downloads", false)] else [])
  ++ [ ("nic", false);
       ("timezone", false);
       ("ntp", false);
       ("additional-repositories", false);
       ("__separator__", false);
       ("save_config", false);
       ("install", false);
       ("abort", false) ].

(** [ask_user_questions()]: the menu edits [archinstall.arguments]. *)
Definition ask_user_questions (arguments : gmap string pyval)
  : M (gmap string pyval) :=
  let global_menu := menu_entries arguments in
  ask (GlobalMenu_run global_menu) (menu_result E global_menu arguments).

(** Modelled from the spec: [FilesystemHandler.perform_filesystem_operations]
    is defined outside the files read here.  The spec says of it:
    "Filesystem operations (partition/format) — runs unless disk_config
    mode is pre-mounted". *)
Definition perform_filesystem_operations (disk_config : pyval) : M unit :=
  config_type ← lift (getattr disk_config "config_type");
  if eq_enum config_type "DiskLayoutType" "Pre_mount" then pass
  else call Partition_and_format.

Definition no_audio_message (v : script) : string :=
  match v with
  | guided_py => "No audio server will be installed"
  | interactive_installation_py => "No audio server will be installed."
  end.

Definition packages_default (v : script) : pyval :=
  match v with
  | guided_py => PyNone
  | interactive_installation_py => PyList []
  end.

Definition drop_to_shell_caught (v : script) : abort -> bool :=
  match v with
  | guided_py => fun _ => true
  | interactive_installation_py => is_Exception
  end.

Definition chroot_prompt : string :=
  "Would you like to chroot into the newly created installation and perform post-installation configuration?".

Definition perform_installation (v : script) (arguments : gmap string pyval)
    (mountpoint : pyval) : M unit :=
  call (Info [Lit "Starting installation"]);;
  disk_config ← lift (getitem arguments "disk_config");
  enable_testing ←
    lift (contains_str "testing" (get_or arguments "additional-repositories" (PyList [])));
  enable_multilib ←
    lift (contains_str "multilib" (get_or arguments "additional-repositories" (PyList [])));
  encoding ← lift (upper_method (get_or arguments "sys-encoding" (PyStr "UTF-8")));
  let locale := [Interp (get_or arguments "sys-language" (PyStr "en_US"));
                 Lit " "; Interp (PyStr encoding)] in
  let disk_encryption := get_or arguments "disk_encryption" PyNone in
  with_Installer mountpoint disk_config disk_encryption
                 (get_or arguments "kernels" (PyList [PyStr "linux"])) (
    config_type ← lift (getattr disk_config "config_type");
    (if negb (eq_enum config_type "DiskLayoutType" "Pre_mount")
     then call Mount_ordered_layout else pass);;
    call Sanity_check;;
    config_type ← lift (getattr disk_config "config_type");
    (if negb (eq_enum config_type "DiskLayoutType" "Pre_mount") then
       if truthy disk_encryption then
         encryption_type ← lift (getattr disk_encryption "encryption_type");
         if negb (eq_enum encryption_type "EncryptionType" "NoEncryption")
         then call Generate_key_files else pass
       else pass
     else pass);;
    (if truthy (get_or arguments "mirror-region" PyNone) then
       region ← lift (getitem arguments "mirror-region");
       call (Use_mirrors region)
     else pass);;
    call (Minimal_installation enable_testing enable_multilib
            (get_or arguments "hostname" (PyStr "archlinux")) [locale]);;
    (if is_not_None (get arguments "mirror-region") then
       if is_not_None (get_or arguments "mirrors" PyNone) then
         region ← lift (getitem arguments "mirror-region");
         call (Set_mirrors region)
       else pass
     else pass);;
    (if truthy (get arguments "swap") then call (Setup_swap "zram") else pass);;
    (if eq_enum (get arguments "bootloader") "Bootloader" "Grub"
        && Hardware.has_uefi (machine E)
     then call (Add_additional_packages bootloader_prerequisite (PyStr "grub"))
     else pass);;
    bootloader ← lift (getitem arguments "bootloader");
    call (Add_bootloader bootloader);;
    let network_config := get_or arguments "nic" PyNone in
    (if truthy network_config then
       call (Config_installer network_config (get_or arguments "profile_config" PyNone))
     else pass);;
    wanted ←
      (if truthy (get_or arguments "packages" PyNone) then
         first ← lift (item0 (get_or arguments "packages" PyNone));
         mret (negb (eq_str first ""))
       else mret false);
    (if wanted : bool then
       call (Add_additional_packages user_packages
               (get_or arguments "packages" (packages_default v)))
     else pass);;
    (let users := get_or arguments "!users" PyNone in
     if truthy users then call (Create_users users) else pass);;
    (let audio := get_or arguments "audio" PyNone in
     if truthy audio then
       call (Info [Lit "Installing audio server: "; Interp audio]);;
       if eq_str audio "pipewire" then call PipewireProfile_install
       else if eq_str audio "pulseaudio"
       then call (Add_additional_packages pulseaudio_server (PyStr "pulseaudio"))
       else pass
     else call (Info [Lit (no_audio_message v)]));;
    (let profile_config := get_or arguments "profile_config" PyNone in
     if truthy profile_config then call (Install_profile_config profile_config)
     else pass);;
    (let timezone := get_or arguments "timezone" PyNone in
     if truthy timezone then call (Set_timezone timezone) else pass);;
    (if truthy (get_or arguments "ntp" (PyBool false))
     then call Activate_time_syncronization else pass);;
    in_use ← ask Accessibility_tools_in_use (accessibility_tools E);
    (if in_use : bool then call Enable_espeakup else pass);;
    (let root_pw := get_or arguments "!root-password" PyNone in
     nonempty ←
       (if truthy root_pw then
          n ← lift (len root_pw); mret (negb (n =? 0))
        else mret false);
     if nonempty : bool then call (User_set_pw "root" root_pw) else pass);;
    layout ← lift (getitem arguments "keyboard-layout");
    call (Set_keyboard_language layout);;
    (let profile_config := get_or arguments "profile_config" PyNone in
     if truthy profile_config then
       profile ← lift (getattr profile_config "profile");
       match profile with
       | PyObj _ _ => call (Post_install profile)
       | _ => lift (raise AttributeError)
       end
     else pass);;
    (if truthy (get_or arguments "services" PyNone)
     then call (Enable_service (get_or arguments "services" (PyList [])))
     else pass);;
    (if truthy (get_or arguments "custom-commands" PyNone) then
       commands ← lift (getitem arguments "custom-commands");
       call (Run_custom_user_commands commands)
     else pass);;
    call Genfstab;;
    call (Info [Lit "For post-installation tips, see https://wiki.archlinux.org/index.php/Installation_guide#Post-installation"]);;
    (if negb (truthy (get arguments "silent")) then
       call (Menu_run chroot_prompt);;
       if chroot_choice_is_yes E
       then try_except_pass (drop_to_shell_caught v) (call Drop_to_shell)
       else pass
     else pass)
  );;
  call (Debug [Lit "Disk states after installing: "; Interp (disk_layouts E)]).

(** The statements of both scripts after the function definitions. *)
Definition install (v : script) (arguments : gmap string pyval) : M unit :=
  disk_config ← lift (getitem arguments "disk_config");
  call (FilesystemHandler_init disk_config
          (get_or arguments "disk_encryption" PyNone));;
  perform_filesystem_operations disk_config;;
  perform_installation v arguments
    (get_or (storage E) "MOUNT_POINT" (PyPath "/mnt")).

(** The f-string logged when the mirrors cannot be reached. *)
Definition mirrors_not_reachable (log_file : string) : fstring :=
  [Lit "Arch Linux mirrors are not reachable. Please check your internet connection and the log file '";
   Interp (PyStr log_file); Lit "'."].

(** The module body of guided.py *)
Definition guided (arguments : gmap string pyval) : M unit :=
  (if truthy (get arguments "help") then
     call (Print "See `man archinstall` for help.");;
     exit 0
   else pass);;
  (if is_False (get_or arguments "skip-mirror-check" (PyBool false)) then
     reachable ← ask Check_mirror_reachable (mirror_reachable E);
     if negb reachable then
       log_file ← lift (os_path_join (get_or (storage E) "LOG_PATH" PyNone)
                                     (get_or (storage E) "LOG_FILE" PyNone));
       call (Info (mirrors_not_reachable log_file));;
       exit 1
     else pass
   else pass);;
  arguments ←
    (if negb (truthy (get arguments "silent"))
     then ask_user_questions arguments else mret arguments);
  call ConfigurationOutput_init;;
  (if negb (truthy (get arguments "silent"))
   then call ConfigurationOutput_show else pass);;
  call ConfigurationOutput_save;;
  (if truthy (get arguments "dry_run") then exit 0 else pass);;
  (if negb (truthy (get arguments "silent"))
   then call (Input "Press Enter to continue.") else pass);;
  install guided_py arguments.

(** The module body of interactive_installation.py *)
Definition interactive_installation (arguments : gmap string pyval) : M unit :=
  arguments ← ask_user_questions arguments;
  install interactive_installation_py arguments.

Definition main (v : script) (arguments : gmap string pyval) : M unit :=
  match v with
  | guided_py => guided arguments
  | interactive_installation_py => interactive_installation arguments
  end.

(** [archinstall.arguments] when the dry-run gate and the installation
    read it: what [ask_user_questions] left there, if it ran. *)
Definition plan (v : script) (arguments : gmap string pyval) : gmap string pyval :=
  match v with
  | guided_py =>
      if negb (truthy (get arguments "silent"))
      then menu_result E (menu_entries arguments) arguments
      else arguments
  | interactive_installation_py =>
      menu_result E (menu_entries arguments) arguments
  end.

End Run.

(** ** Classes of calls *)

(** The calls that talk to the operator or write the log and the
    configuration file; every other call is a step of the installation
    ([install]: the filesystem operations and [perform_installation]). *)
Definition installation_step (e : event) : bool :=
  match e with
  | Print _ | Info _ | Debug _ | Input _
  | Check_mirror_reachable | GlobalMenu_run _
  | ConfigurationOutput_init | ConfigurationOutput_show
  | ConfigurationOutput_save => false
  | _ => true
  end.

(** The steps that write to the target disk. *)
Definition mutating (e : event) : bool :=
  match e with
  | Partition_and_format | Mount_ordered_layout | Generate_key_files
  | Minimal_installation _ _ _ _ | Setup_swap _ | Add_bootloader _
  | Add_additional_packages _ _ | Genfstab => true
  | _ => false
  end.

(** [arguments['disk_config'].config_type] *)
Definition disk_mode (arguments : gmap string pyval) : result pyval :=
  disk_config ← getitem arguments "disk_config";
  getattr disk_config "config_type".

Definition Pre_mount : pyval := PyEnum "DiskLayoutType" "Pre_mount".

(** The partition/format step and the mount step *)
Definition prepares_disk (e : event) : bool :=
  match e with
  | Partition_and_format | Mount_ordered_layout => true
  | _ => false
  end.

Definition is_keyboard_step (e : event) : bool :=
  match e with
  | Set_keyboard_language _ => true
  | _ => false
  end.

Definition is_profile_install (e : event) : bool :=
  match e with
  | Install_profile_config _ => true
  | _ => false
  end.

Definition is_add_bootloader (e : event) : bool :=
  match e with
  | Add_bootloader _ => true
  | _ => false
  end.

Definition is_genfstab (e : event) : bool :=
  match e with
  | Genfstab => true
  | _ => false
  end.

(** [x] has been called before any call of the class [K], and no call of
    the class [X] is made from that call on. *)
Definition ordered (x : event) (X K : event -> bool) (tr : list event) : Prop :=
  forall pre e post,
    tr = (pre ++ e :: post)%list -> K e = true ->
    In x pre /\ Forall (fun e' => X e' = false) (e :: post).

Definition nothing : event -> bool := fun _ => false.

Definition gathers (e : event) : bool :=
  match e with
  | GlobalMenu_run _ => true
  | _ => false
  end.

Definition persists (e : event) : bool :=
  match e with
  | ConfigurationOutput_save => true
  | _ => false
  end.

(** The run ends with the call [x] and with the result [r]. *)
Definition ends_with {A} (x : event) (r : result A) (m : M A) : Prop :=
  outcome m = r /\ exists pre, trace m = (pre ++ [x])%list.

(** The test that guards the installation of the additional packages:
    [arguments.get('packages', None) and arguments.get('packages', None)[0] != ''],
    false when the subscript raises. *)
Definition packages_requested (arguments : gmap string pyval) : bool :=
  let packages := get_or arguments "packages" PyNone in
  truthy packages
  && match item0 packages with
     | Ok first => negb (eq_str first "")
     | Fail _ => false
     end.

(** The call that installs the prerequisite of the bootloader, and the
    test that guards it. *)
Definition grub : event :=
  Add_additional_packages bootloader_prerequisite (PyStr "grub").

Definition grub_required (E : env) (arguments : gmap string pyval) : bool :=
  eq_enum (get arguments "bootloader") "Bootloader" "Grub"
  && Hardware.has_uefi (machine E).

Definition is_user_packages (e : event) : bool :=
  match e with
  | Add_additional_packages user_packages _ => true
  | _ => false
  end.

Definition installing_audio (audio : pyval) : event :=
  Info [Lit "Installing audio server: "; Interp audio].

Definition no_audio (v : script) : event :=
  Info [Lit (no_audio_message v)].

Definition installs_audio_server (e : event) : bool :=
  match e with
  | PipewireProfile_install => true
  | Add_additional_packages pulseaudio_server _ => true
  | _ => false
  end.

Definition is_no_audio (e : event) : bool :=
  match e with
  | Info [Lit s] => String.prefix "No audio server will be installed" s
  | _ => false
  end.

(** ** More classes of calls and orders between them *)

Definition is_installer_enter (e : event) : bool :=
  match e with
  | Installer_enter _ _ _ _ => true
  | _ => false
  end.

Definition is_installer_exit (e : event) : bool :=
  match e with
  | Installer_exit => true
  | _ => false
  end.

(** The calls that are handed the [installation] object. *)
Definition uses_installer (e : event) : bool :=
  match e with
  | Mount_ordered_layout | Sanity_check | Generate_key_files
  | Minimal_installation _ _ _ _ | Set_mirrors _ | Setup_swap _
  | Add_additional_packages _ _ | Add_bootloader _ | Config_installer _ _
  | Create_users _ | PipewireProfile_install | Install_profile_config _
  | Set_timezone _ | Activate_time_syncronization | Enable_espeakup
  | User_set_pw _ _ | Set_keyboard_language _ | Post_install _
  | Enable_service _ | Run_custom_user_commands _ | Genfstab
  | Drop_to_shell => true
  | _ => false
  end.

(** The calls that wait for the operator. *)
Definition prompts (e : event) : bool :=
  match e with
  | GlobalMenu_run _ | ConfigurationOutput_show | Input _ | Menu_run _
  | Drop_to_shell => true
  | _ => false
  end.

(** The calls that only the module body of guided.py makes. *)
Definition preflight_or_persist (e : event) : bool :=
  match e with
  | Print _ | Check_mirror_reachable | ConfigurationOutput_init
  | ConfigurationOutput_show | ConfigurationOutput_save | Input _ => true
  | _ => false
  end.

Definition is_sanity_check (e : event) : bool :=
  match e with
  | Sanity_check => true
  | _ => false
  end.

Definition is_minimal_installation (e : event) : bool :=
  match e with
  | Minimal_installation _ _ _ _ => true
  | _ => false
  end.

Definition is_post_install (e : event) : bool :=
  match e with
  | Post_install _ => true
  | _ => false
  end.

Definition is_drop_to_shell (e : event) : bool :=
  match e with
  | Drop_to_shell => true
  | _ => false
  end.

(** The name, in the source, of what is called. *)
Definition method (e : event) : string :=
  match e with
  | Print _ => "print"
  | Info _ => "info"
  | Debug _ => "debug"
  | Check_mirror_reachable => "check_mirror_reachable"
  | GlobalMenu_run _ => "GlobalMenu.run"
  | ConfigurationOutput_init => "ConfigurationOutput"
  | ConfigurationOutput_show => "ConfigurationOutput.show"
  | ConfigurationOutput_save => "ConfigurationOutput.save"
  | Input _ => "input"
  | FilesystemHandler_init _ _ => "FilesystemHandler"
  | Partition_and_format => "perform_filesystem_operations"
  | Installer_enter _ _ _ _ => "Installer.__enter__"
  | Installer_exit => "Installer.__exit__"
  | Mount_ordered_layout => "mount_ordered_layout"
  | Sanity_check => "sanity_check"
  | Generate_key_files => "generate_key_files"
  | Use_mirrors _ => "use_mirrors"
  | Minimal_installation _ _ _ _ => "minimal_installation"
  | Set_mirrors _ => "set_mirrors"
  | Setup_swap _ => "setup_swap"
  | Add_additional_packages _ _ => "add_additional_packages"
  | Add_bootloader _ => "add_bootloader"
  | Config_installer _ _ => "config_installer"
  | Create_users _ => "create_users"
  | PipewireProfile_install => "PipewireProfile.install"
  | Install_profile_config _ => "install_profile_config"
  | Set_timezone _ => "set_timezone"
  | Activate_time_syncronization => "activate_time_syncronization"
  | Accessibility_tools_in_use => "accessibility_tools_in_use"
  | Enable_espeakup => "enable_espeakup"
  | User_set_pw _ _ => "user_set_pw"
  | Set_keyboard_language _ => "set_keyboard_language"
  | Post_install _ => "post_install"
  | Enable_service _ => "enable_service"
  | Run_custom_user_commands _ => "run_custom_user_commands"
  | Genfstab => "genfstab"
  | Menu_run _ => "Menu.run"
  | Drop_to_shell => "drop_to_shell"
  end.

(** The calls of the method [name]. *)
Definition calls (name : string) (e : event) : bool :=
  String.eqb (method e) name.

(** Before every call of the class [K] a call of the class [X] was made. *)
Definition preceded (X K : event -> bool) (tr : list event) : Prop :=
  forall pre e post,
    tr = (pre ++ e :: post)%list -> K e = true -> existsb X pre = true.

(** After every call of the class [K] a call of the class [Y] is made. *)
Definition followed (Y K : event -> bool) (tr : list event) : Prop :=
  forall pre e post,
    tr = (pre ++ e :: post)%list -> K e = true -> existsb Y post = true.

(** After a call of the class [K] no call of the class [X] is made. *)
Definition none_after (X K : event -> bool) (tr : list event) : Prop :=
  forall pre e post,
    tr = (pre ++ e :: post)%list -> K e = true ->
    Forall (fun e' => X e' = false) post.

(** The run returns, or ends with an exit or an exception that
    satisfies [Q]. *)
Definition ends_only {A} (Q : abort -> Prop) (m : M A) : Prop :=
  forall x, outcome m = Fail x -> Q x.

(** A run that returns has made a call of the class [X]. *)
Definition returns_after {A} (X : event -> bool) (m : M A) : Prop :=
  forall a, outcome m = Ok a -> existsb X (trace m) = true.

(** The run does not return. *)
Definition fails {A} (m : M A) : Prop :=
  forall a, outcome m <> Ok a.

End Guided.

(* ===================================================================== *)
(** * Concrete machines, environments and plans                           *)
(* ===================================================================== *)

Module Scenarios.
Import Python Guided.

Definition newline : string := String LF EmptyString.

Definition no_tool : string -> result Hardware.output :=
  fun _ => raise (SysCallError "systemd-detect-virt: command not found").

(** A machine without any of the sources the detectors read. *)
Definition bare_machine : Hardware.machine :=
  {| Hardware.files := ∅;
     Hardware.directories := ∅;
     Hardware.commands := no_tool |}.

(** A BIOS machine and a UEFI machine with well-formed pseudo-files. *)
Definition proc_files : gmap string string :=
  {[ "/proc/cpuinfo" :=
       "vendor_id : GenuineIntel" +:+ newline +:+
       "model name : Example CPU" +:+ newline +:+ newline;
     "/proc/meminfo" :=
       "MemTotal:       16384 kB" +:+ newline +:+
       "MemFree:         1024 kB" +:+ newline ]}.

Definition bios_machine : Hardware.machine :=
  {| Hardware.files := proc_files;
     Hardware.directories := ∅;
     Hardware.commands := no_tool |}.

Definition uefi_machine : Hardware.machine :=
  {| Hardware.files := proc_files;
     Hardware.directories := {[ "/sys/firmware/efi" ]};
     Hardware.commands := no_tool |}.

(** What the cpu-info file of these two machines says, and the state once
    it has been read. *)
Definition bios_cpu_info : gmap string string :=
  {[ "vendor_id" := "GenuineIntel"; "model name" := "Example CPU" ]}.

Definition bios_cached : Hardware.state :=
  {| Hardware.cpu_info_cache := Some bios_cpu_info;
     Hardware.mem_info_cache := None;
     Hardware.debug_log := [] |}.

(** A cpu-info file with two processors. *)
Definition two_cpu_info : string :=
  "processor : 0" +:+ newline +:+
  "vendor_id : GenuineIntel" +:+ newline +:+
  "model name : First CPU" +:+ newline +:+ newline +:+
  "processor : 1" +:+ newline +:+
  "vendor_id : AuthenticAMD" +:+ newline +:+
  "model name : Second CPU" +:+ newline.

Definition two_cpu_machine : Hardware.machine :=
  {| Hardware.files := {[ "/proc/cpuinfo" := two_cpu_info ]};
     Hardware.directories := ∅;
     Hardware.commands := no_tool |}.

(** Pseudo-files in which the requested keys are well formed and another
    line is not. *)
Definition garbled_machine : Hardware.machine :=
  {| Hardware.files :=
       {[ "/proc/cpuinfo" :=
            "vendor_id : GenuineIntel" +:+ newline +:+
            "garbage" +:+ newline;
          "/proc/meminfo" :=
            "MemTotal:       16384 kB" +:+ newline +:+
            "HugePages: many" +:+ newline ]};
     Hardware.directories := ∅;
     Hardware.commands := no_tool |}.

(** An environment in which every call returns and the menu changes
    nothing. *)
Definition quiet (m : Hardware.machine) (reachable : bool) : env :=
  {| machine := m;
     storage := {[ "LOG_PATH" := PyPath "/var/log/archinstall";
                   "LOG_FILE" := PyPath "install.log";
                   "MOUNT_POINT" := PyPath "/mnt/archinstall" ]};
     raises := fun _ => None;
     mirror_reachable := reachable;
     menu_result := fun _ arguments => arguments;
     accessibility_tools := false;
     chroot_choice_is_yes := false;
     disk_layouts := PyList [] |}.

Definition layout (mode : string) : pyval :=
  PyObj "DiskLayoutConfiguration" [("config_type", PyEnum "DiskLayoutType" mode)].

Definition profile : pyval :=
  PyObj "ProfileConfiguration" [("profile", PyObj "DesktopProfile" [])].

(** A silent plan for a fresh layout booted with GRUB. *)
Definition base_plan : gmap string pyval :=
  {[ "silent" := PyBool true;
     "disk_config" := layout "Default";
     "bootloader" := PyEnum "Bootloader" "Grub";
     "keyboard-layout" := PyStr "us" ]}.

(** A plan whose package list holds one empty name, and a plan whose
    audio field is the empty string; both run on the quiet UEFI machine. *)
Definition empty_name_plan : gmap string pyval :=
  <["packages" := PyList [PyStr ""]]> base_plan.

Definition empty_name_run : M unit :=
  perform_installation (quiet uefi_machine true) guided_py empty_name_plan
    (PyPath "/mnt").

Definition empty_audio_plan : gmap string pyval :=
  <["audio" := PyStr ""]> base_plan.

Definition empty_audio_run : M unit :=
  perform_installation (quiet uefi_machine true) guided_py empty_audio_plan
    (PyPath "/mnt").

(** A plan with an encrypted disk. *)
Definition encrypted_plan : gmap string pyval :=
  <["disk_encryption" :=
      PyObj "DiskEncryption" [("encryption_type", PyEnum "EncryptionType" "Luks")]]>
    base_plan.

(** A plan whose mirror region is the empty list, with an empty list of
    mirrors. *)
Definition empty_region_plan : gmap string pyval :=
  <["mirror-region" := PyList []]> (<["mirrors" := PyList []]> base_plan).

(** A plan that lacks the keyboard layout. *)
Definition no_keyboard_plan : gmap string pyval :=
  delete "keyboard-layout" base_plan.

(** A plan for an attended run, and an operator who asks for the shell in
    the new system and leaves it with a keyboard interrupt. *)
Definition attended_plan : gmap string pyval :=
  <["silent" := PyBool false]> base_plan.

Definition interrupted : env :=
  {| machine := uefi_machine;
     storage := ∅;
     raises := fun e => match e with
                        | Drop_to_shell => Some (Raised KeyboardInterrupt)
                        | _ => None
                        end;
     mirror_reachable := true;
     menu_result := fun _ arguments => arguments;
     accessibility_tools := true;
     chroot_choice_is_yes := true;
     disk_layouts := PyList [] |}.

(** A dry run that is not silent about the mirrors, which cannot be
    reached. *)
Definition unreachable_dry_run : M unit :=
  guided (quiet uefi_machine false) (<["dry_run" := PyBool true]> base_plan).

End Scenarios.

(* ===================================================================== *)
(** * Properties of the hardware detectors                                *)
(* ===================================================================== *)

Module HardwareSpec.
Import Python Hardware Scenarios.

(** ** The loops over the lines *)

Lemma for_each_fail_inv {A S} (body : S -> A -> result S) l acc x :
  for_each body acc l = Fail x ->
  exists acc' a, In a l /\ body acc' a = Fail x.
Proof.
  revert acc. induction l as [|a l IH]; intros acc; simpl; [discriminate|].
  destruct (body acc a) as [acc'|y] eqn:Hb.
  - intros Hf. destruct (IH _ Hf) as (acc'' & b & Hin & Hb').
    exists acc'', b. auto.
  - intros [= ->]. exists acc, a. auto.
Qed.

Lemma for_each_ok_inv {A S} (body : S -> A -> result S) l acc r :
  for_each body acc l = Ok r ->
  Forall (fun a => exists acc', is_ok (body acc' a) = true) l.
Proof.
  revert acc. induction l as [|a l IH]; intros acc; simpl; [constructor|].
  destruct (body acc a) as [acc'|y] eqn:Hb; [|discriminate].
  intros Hf. constructor; [|eauto].
  exists acc. by rewrite Hb.
Qed.

Lemma for_each_total {A S} (body : S -> A -> result S) l acc :
  Forall (fun a => forall acc', is_ok (body acc' a) = true) l ->
  exists r, for_each body acc l = Ok r.
Proof.
  intros Hall. revert acc. induction Hall as [|a l Ha _ IH]; intros acc; simpl.
  - eauto.
  - specialize (Ha acc). destruct (body acc a); [apply IH|discriminate].
Qed.

(** ** One line of /proc/cpuinfo *)

Lemma split1_on_length sep cur s :
  length (split1_on sep cur s) = if has_char sep s then 2%nat else 1%nat.
Proof.
  revert cur. induction s as [|c s IH]; intros cur; simpl; [done|].
  destruct (Ascii.eqb c sep); simpl; [done|]. apply IH.
Qed.

Lemma cpu_info_line_malformed cpu line :
  cpu_line_malformed line = true -> cpu_info_line cpu line = raise ValueError.
Proof.
  unfold cpu_line_malformed, cpu_info_line. intros [Hne Hc]%andb_prop.
  rewrite Hne. apply negb_true_iff in Hc.
  pose proof (split1_on_length ":" EmptyString (strip line)) as Hlen.
  rewrite Hc in Hlen. unfold split1.
  destruct (split1_on ":" "" (strip line)) as [|a [|b [|c l]]]; simpl in Hlen;
    try done.
Qed.

Lemma cpu_info_line_wellformed cpu line :
  cpu_line_malformed line = false -> is_ok (cpu_info_line cpu line) = true.
Proof.
  unfold cpu_line_malformed, cpu_info_line. intros Hm.
  destruct (negb (String.eqb (strip line) "")); [|done]. simpl in Hm.
  apply negb_false_iff in Hm.
  pose proof (split1_on_length ":" EmptyString (strip line)) as Hlen.
  rewrite Hm in Hlen. unfold split1.
  destruct (split1_on ":" "" (strip line)) as [|a [|b [|c l]]]; simpl in Hlen;
    done.
Qed.

Lemma read_cpu_info_malformed m content :
  files m !! "/proc/cpuinfo" = Some content ->
  Exists (fun line => cpu_line_malformed line = true) (file_lines content) ->
  read_cpu_info m = raise ValueError.
Proof.
  intros Hf Hex. unfold read_cpu_info, open. rewrite Hf. simpl.
  generalize (∅ : gmap string string).
  induction Hex as [line l Hbad|line l _ IH]; intros acc; simpl.
  - by rewrite (cpu_info_line_malformed _ _ Hbad).
  - destruct (cpu_line_malformed line) eqn:Hl.
    + by rewrite (cpu_info_line_malformed _ _ Hl).
    + pose proof (cpu_info_line_wellformed acc _ Hl) as Hok.
      destruct (cpu_info_line acc line); [apply IH|discriminate].
Qed.

Lemma read_cpu_info_wellformed m content :
  files m !! "/proc/cpuinfo" = Some content ->
  Forall (fun line => cpu_line_malformed line = false) (file_lines content) ->
  exists cpu, read_cpu_info m = Ok cpu.
Proof.
  intros Hf Hall. unfold read_cpu_info, open. rewrite Hf. simpl.
  apply for_each_total. eapply Forall_impl; [exact Hall|].
  intros line Hl acc. by apply cpu_info_line_wellformed.
Qed.

(** ** One line of /proc/meminfo *)

Lemma mem_info_line_wellformed mem line :
  mem_line_wellformed line = true -> is_ok (mem_info_line mem line) = true.
Proof.
  unfold mem_line_wellformed, mem_info_line.
  destruct (split ":" (strip line)) as [|key [|value [|x l]]]; try done.
  destruct (split_ws value) as [|num rest]; [done|].
  destruct (int num); done.
Qed.

Lemma mem_info_line_malformed mem line :
  mem_line_wellformed line = false ->
  mem_info_line mem line = raise ValueError \/
  mem_info_line mem line = raise IndexError.
Proof.
  unfold mem_line_wellformed, mem_info_line.
  destruct (split ":" (strip line)) as [|key [|value [|x l]]]; auto.
  destruct (split_ws value) as [|num rest]; [auto|].
  unfold int.
  destruct (match num with
            | String "-"%char t => Z.opp <$> digits 0 false t
            | String "+"%char t => digits 0 false t
            | _ => digits 0 false num
            end); [|auto].
  destruct (Nat.ltb int_max_str_digits (digit_count num)); [auto|done].
Qed.

Lemma read_mem_info_malformed m content :
  files m !! "/proc/meminfo" = Some content ->
  Exists (fun line => mem_line_wellformed line = false) (file_lines content) ->
  read_mem_info m = raise ValueError \/ read_mem_info m = raise IndexError.
Proof.
  intros Hf Hex. unfold read_mem_info, open. rewrite Hf. simpl.
  generalize (∅ : gmap string Z).
  induction Hex as [line l Hbad|line l _ IH]; intros acc; simpl.
  - destruct (mem_info_line_malformed acc _ Hbad) as [-> | ->]; auto.
  - destruct (mem_line_wellformed line) eqn:Hl.
    + pose proof (mem_info_line_wellformed acc _ Hl) as Hok.
      destruct (mem_info_line acc line); [apply IH|discriminate].
    + destruct (mem_info_line_malformed acc _ Hl) as [-> | ->]; auto.
Qed.

Lemma read_mem_info_wellformed m content :
  files m !! "/proc/meminfo" = Some content ->
  Forall (fun line => mem_line_wellformed line = true) (file_lines content) ->
  exists mem, read_mem_info m = Ok mem.
Proof.
  intros Hf Hall. unfold read_mem_info, open. rewrite Hf. simpl.
  apply for_each_total. eapply Forall_impl; [exact Hall|].
  intros line Hl acc. by apply mem_info_line_wellformed.
Qed.

(** ** The cached properties *)

Lemma cpu_info_fresh m st :
  cpu_info_cache st = None ->
  fst (cpu_info m st) = read_cpu_info m.
Proof.
  intros Hc. unfold cpu_info. rewrite Hc. by destruct (read_cpu_info m).
Qed.

Lemma mem_info_fresh m st :
  mem_info_cache st = None ->
  fst (mem_info m st) = read_mem_info m.
Proof.
  intros Hc. unfold mem_info. rewrite Hc. by destruct (read_mem_info m).
Qed.

Lemma H_bind_fst {A B} (f : A -> H B) (c : H A) st :
  fst ((c ≫= f) st) =
  match c st with
  | (Ok a, st') => fst (f a st')
  | (Fail x, _) => Fail x
  end.
Proof.
  unfold mbind, H_bind. by destruct (c st) as [[a|x] st'].
Qed.

Lemma cpu_query_fresh m st key :
  cpu_info_cache st = None ->
  fst ((cpu_info m ≫= λ cpu, mret (cpu !! key)) st) =
  (cpu ← read_cpu_info m; Ok (cpu !! key)).
Proof.
  intros Hc. rewrite H_bind_fst. unfold cpu_info. rewrite Hc.
  by destruct (read_cpu_info m).
Qed.

Lemma mem_info_by_key_fresh m st key :
  mem_info_cache st = None ->
  fst (mem_info_by_key m key st) =
  (mem ← read_mem_info m;
   match mem !! key with
   | Some n => Ok n
   | None => raise (KeyError key)
   end).
Proof.
  intros Hc. unfold mem_info_by_key. rewrite H_bind_fst.
  unfold mem_info. rewrite Hc.
  destruct (read_mem_info m) as [mem|x]; simpl; [|done].
  by destruct (mem !! key).
Qed.

(** ** Missing sources *)



Lemma tool_failure m st err :
  commands m "systemd-detect-virt" = raise (SysCallError err) ->
  virtualization m st =
    (Ok None,
     {| cpu_info_cache := cpu_info_cache st;
        mem_info_cache := mem_info_cache st;
        debug_log := (debug_log st
                      ++ ["Could not detect virtual system: " +:+ err])%list |})
  /\ fst (is_vm m st) = Ok false.
Proof.
  intros Hc. unfold virtualization, is_vm. by rewrite Hc.
Qed.




(** ** The virtualization utility *)

(** C7 (as amended).  When the virtualization-detection utility fails,
    [virtualization] returns None, not the string "unknown", and hands the
    failure to [debug]; it raises for no outcome of the utility, success or
    SysCallError. *)
Theorem virtualization_returns_None_on_failure m st :
  (forall err, commands m "systemd-detect-virt" = raise (SysCallError err) ->
     fst (virtualization m st) = Ok None
     /\ debug_log (snd (virtualization m st))
        = (debug_log st ++ ["Could not detect virtual system: " +:+ err])%list)
  /\ ((forall x, commands m "systemd-detect-virt" = Fail x ->
        exists err, x = Raised (SysCallError err)) ->
      is_ok (fst (virtualization m st)) = true).
Proof.
  split.
  - intros err Herr. destruct (tool_failure m st err Herr) as [-> _]. done.
  - intros Hout. unfold virtualization.
    destruct (commands m "systemd-detect-virt") as [out|x] eqn:Hc; [done|].
    by destruct (Hout x eq_refl) as [err ->].
Qed.

Lemma virtualization_witness :
  fst (virtualization bare_machine initial) = Ok None
  /\ debug_log (snd (virtualization bare_machine initial))
     = ["Could not detect virtual system: systemd-detect-virt: command not found"]
  /\ is_ok (fst (virtualization bare_machine initial)) = true.
Proof.
  destruct (virtualization_returns_None_on_failure bare_machine initial)
    as [Hfail Hraise].
  destruct (Hfail "systemd-detect-virt: command not found" eq_refl) as [Hv Hlog].
  split; [exact Hv|]. split; [exact Hlog|].
  apply Hraise. intros x [= <-]. by eexists.
Defined.

(** The claim C7 as it was written fails: after a failure of the utility
    the answer is None and not the string "unknown". *)
Lemma virtualization_is_not_unknown :
  fst (virtualization bare_machine initial) = Ok None
  /\ fst (virtualization bare_machine initial) <> Ok (Some "unknown").
Proof. split; [reflexivity|discriminate]. Qed.

(** ** Malformed lines *)

(** C8 (as amended).  The two pseudo-files are validated when they are
    parsed, not when a key is looked up: before anything is cached, one
    malformed line makes every query on that file raise, whichever key is
    asked for; when every line is well formed the cpu queries return the
    entry or None, and a memory query raises, with KeyError, only for a
    key that is not in the mapping. *)
Theorem parsing_validates_every_line m st :
  cpu_info_cache st = None ->
  mem_info_cache st = None ->
  (forall content, files m !! "/proc/cpuinfo" = Some content ->
     (Exists (fun line => cpu_line_malformed line = true) (file_lines content) ->
        fst (cpu_vendor m st) = raise ValueError
        /\ fst (cpu_model m st) = raise ValueError)
     /\ (Forall (fun line => cpu_line_malformed line = false) (file_lines content) ->
        exists cpu, read_cpu_info m = Ok cpu
          /\ fst (cpu_vendor m st) = Ok (cpu !! "vendor_id")
          /\ fst (cpu_model m st) = Ok (cpu !! "model name")))
  /\ (forall content, files m !! "/proc/meminfo" = Some content ->
     (Exists (fun line => mem_line_wellformed line = false) (file_lines content) ->
        forall key,
          fst (mem_info_by_key m key st) = raise ValueError
          \/ fst (mem_info_by_key m key st) = raise IndexError)
     /\ (Forall (fun line => mem_line_wellformed line = true) (file_lines content) ->
        exists mem, read_mem_info m = Ok mem
          /\ forall key,
               fst (mem_info_by_key m key st)
               = match mem !! key with
                 | Some n => Ok n
                 | None => raise (KeyError key)
                 end)).
Proof.
  intros Hcpu Hmem. split; intros content Hf; split.
  - intros Hbad. unfold cpu_vendor, cpu_model.
    rewrite !cpu_query_fresh by done.
    by rewrite (read_cpu_info_malformed _ _ Hf Hbad).
  - intros Hgood. destruct (read_cpu_info_wellformed _ _ Hf Hgood) as [cpu Hr].
    exists cpu. unfold cpu_vendor, cpu_model.
    rewrite !cpu_query_fresh by done. by rewrite Hr.
  - intros Hbad key. rewrite mem_info_by_key_fresh by done.
    destruct (read_mem_info_malformed _ _ Hf Hbad) as [-> | ->]; auto.
  - intros Hgood. destruct (read_mem_info_wellformed _ _ Hf Hgood) as [mem Hr].
    exists mem. split; [done|]. intros key.
    rewrite mem_info_by_key_fresh by done. by rewrite Hr.
Qed.

Lemma parsing_witness :
  (fst (cpu_vendor garbled_machine initial) = raise ValueError
   /\ fst (cpu_model garbled_machine initial) = raise ValueError)
  /\ (exists mem, read_mem_info bios_machine = Ok mem
       /\ forall key,
            fst (mem_info_by_key bios_machine key initial)
            = match mem !! key with
              | Some n => Ok n
              | None => raise (KeyError key)
              end).
Proof.
  split.
  - eapply (parsing_validates_every_line garbled_machine initial eq_refl eq_refl).
    + reflexivity.
    + apply Exists_cons_tl, Exists_cons_hd. reflexivity.
  - eapply (parsing_validates_every_line bios_machine initial eq_refl eq_refl).
    + reflexivity.
    + repeat constructor.
Defined.

(** The claim C8 as it was written fails: the lines of [vendor_id] and
    [MemTotal] are well formed and present, another line of each file is
    malformed and its key is not asked for, and both queries raise. *)
Lemma malformed_line_fails_other_keys :
  is_ok (cpu_info_line ∅ ("vendor_id : GenuineIntel" +:+ newline)) = true
  /\ fst (cpu_vendor garbled_machine initial) = raise ValueError
  /\ is_ok (mem_info_line ∅ ("MemTotal:       16384 kB" +:+ newline)) = true
  /\ fst (mem_total garbled_machine initial) = raise ValueError.
Proof. vm_compute. auto. Qed.

End HardwareSpec.

(* ===================================================================== *)
(** * Reasoning about runs                                                *)
(* ===================================================================== *)

Module Runs.
Import Python Guided.

Lemma trace_bind {A B} (m : M A) (f : A -> M B) :
  trace (m ≫= f) =
  (trace m ++ match outcome m with
              | Ok a => trace (f a)
              | Fail _ => []
              end)%list.
Proof.
  destruct m as [t [a|x]]; simpl; [done|]. by rewrite app_nil_r.
Qed.

Lemma outcome_bind {A B} (m : M A) (f : A -> M B) :
  outcome (m ≫= f) =
  match outcome m with
  | Ok a => outcome (f a)
  | Fail x => Fail x
  end.
Proof. by destruct m as [t [a|x]]. Qed.

Lemma trace_call E e : trace (call E e) = [e].
Proof. done. Qed.

Lemma outcome_call E e :
  outcome (call E e) = match raises E e with Some x => Fail x | None => Ok tt end.
Proof. done. Qed.

Lemma trace_ask {A} E e (a : A) : trace (ask E e a) = [e].
Proof.
  unfold ask. rewrite trace_bind, trace_call.
  by destruct (outcome (call E e)).
Qed.

Lemma outcome_ask_inv {A} E e (a b : A) : outcome (ask E e a) = Ok b -> b = a.
Proof.
  unfold ask. rewrite outcome_bind.
  destruct (outcome (call E e)); simpl; congruence.
Qed.

Lemma trace_with_Installer E mp dc enc k body :
  trace (with_Installer E mp dc enc k body) =
  Installer_enter mp dc enc k ::
  match raises E (Installer_enter mp dc enc k) with
  | Some _ => []
  | None => (trace body ++ [Installer_exit])%list
  end.
Proof.
  unfold with_Installer. rewrite trace_bind, trace_call, outcome_call. simpl.
  destruct (raises E (Installer_enter mp dc enc k)); simpl; [done|].
  by destruct (outcome body).
Qed.

(** ** Every call of a run satisfies [P] *)

Section All.
Context (P : event -> Prop).

Lemma all_bind {A B} (m : M A) (f : A -> M B) :
  Forall P (trace m) ->
  (forall a, outcome m = Ok a -> Forall P (trace (f a))) ->
  Forall P (trace (m ≫= f)).
Proof.
  intros Hm Hf. rewrite trace_bind. apply Forall_app. split; [done|].
  destruct (outcome m); [by apply Hf|constructor].
Qed.

Lemma all_call E e : P e -> Forall P (trace (call E e)).
Proof. intros. rewrite trace_call. by constructor. Qed.

Lemma all_ask {A} E e (a : A) : P e -> Forall P (trace (ask E e a)).
Proof. intros. rewrite trace_ask. by constructor. Qed.

Lemma all_lift {A} (r : result A) : Forall P (trace (lift r)).
Proof. constructor. Qed.

Lemma all_ret {A} (a : A) : Forall P (trace (mret a : M A)).
Proof. constructor. Qed.

Lemma all_pass : Forall P (trace pass).
Proof. constructor. Qed.

Lemma all_exit {A} code : Forall P (trace (exit code : M A)).
Proof. constructor. Qed.

Lemma all_try caught m :
  Forall P (trace m) -> Forall P (trace (try_except_pass caught m)).
Proof.
  destruct m as [t [a|x]]; simpl; [done|]. by destruct (caught x).
Qed.

Lemma all_with_Installer E mp dc enc k body :
  P (Installer_enter mp dc enc k) -> P Installer_exit ->
  Forall P (trace body) ->
  Forall P (trace (with_Installer E mp dc enc k body)).
Proof.
  intros Hin Hout Hb. rewrite trace_with_Installer. constructor; [done|].
  destruct (raises E _); [constructor|].
  apply Forall_app. split; [done|]. by constructor.
Qed.

End All.

(** Walks through the statements of a run; [leaf] proves [P e] for the
    calls, with the tests passed on the way among the hypotheses. *)
Ltac all_calls leaf :=
  cbv zeta;
  repeat match goal with
    | |- Forall _ (trace pass) => apply all_pass
    | |- Forall _ (trace (lift _)) => apply all_lift
    | |- Forall _ (trace (mret _)) => apply all_ret
    | |- Forall _ (trace (exit _)) => apply all_exit
    | |- Forall _ (trace (call _ _)) => apply all_call; leaf
    | |- Forall _ (trace (ask _ _ _)) => apply all_ask; leaf
    | |- Forall _ (trace (try_except_pass _ _)) => apply all_try
    | |- Forall _ (trace (with_Installer _ _ _ _ _ _)) =>
        apply all_with_Installer; [leaf | leaf | ]
    | |- Forall _ (trace (_ ≫= _)) =>
        apply all_bind; [ | intros ? ?; cbv beta zeta ]
    | |- Forall _ (trace (if ?b then _ else _)) => destruct b eqn:?
    | |- Forall _ (trace (match ?p with PyObj _ _ => _ | _ => _ end)) =>
        destruct p
    end.

(** ** Order of the calls *)

Lemma split_left (K : event -> bool) l1 l2 pre e post :
  Forall (fun e => K e = false) l1 -> K e = true ->
  (l1 ++ l2 = pre ++ e :: post)%list ->
  exists pre2, pre = (l1 ++ pre2)%list /\ l2 = (pre2 ++ e :: post)%list.
Proof.
  intros Hl1 He. revert pre. induction Hl1 as [|a l1 Ha _ IH]; intros pre Heq.
  - by exists pre.
  - destruct pre as [|b pre]; simpl in Heq; injection Heq as -> Heq.
    + congruence.
    + destruct (IH _ Heq) as (pre2 & -> & ->). by exists pre2.
Qed.

Lemma split_right (K : event -> bool) l1 l2 pre e post :
  Forall (fun e => K e = false) l2 -> K e = true ->
  (l1 ++ l2 = pre ++ e :: post)%list ->
  exists post1, l1 = (pre ++ e :: post1)%list /\ post = (post1 ++ l2)%list.
Proof.
  intros Hl2 He. revert pre. induction l1 as [|a l1 IH]; intros pre Heq.
  - simpl in Heq. subst l2. apply Forall_app in Hl2 as [_ Hl2].
    inversion Hl2; congruence.
  - destruct pre as [|b pre]; simpl in Heq; injection Heq as -> Heq.
    + by exists l1.
    + destruct (IH _ Heq) as (post1 & -> & ->). by exists post1.
Qed.

Section Ordered.
Context (x : event) (X K : event -> bool).

Lemma ordered_skip {A B} (m : M A) (f : A -> M B) :
  Forall (fun e => K e = false) (trace m) ->
  (forall a, outcome m = Ok a -> ordered x X K (trace (f a))) ->
  ordered x X K (trace (m ≫= f)).
Proof.
  intros Hm Hf pre e post Heq He. rewrite trace_bind in Heq.
  destruct (split_left K _ _ _ _ _ Hm He Heq) as (pre2 & -> & Hrest).
  destruct (outcome m) as [a|]; [|by destruct pre2].
  destruct (Hf a eq_refl _ _ _ Hrest He) as [Hin Hpost].
  split; [|done]. apply in_or_app. by right.
Qed.

Lemma ordered_here {B} E (f : unit -> M B) :
  K x = false ->
  (forall a, Forall (fun e => X e = false) (trace (f a))) ->
  ordered x X K (trace (call E x ≫= f)).
Proof.
  intros Hx Hf pre e post Heq He. rewrite trace_bind, trace_call in Heq.
  destruct pre as [|b pre]; cbn [app] in Heq; injection Heq as <- Heq.
  { congruence. }
  split; [by left|].
  destruct (raises E x); [destruct pre; discriminate|].
  specialize (Hf tt). rewrite Heq in Hf. by apply Forall_app in Hf as [_ ?].
Qed.

Lemma ordered_bind_l {A B} (m : M A) (f : A -> M B) :
  ordered x X K (trace m) ->
  (forall a, Forall (fun e => K e = false /\ X e = false) (trace (f a))) ->
  ordered x X K (trace (m ≫= f)).
Proof.
  intros Hm Hf pre e post Heq He. rewrite trace_bind in Heq.
  assert (Hrest : Forall (fun e => K e = false /\ X e = false)
            match outcome m with Ok a => trace (f a) | Fail _ => [] end).
  { destruct (outcome m); [apply Hf|constructor]. }
  destruct (split_right K _ _ _ _ _
              (Forall_impl _ _ _ Hrest (fun _ H => proj1 H)) He Heq)
    as (post1 & Htr & ->).
  destruct (Hm _ _ _ Htr He) as [Hin Hpost]. split; [done|].
  rewrite app_comm_cons. apply Forall_app. split; [done|].
  eapply Forall_impl; [exact Hrest|]. by intros ? [_ ?].
Qed.

Lemma ordered_with_Installer E mp dc enc k body :
  K (Installer_enter mp dc enc k) = false ->
  K Installer_exit = false -> X Installer_exit = false ->
  ordered x X K (trace body) ->
  ordered x X K (trace (with_Installer E mp dc enc k body)).
Proof.
  intros Hin Hout HX Hb pre e post Heq He. rewrite trace_with_Installer in Heq.
  destruct pre as [|b pre]; cbn [app] in Heq; injection Heq as <- Heq.
  { congruence. }
  destruct (raises E _); [destruct pre; discriminate|].
  assert (Hexit : Forall (fun e => K e = false) [Installer_exit])
    by by constructor.
  destruct (split_right K _ _ _ _ _ Hexit He Heq) as (post1 & Htr & ->).
  destruct (Hb _ _ _ Htr He) as [Hpre Hpost]. split; [by right|].
  rewrite app_comm_cons. apply Forall_app. split; [done|]. by constructor.
Qed.

End Ordered.

Lemma ordered_first x K {A B} (m : M A) (f : A -> M B) :
  Forall (fun e => K e = false) (trace m) ->
  In x (trace m) ->
  ordered x nothing K (trace (m ≫= f)).
Proof.
  intros Hm Hx pre e post Heq He. rewrite trace_bind in Heq.
  destruct (split_left K _ _ _ _ _ Hm He Heq) as (pre2 & -> & _).
  split; [apply in_or_app; by left|].
  apply Forall_forall. by intros.
Qed.

(** Walks to the call [x]: the statements before it make no call of the
    class [K]; [hook] is tried first at every statement, and what follows
    [x] is left to [rest]. *)
Ltac ordered_walk hook rest :=
  cbv beta iota zeta;
  repeat first
    [ progress hook
    | match goal with
      | |- ordered ?x _ _ (trace (call _ ?x ≫= _)) =>
          apply ordered_here; [reflexivity | intros ?; rest]
      | |- ordered _ _ _ (trace (with_Installer _ _ _ _ _ _ ≫= _)) =>
          apply ordered_bind_l;
          [ apply ordered_with_Installer; [reflexivity | reflexivity | reflexivity | ]
          | intros ?; all_calls ltac:(split; reflexivity) ]
      | |- ordered _ _ _ (trace (_ ≫= _)) =>
          apply ordered_skip;
          [ all_calls ltac:(reflexivity) | intros ? ?; cbv beta iota zeta ]
      end ].

Lemma ordered_nothing x K tr :
  (forall pre e post, tr = (pre ++ e :: post)%list -> K e = true -> In x pre) ->
  ordered x nothing K tr.
Proof.
  intros H pre e post Heq He. split; [by eapply H|].
  apply Forall_forall. by intros.
Qed.

Lemma all_nothing {A} (m : M A) :
  Forall (fun e => nothing e = false) (trace m).
Proof. apply Forall_forall. by intros. Qed.

(** ** Runs that stop right after a call *)

Lemma in_bind_r {A B} (m : M A) (f : A -> M B) a x :
  outcome m = Ok a -> In x (trace (f a)) -> In x (trace (m ≫= f)).
Proof.
  intros Hm Hx. rewrite trace_bind, Hm. apply in_or_app. by right.
Qed.

Lemma ends_with_skip (K : event -> bool) x {A B} (r : result B)
    (m : M A) (f : A -> M B) :
  K x = true ->
  Forall (fun e => K e = false) (trace m) ->
  (forall a, outcome m = Ok a -> In x (trace (f a)) -> ends_with x r (f a)) ->
  In x (trace (m ≫= f)) -> ends_with x r (m ≫= f).
Proof.
  intros Hx Hm Hf Hin. rewrite trace_bind in Hin.
  apply in_app_or in Hin as [Hin|Hin].
  { rewrite List.Forall_forall in Hm. specialize (Hm _ Hin). congruence. }
  unfold ends_with. rewrite outcome_bind, trace_bind.
  destruct (outcome m) as [a|]; [|done].
  destruct (Hf a eq_refl Hin) as [Hout [pre Hpre]]. split; [done|].
  exists (trace m ++ pre)%list. by rewrite Hpre, app_assoc.
Qed.

End Runs.

(* ===================================================================== *)
(** * More reasoning about runs                                           *)
(* ===================================================================== *)

Module Steps.
Import Python Guided Runs.

Lemma existsb_app_l {A} (f : A -> bool) l1 l2 :
  existsb f l1 = true -> existsb f (l1 ++ l2) = true.
Proof. intros H. rewrite existsb_app, H. done. Qed.

Lemma existsb_app_r {A} (f : A -> bool) l1 l2 :
  existsb f l2 = true -> existsb f (l1 ++ l2) = true.
Proof. intros H. rewrite existsb_app, H. apply orb_true_r. Qed.

Lemma split_cons (K : event -> bool) x l pre e post :
  K x = false -> K e = true ->
  x :: l = (pre ++ e :: post)%list ->
  exists pre2, pre = x :: pre2 /\ l = (pre2 ++ e :: post)%list.
Proof.
  intros Hx He Heq. destruct pre as [|b pre]; simpl in Heq;
    injection Heq as -> Heq; [congruence|]. by exists pre.
Qed.

(** ** A call of a class before *)

Section Preceded.
Context (X K : event -> bool).

Lemma preceded_skip {A B} (m : M A) (f : A -> M B) :
  Forall (fun e => K e = false) (trace m) ->
  (forall a, outcome m = Ok a -> preceded X K (trace (f a))) ->
  preceded X K (trace (m ≫= f)).
Proof.
  intros Hm Hf pre e post Heq He. rewrite trace_bind in Heq.
  destruct (split_left K _ _ _ _ _ Hm He Heq) as (pre2 & -> & Hrest).
  destruct (outcome m) as [a|]; [|destruct pre2; discriminate].
  apply existsb_app_r. by eapply (Hf a eq_refl).
Qed.

Lemma preceded_here {B} E x (f : unit -> M B) :
  X x = true -> K x = false ->
  preceded X K (trace (call E x ≫= f)).
Proof.
  intros HX HK pre e post Heq He. rewrite trace_bind, trace_call in Heq.
  cbn [app] in Heq.
  destruct (split_cons K _ _ _ _ _ HK He Heq) as (pre2 & -> & _).
  simpl. by rewrite HX.
Qed.

Lemma preceded_bind_l {A B} (m : M A) (f : A -> M B) :
  preceded X K (trace m) ->
  (forall a, Forall (fun e => K e = false) (trace (f a))) ->
  preceded X K (trace (m ≫= f)).
Proof.
  intros Hm Hf pre e post Heq He. rewrite trace_bind in Heq.
  assert (Hrest : Forall (fun e => K e = false)
            match outcome m with Ok a => trace (f a) | Fail _ => [] end).
  { destruct (outcome m); [apply Hf|constructor]. }
  destruct (split_right K _ _ _ _ _ Hrest He Heq) as (post1 & Htr & _).
  by eapply Hm.
Qed.

Lemma preceded_with_Installer E mp dc enc k body :
  K (Installer_enter mp dc enc k) = false ->
  K Installer_exit = false ->
  preceded X K (trace body) ->
  preceded X K (trace (with_Installer E mp dc enc k body)).
Proof.
  intros Hin Hout Hb pre e post Heq He. rewrite trace_with_Installer in Heq.
  destruct (split_cons K _ _ _ _ _ Hin He Heq) as (pre2 & -> & Hrest).
  destruct (raises E _); [destruct pre2; discriminate|].
  assert (Hexit : Forall (fun e => K e = false) [Installer_exit])
    by by constructor.
  destruct (split_right K _ _ _ _ _ Hexit He Hrest) as (post1 & Htr & _).
  simpl. rewrite (Hb _ _ _ Htr He). apply orb_true_r.
Qed.

Lemma preceded_entered E mp dc enc k body :
  X (Installer_enter mp dc enc k) = true ->
  K (Installer_enter mp dc enc k) = false ->
  preceded X K (trace (with_Installer E mp dc enc k body)).
Proof.
  intros HX HK pre e post Heq He. rewrite trace_with_Installer in Heq.
  destruct (split_cons K _ _ _ _ _ HK He Heq) as (pre2 & -> & _).
  simpl. by rewrite HX.
Qed.

End Preceded.

Ltac preceded_walk hook :=
  cbv beta iota zeta;
  repeat first
    [ progress hook
    | match goal with
      | |- preceded _ _ (trace (call _ _ ≫= _)) =>
          apply preceded_here; [reflexivity | reflexivity]
      | |- preceded _ _ (trace (with_Installer _ _ _ _ _ _ ≫= _)) =>
          apply preceded_bind_l;
          [ first [ apply preceded_entered; [reflexivity | reflexivity]
                  | apply preceded_with_Installer; [reflexivity | reflexivity | ] ]
          | intros ?; all_calls ltac:(reflexivity) ]
      | |- preceded _ _ (trace (_ ≫= _)) =>
          apply preceded_skip;
          [ all_calls ltac:(reflexivity) | intros ? ?; cbv beta iota zeta ]
      end ].

(** ** A call of a class after, and no call of a class after *)

Section After.
Context (Y K : event -> bool).

Lemma followed_skip {A B} (m : M A) (f : A -> M B) :
  Forall (fun e => K e = false) (trace m) ->
  (forall a, outcome m = Ok a -> followed Y K (trace (f a))) ->
  followed Y K (trace (m ≫= f)).
Proof.
  intros Hm Hf pre e post Heq He. rewrite trace_bind in Heq.
  destruct (split_left K _ _ _ _ _ Hm He Heq) as (pre2 & -> & Hrest).
  destruct (outcome m) as [a|]; [|destruct pre2; discriminate].
  by eapply (Hf a eq_refl).
Qed.

Lemma followed_bind_l {A B} (m : M A) (f : A -> M B) :
  followed Y K (trace m) ->
  (forall a, Forall (fun e => K e = false) (trace (f a))) ->
  followed Y K (trace (m ≫= f)).
Proof.
  intros Hm Hf pre e post Heq He. rewrite trace_bind in Heq.
  assert (Hrest : Forall (fun e => K e = false)
            match outcome m with Ok a => trace (f a) | Fail _ => [] end).
  { destruct (outcome m); [apply Hf|constructor]. }
  destruct (split_right K _ _ _ _ _ Hrest He Heq) as (post1 & Htr & ->).
  apply existsb_app_l. by eapply Hm.
Qed.

Lemma followed_with_Installer E mp dc enc k body :
  K (Installer_enter mp dc enc k) = false ->
  K Installer_exit = false -> Y Installer_exit = true ->
  followed Y K (trace (with_Installer E mp dc enc k body)).
Proof.
  intros Hin Hout HY pre e post Heq He. rewrite trace_with_Installer in Heq.
  destruct (split_cons K _ _ _ _ _ Hin He Heq) as (pre2 & -> & Hrest).
  destruct (raises E _); [destruct pre2; discriminate|].
  assert (Hexit : Forall (fun e => K e = false) [Installer_exit])
    by by constructor.
  destruct (split_right K _ _ _ _ _ Hexit He Hrest) as (post1 & _ & ->).
  apply existsb_app_r. simpl. by rewrite HY.
Qed.

Lemma followed_entered E mp dc enc k body :
  Forall (fun e => K e = false) (trace body) ->
  K Installer_exit = false -> Y Installer_exit = true ->
  raises E (Installer_enter mp dc enc k) = None ->
  followed Y K (trace (with_Installer E mp dc enc k body)).
Proof.
  intros Hb Hout HY Hret pre e post Heq He.
  rewrite trace_with_Installer, Hret in Heq.
  destruct pre as [|b pre]; cbn [app] in Heq; injection Heq as <- Heq.
  - subst post. apply existsb_app_r. simpl. by rewrite HY.
  - exfalso.
    assert (Hall : Forall (fun e => K e = false) (trace body ++ [Installer_exit])).
    { apply Forall_app. split; [done|]. by constructor. }
    rewrite Heq in Hall. apply Forall_app in Hall as [_ Hall].
    inversion Hall; congruence.
Qed.

End After.

Section NoneAfter.
Context (X K : event -> bool).

Lemma suffix_all (l pre post : list event) e :
  l = (pre ++ e :: post)%list ->
  Forall (fun e' => X e' = false) l -> Forall (fun e' => X e' = false) post.
Proof.
  intros -> Hall. apply Forall_app in Hall as [_ Hall]. by inversion Hall.
Qed.

Lemma none_after_skip {A B} (m : M A) (f : A -> M B) :
  Forall (fun e => K e = false) (trace m) ->
  (forall a, outcome m = Ok a -> none_after X K (trace (f a))) ->
  none_after X K (trace (m ≫= f)).
Proof.
  intros Hm Hf pre e post Heq He. rewrite trace_bind in Heq.
  destruct (split_left K _ _ _ _ _ Hm He Heq) as (pre2 & -> & Hrest).
  destruct (outcome m) as [a|]; [|destruct pre2; discriminate].
  by eapply (Hf a eq_refl).
Qed.

Lemma none_after_here {B} E x (f : unit -> M B) :
  (forall a, Forall (fun e => X e = false) (trace (f a))) ->
  none_after X K (trace (call E x ≫= f)).
Proof.
  intros Hf pre e post Heq He. rewrite trace_bind, trace_call in Heq.
  assert (Hrest : Forall (fun e => X e = false)
            match outcome (call E x) with Ok a => trace (f a) | Fail _ => [] end).
  { destruct (outcome (call E x)); [apply Hf|constructor]. }
  destruct pre as [|b pre]; cbn [app] in Heq; injection Heq as <- Heq.
  - by subst post.
  - by eapply suffix_all.
Qed.

Lemma none_after_bind_l {A B} (m : M A) (f : A -> M B) :
  none_after X K (trace m) ->
  (forall a, Forall (fun e => K e = false /\ X e = false) (trace (f a))) ->
  none_after X K (trace (m ≫= f)).
Proof.
  intros Hm Hf pre e post Heq He. rewrite trace_bind in Heq.
  assert (Hrest : Forall (fun e => K e = false /\ X e = false)
            match outcome m with Ok a => trace (f a) | Fail _ => [] end).
  { destruct (outcome m); [apply Hf|constructor]. }
  destruct (split_right K _ _ _ _ _
              (Forall_impl _ _ _ Hrest (fun _ H => proj1 H)) He Heq)
    as (post1 & Htr & ->).
  apply Forall_app. split; [by eapply Hm|].
  eapply Forall_impl; [exact Hrest|]. by intros ? [_ ?].
Qed.

Lemma none_after_with_Installer E mp dc enc k body :
  K (Installer_enter mp dc enc k) = false ->
  K Installer_exit = false -> X Installer_exit = false ->
  none_after X K (trace body) ->
  none_after X K (trace (with_Installer E mp dc enc k body)).
Proof.
  intros Hin Hout HX Hb pre e post Heq He. rewrite trace_with_Installer in Heq.
  destruct (split_cons K _ _ _ _ _ Hin He Heq) as (pre2 & -> & Hrest).
  destruct (raises E _); [destruct pre2; discriminate|].
  assert (Hexit : Forall (fun e => K e = false) [Installer_exit])
    by by constructor.
  destruct (split_right K _ _ _ _ _ Hexit He Hrest) as (post1 & Htr & ->).
  apply Forall_app. split; [by eapply Hb|]. by constructor.
Qed.

End NoneAfter.

(** ** How a run ends *)

Section Ends.
Context (E : env) (Q : abort -> Prop).

(** What the callees raise, and what the operations on values raise,
    satisfies [Q]. *)
Hypothesis callees : forall e x, raises E e = Some x -> Q x.
Hypothesis operands : forall x, operand_error x = true -> Q x.

Lemma ends_bind {A B} (m : M A) (f : A -> M B) :
  ends_only Q m ->
  (forall a, outcome m = Ok a -> ends_only Q (f a)) ->
  ends_only Q (m ≫= f).
Proof.
  intros Hm Hf x. rewrite outcome_bind.
  destruct (outcome m) as [a|y] eqn:Hout; [by apply Hf|].
  intros [= ->]. by apply Hm.
Qed.

Lemma ends_call e : ends_only Q (call E e).
Proof.
  intros x. rewrite outcome_call.
  destruct (raises E e) as [y|] eqn:Hcall; [|done].
  intros [= ->]. by eapply callees.
Qed.

Lemma ends_ask {A} e (a : A) : ends_only Q (ask E e a).
Proof. apply ends_bind; [apply ends_call|]. by intros. Qed.

Lemma ends_ret {A} (a : A) : ends_only Q (mret a : M A).
Proof. by intros x. Qed.

Lemma ends_pass : ends_only Q pass.
Proof. by intros x. Qed.

Lemma ends_exit {A} code : Q (SystemExit code) -> ends_only Q (exit code : M A).
Proof. intros Hc x [= <-]. done. Qed.

Lemma ends_lift {A} (r : result A) :
  (forall x, r = Fail x -> operand_error x = true) -> ends_only Q (lift r).
Proof. intros Hr x Hout. by apply operands, Hr. Qed.

Lemma ends_try caught m :
  ends_only Q m -> ends_only Q (try_except_pass caught m).
Proof.
  intros Hm x. destruct m as [t [a|y]]; simpl; [done|].
  destruct (caught y); [done|]. apply Hm.
Qed.

Lemma ends_with_Installer mp dc enc k body :
  ends_only Q body -> ends_only Q (with_Installer E mp dc enc k body).
Proof.
  intros Hb. unfold with_Installer. apply ends_bind; [apply ends_call|].
  intros _ _ x. simpl.
  destruct (outcome body) as [a|y] eqn:Hout; simpl.
  - apply ends_call.
  - intros [= ->]. by apply Hb.
Qed.

End Ends.

Lemma getitem_fails d key x : getitem d key = Fail x -> operand_error x = true.
Proof. unfold getitem. destruct (d !! key); [done|]. by intros [= <-]. Qed.

Lemma getattr_fails v name x : getattr v name = Fail x -> operand_error x = true.
Proof.
  unfold getattr. destruct v; try (by intros [= <-]).
  destruct (assoc name attrs); [done|]. by intros [= <-].
Qed.

Lemma contains_str_fails s v x : contains_str s v = Fail x -> operand_error x = true.
Proof. destruct v; try done; by intros [= <-]. Qed.

Lemma upper_method_fails v x : upper_method v = Fail x -> operand_error x = true.
Proof. destruct v; try done; by intros [= <-]. Qed.

Lemma item0_fails v x : item0 v = Fail x -> operand_error x = true.
Proof. destruct v as [| | | |[|]|[|]| | | |]; try done; by intros [= <-]. Qed.

Lemma len_fails v x : len v = Fail x -> operand_error x = true.
Proof. destruct v; try done; by intros [= <-]. Qed.

Lemma os_path_join_fails a b x : os_path_join a b = Fail x -> operand_error x = true.
Proof.
  unfold os_path_join.
  destruct (fspath a) as [pa|xa] eqn:Ha; simpl.
  - destruct (fspath b) as [pb|xb] eqn:Hb; simpl.
    + repeat match goal with
             | |- context [if ?c then _ else _] => destruct c
             end; intros Hf; discriminate Hf.
    + destruct b; simpl in Hb; try discriminate;
        unfold raise in Hb; injection Hb as <-; by intros [= <-].
  - destruct a; simpl in Ha; try discriminate;
      unfold raise in Ha; injection Ha as <-; by intros [= <-].
Qed.

Ltac fails_plainly :=
  intros ?;
  first [ apply getitem_fails | apply getattr_fails | apply contains_str_fails
        | apply upper_method_fails | apply item0_fails | apply len_fails
        | apply os_path_join_fails | by intros [= <-] ].

(** Walks through the statements of a run; [Hcall] and [Hop] are the two
    hypotheses on what is raised, [leaf] proves [Q] at the calls of
    [exit]. *)
Ltac ends_walk Hcall Hop leaf :=
  cbv zeta;
  repeat match goal with
    | |- ends_only _ pass => apply ends_pass
    | |- ends_only _ (mret _) => apply ends_ret
    | |- ends_only _ (lift _) => apply (ends_lift _ Hop); fails_plainly
    | |- ends_only _ (exit _) => apply ends_exit; leaf
    | |- ends_only _ (call _ _) => apply (ends_call _ _ Hcall)
    | |- ends_only _ (ask _ _ _) => apply (ends_ask _ _ Hcall)
    | |- ends_only _ (ask_user_questions _ _) => apply (ends_ask _ _ Hcall)
    | |- ends_only _ (try_except_pass _ _) => apply ends_try
    | |- ends_only _ (with_Installer _ _ _ _ _ _) =>
        apply (ends_with_Installer _ _ Hcall)
    | |- ends_only _ (_ ≫= _) =>
        apply ends_bind; [ | intros ? ?; cbv beta zeta ]
    | |- ends_only _ (if ?b then _ else _) => destruct b eqn:?
    | |- ends_only _ (match ?p with PyObj _ _ => _ | _ => _ end) =>
        destruct p
    end.

(** ** Runs that return *)

Lemma outcome_bind_ok {A B} (m : M A) (f : A -> M B) b :
  outcome (m ≫= f) = Ok b -> exists a, outcome m = Ok a /\ outcome (f a) = Ok b.
Proof.
  rewrite outcome_bind. destruct (outcome m) as [a|]; [|done]. by exists a.
Qed.

Lemma with_Installer_ok E mp dc enc k body b :
  outcome (with_Installer E mp dc enc k body) = Ok b ->
  raises E (Installer_enter mp dc enc k) = None
  /\ outcome body = Ok tt /\ raises E Installer_exit = None.
Proof.
  unfold with_Installer. intros (a & Henter & Hrest)%outcome_bind_ok.
  rewrite outcome_call in Henter.
  destruct (raises E (Installer_enter mp dc enc k)); [done|]. split; [done|].
  destruct (outcome body) as [[]|]; simpl in Hrest; [|done].
  split; [done|]. by destruct (raises E Installer_exit).
Qed.

Lemma returns_after_skip {A B} X (m : M A) (f : A -> M B) :
  (forall a, outcome m = Ok a -> returns_after X (f a)) ->
  returns_after X (m ≫= f).
Proof.
  intros Hf b (a & Hm & Hfa)%outcome_bind_ok.
  rewrite trace_bind, Hm. apply existsb_app_r. by eapply Hf.
Qed.

Lemma returns_after_here {B} X E x (f : unit -> M B) :
  X x = true -> returns_after X (call E x ≫= f).
Proof.
  intros HX b _. rewrite trace_bind, trace_call. simpl. by rewrite HX.
Qed.

Lemma returns_after_bind_l {A B} X (m : M A) (f : A -> M B) :
  returns_after X m -> returns_after X (m ≫= f).
Proof.
  intros Hm b (a & Hma & _)%outcome_bind_ok.
  rewrite trace_bind. apply existsb_app_l. by eapply Hm.
Qed.

Lemma returns_after_with_Installer X E mp dc enc k body :
  returns_after X body -> returns_after X (with_Installer E mp dc enc k body).
Proof.
  intros Hb b Hout. destruct (with_Installer_ok _ _ _ _ _ _ _ Hout) as (Hin & Hbody & _).
  rewrite trace_with_Installer, Hin. simpl.
  rewrite existsb_app, (Hb _ Hbody). apply orb_true_r.
Qed.

Lemma returns_after_call X E x : X x = true -> returns_after X (call E x).
Proof. intros HX a _. rewrite trace_call. simpl. by rewrite HX. Qed.

(** The statement [m] makes a call of the class [X] whenever it returns,
    and none of the class [K]: every later call of the class [K] comes
    after it. *)
Lemma preceded_in X K {A B} (m : M A) (f : A -> M B) :
  Forall (fun e => K e = false) (trace m) ->
  returns_after X m ->
  preceded X K (trace (m ≫= f)).
Proof.
  intros Hm HX pre e post Heq He. rewrite trace_bind in Heq.
  destruct (split_left K _ _ _ _ _ Hm He Heq) as (pre2 & -> & Hrest).
  destruct (outcome m) as [a|] eqn:Hout; [|destruct pre2; discriminate].
  apply existsb_app_l. by eapply HX.
Qed.

Ltac returns_walk :=
  cbv beta iota zeta;
  repeat match goal with
    | |- returns_after _ (call _ _ ≫= _) =>
        apply returns_after_here; reflexivity
    | |- returns_after _ (with_Installer _ _ _ _ _ _ ≫= _) =>
        apply returns_after_bind_l, returns_after_with_Installer
    | |- returns_after _ (_ ≫= _) =>
        apply returns_after_skip; intros ? _; cbv beta iota zeta
    end.

(** Proves that the statement at hand makes a call of the class [X]
    whenever it returns. *)
Ltac returns_step hook :=
  cbv beta iota zeta;
  repeat first
    [ progress hook
    | match goal with
      | |- returns_after _ (call _ _) => apply returns_after_call; reflexivity
      | |- returns_after _ (call _ _ ≫= _) => apply returns_after_here; reflexivity
      | |- returns_after _ (_ ≫= _) =>
          apply returns_after_skip; intros ? ?; cbv beta iota zeta
      end ].

(** Walks to the statement that makes the call of the class [X]. *)
Ltac runs_before hook :=
  preceded_walk
    ltac:(idtac; first
      [ progress hook
      | apply preceded_in;
        [ solve [all_calls ltac:(reflexivity)] | solve [returns_step hook] ] ]).

(** ** Runs that cannot return *)

Lemma fails_here {A B} (m : M A) (f : A -> M B) :
  fails m -> fails (m ≫= f).
Proof.
  intros Hm b. rewrite outcome_bind.
  destruct (outcome m) as [a|] eqn:Hout; [by destruct (Hm a)|done].
Qed.

Lemma fails_skip {A B} (m : M A) (f : A -> M B) :
  (forall a, outcome m = Ok a -> fails (f a)) -> fails (m ≫= f).
Proof.
  intros Hf b. rewrite outcome_bind.
  destruct (outcome m) as [a|] eqn:Hout; [by apply Hf|done].
Qed.

Lemma fails_with_Installer E mp dc enc k body :
  fails body -> fails (with_Installer E mp dc enc k body).
Proof.
  intros Hb. unfold with_Installer. apply fails_skip. intros _ _ a. simpl.
  destruct (outcome body) as [b|] eqn:Hout; [by destruct (Hb b)|done].
Qed.

Lemma fails_lift {A} (r : result A) x : r = Fail x -> fails (lift r).
Proof. intros -> a. done. Qed.

End Steps.

(* ===================================================================== *)
(** * Properties of the installation pipeline                             *)
(* ===================================================================== *)

Module GuidedSpec.
Import Python Guided Runs Steps Scenarios.

Lemma lift_ok {A} (r : result A) a : outcome (lift r) = Ok a -> r = Ok a.
Proof. done. Qed.

Lemma gathered_plan E arguments a :
  outcome (if negb (truthy (get arguments "silent"))
           then ask_user_questions E arguments else mret arguments) = Ok a ->
  a = plan E guided_py arguments.
Proof.
  unfold plan. destruct (negb (truthy (get arguments "silent"))).
  - apply outcome_ask_inv.
  - by intros [= <-].
Qed.

Lemma disk_mode_inv arguments dc ct mode :
  disk_mode arguments = Ok mode ->
  getitem arguments "disk_config" = Ok dc ->
  getattr dc "config_type" = Ok ct ->
  ct = mode.
Proof.
  unfold disk_mode. intros Hm Hdc Hct. rewrite Hdc in Hm. simpl in Hm.
  congruence.
Qed.

(** ** Runs that return *)

Lemma reached (X : event -> bool) tr :
  existsb X tr = true ->
  exists pre e post, tr = (pre ++ e :: post)%list /\ X e = true.
Proof.
  intros (e & Hin & He)%existsb_exists.
  destruct (in_split _ _ Hin) as (pre & post & ->). by exists pre, e, post.
Qed.

Lemma completed_run_has X E v arguments mountpoint :
  X Sanity_check = true \/ X Genfstab = true \/ X Installer_exit = true ->
  returns_after X (perform_installation E v arguments mountpoint) .
Proof.
  intros HX. unfold perform_installation. cbv zeta.
  destruct HX as [HX|[HX|HX]].
  - repeat match goal with
      | |- returns_after _ (call _ Sanity_check ≫= _) =>
          by apply returns_after_here
      | |- returns_after _ (with_Installer _ _ _ _ _ _ ≫= _) =>
          apply returns_after_bind_l, returns_after_with_Installer
      | |- returns_after _ (_ ≫= _) =>
          apply returns_after_skip; intros ? _; cbv beta iota zeta
      end.
  - repeat match goal with
      | |- returns_after _ (call _ Genfstab ≫= _) =>
          by apply returns_after_here
      | |- returns_after _ (with_Installer _ _ _ _ _ _ ≫= _) =>
          apply returns_after_bind_l, returns_after_with_Installer
      | |- returns_after _ (_ ≫= _) =>
          apply returns_after_skip; intros ? _; cbv beta iota zeta
      end.
  - repeat match goal with
      | |- returns_after _ (with_Installer _ _ _ _ _ _ ≫= _) =>
          apply returns_after_bind_l
      | |- returns_after _ (_ ≫= _) =>
          apply returns_after_skip; intros ? _; cbv beta iota zeta
      end.
    intros b Hout. destruct (with_Installer_ok _ _ _ _ _ _ _ Hout) as (Hin & _ & _).
    rewrite trace_with_Installer, Hin.
    apply existsb_exists. exists Installer_exit. split; [|done].
    right. apply in_or_app. right. by left.
Qed.

Lemma completed_run_installs_the_bootloader E v arguments mountpoint :
  returns_after is_add_bootloader (perform_installation E v arguments mountpoint).
Proof. unfold perform_installation. returns_walk. Qed.

(** A call that comes before every call of the class [K] is made in every
    run that makes a call of that class. *)
Lemma made_before x X K tr :
  ordered x X K tr -> existsb K tr = true -> In x tr.
Proof.
  intros Hord (pre & e & post & -> & He)%reached.
  destruct (Hord pre e post eq_refl He) as [Hin _].
  apply in_or_app. by left.
Qed.

(** ** Pre-mounted layouts *)

Lemma install_pre_mounted E v arguments :
  disk_mode arguments = Ok Pre_mount ->
  Forall (fun e => prepares_disk e = false) (trace (install E v arguments)).
Proof.
  intros Hmode. unfold install, perform_filesystem_operations, perform_installation.
  all_calls ltac:(try reflexivity).
  all: repeat match goal with
       | H : outcome (lift _) = Ok _ |- _ => apply lift_ok in H
       end.
  all: match goal with
       | Hdc : getitem _ "disk_config" = Ok ?dc,
         Hct : getattr ?dc "config_type" = Ok ?ct |- _ =>
           pose proof (disk_mode_inv _ _ _ _ Hmode Hdc Hct); subst ct
       end.
  all: discriminate.
Qed.

(** C5.  For every plan whose [disk_config] has the pre-mounted mode,
    neither the partition/format step of the filesystem operations nor the
    mount of the target layout is called, in either script and whatever the
    other fields of the plan hold. *)
Theorem pre_mounted_skips_format_and_mount E v arguments :
  disk_mode (plan E v arguments) = Ok Pre_mount ->
  Forall (fun e => prepares_disk e = false) (trace (main E v arguments)).
Proof.
  intros Hmode. destruct v; unfold main, guided, interactive_installation.
  - unfold ask_user_questions. all_calls ltac:(try reflexivity).
    all: match goal with
         | H : outcome (if negb _ then _ else _) = Ok ?a |- _ =>
             first [ apply gathered_plan in H
                   | apply (gathered_plan _ _ a) ]; subst a
         | _ => idtac
         end.
    all: by apply install_pre_mounted.
  - unfold ask_user_questions.
    apply all_bind; [by apply all_ask|].
    intros a Ha. apply outcome_ask_inv in Ha. subst a.
    by apply install_pre_mounted.
Qed.

Lemma pre_mounted_witness :
  Forall (fun e => prepares_disk e = false)
    (trace (main (quiet uefi_machine true) guided_py
              (<["disk_config" := layout "Pre_mount"]> base_plan))).
Proof.
  apply pre_mounted_skips_format_and_mount. vm_compute. reflexivity.
Defined.

(** ** The bootloader prerequisite *)

Lemma grub_only_if_required E v arguments mountpoint :
  Forall (fun e => forall p, e = Add_additional_packages bootloader_prerequisite p ->
                   p = PyStr "grub" /\ grub_required E arguments = true)
    (trace (perform_installation E v arguments mountpoint)).
Proof.
  unfold perform_installation, grub_required.
  all_calls ltac:(by intros ? [=]).
Qed.

Lemma grub_before_bootloader E v arguments mountpoint :
  grub_required E arguments = true ->
  ordered grub nothing is_add_bootloader
    (trace (perform_installation E v arguments mountpoint)).
Proof.
  unfold perform_installation, grub_required, grub. intros Hreq. cbv zeta.
  rewrite Hreq. ordered_walk idtac ltac:(apply all_nothing).
Qed.

(** C2.  The prerequisite package of the bootloader (grub) is installed
    if and only if the chosen bootloader is GRUB and the machine has UEFI.
    The call is made only under that test.  Under that test it is made in
    every run that returns, and in every run, also one that fails later,
    it precedes every installation of the bootloader.  Without UEFI it is
    never made, whatever the bootloader. *)
Theorem bootloader_prerequisite_iff_grub_and_uefi E v arguments mountpoint :
  let run := perform_installation E v arguments mountpoint in
  (forall p, In (Add_additional_packages bootloader_prerequisite p) (trace run) ->
     p = PyStr "grub"
     /\ eq_enum (get arguments "bootloader") "Bootloader" "Grub" = true
     /\ Hardware.has_uefi (machine E) = true)
  /\ (eq_enum (get arguments "bootloader") "Bootloader" "Grub" = true ->
      Hardware.has_uefi (machine E) = true ->
      (outcome run = Ok tt -> In grub (trace run))
      /\ forall pre e post,
           trace run = (pre ++ e :: post)%list -> is_add_bootloader e = true ->
           In grub pre)
  /\ (Hardware.has_uefi (machine E) = false ->
      forall p, ~ In (Add_additional_packages bootloader_prerequisite p) (trace run)).
Proof.
  intros run.
  assert (Honly : forall p,
    In (Add_additional_packages bootloader_prerequisite p) (trace run) ->
    p = PyStr "grub" /\ grub_required E arguments = true).
  { intros p Hin.
    pose proof (grub_only_if_required E v arguments mountpoint) as Hall.
    rewrite List.Forall_forall in Hall. by apply (Hall _ Hin). }
  split; [|split].
  - intros p Hin. destruct (Honly p Hin) as [-> Hreq].
    by apply andb_prop in Hreq as [? ?].
  - intros Hgrub Huefi.
    assert (Hreq : grub_required E arguments = true)
      by (unfold grub_required; by rewrite Hgrub, Huefi).
    pose proof (grub_before_bootloader E v arguments mountpoint Hreq) as Hord.
    split.
    + intros Hout. eapply made_before; [exact Hord|].
      by apply (completed_run_installs_the_bootloader E v arguments mountpoint tt).
    + intros pre e post Heq He. by eapply Hord.
  - intros Huefi p Hin. destruct (Honly p Hin) as [_ Hreq].
    unfold grub_required in Hreq. rewrite Huefi in Hreq.
    by rewrite andb_false_r in Hreq.
Qed.

Lemma bootloader_prerequisite_witness :
  let uefi := perform_installation (quiet uefi_machine true) guided_py
                base_plan (PyPath "/mnt") in
  let bios := perform_installation (quiet bios_machine true) guided_py
                base_plan (PyPath "/mnt") in
  (eq_enum (get base_plan "bootloader") "Bootloader" "Grub" = true
   /\ Hardware.has_uefi uefi_machine = true
   /\ outcome uefi = Ok tt
   /\ In grub (trace uefi)
   /\ existsb is_add_bootloader (trace uefi) = true)
  /\ (Hardware.has_uefi bios_machine = false
      /\ outcome bios = Ok tt
      /\ existsb is_add_bootloader (trace bios) = true
      /\ Forall (fun e => forall p,
                   e <> Add_additional_packages bootloader_prerequisite p)
           (trace bios)).
Proof.
  intros uefi bios.
  assert (Huefi : outcome uefi = Ok tt) by (vm_compute; reflexivity).
  assert (Hbios : outcome bios = Ok tt) by (vm_compute; reflexivity).
  destruct (bootloader_prerequisite_iff_grub_and_uefi
              (quiet uefi_machine true) guided_py base_plan (PyPath "/mnt"))
    as (_ & Hif & _).
  destruct (bootloader_prerequisite_iff_grub_and_uefi
              (quiet bios_machine true) guided_py base_plan (PyPath "/mnt"))
    as (_ & _ & Hnever).
  split.
  - split; [reflexivity|]. split; [reflexivity|]. split; [exact Huefi|].
    split; [|vm_compute; reflexivity].
    exact (proj1 (Hif eq_refl eq_refl) Huefi).
  - split; [reflexivity|]. split; [exact Hbios|].
    split; [vm_compute; reflexivity|].
    apply List.Forall_forall. intros e Hin p ->.
    exact (Hnever eq_refl p Hin).
Defined.

(** ** The additional packages *)

Lemma wanted_inv arguments a :
  outcome
    (if truthy (get_or arguments "packages" PyNone)
     then lift (item0 (get_or arguments "packages" PyNone))
            ≫= λ first, mret (negb (eq_str first ""))
     else mret false) = Ok a ->
  a = packages_requested arguments.
Proof.
  unfold packages_requested. cbv zeta.
  destruct (truthy (get_or arguments "packages" PyNone)); simpl.
  - destruct (item0 (get_or arguments "packages" PyNone)); simpl; congruence.
  - congruence.
Qed.

Lemma packages_only_if_requested E v arguments mountpoint :
  Forall (fun e => forall p, e = Add_additional_packages user_packages p ->
                   packages_requested arguments = true
                   /\ p = get_or arguments "packages" (packages_default v))
    (trace (perform_installation E v arguments mountpoint)).
Proof.
  unfold perform_installation.
  all_calls ltac:(try (by intros ? [=])).
  intros p [= <-]. split; [|done].
  match goal with H : outcome _ = Ok true |- _ => by apply wanted_inv in H end.
Qed.

Lemma packages_before_genfstab E v arguments mountpoint :
  packages_requested arguments = true ->
  ordered (Add_additional_packages user_packages
             (get_or arguments "packages" (packages_default v)))
    nothing is_genfstab
    (trace (perform_installation E v arguments mountpoint)).
Proof.
  unfold perform_installation. intros Hreq.
  ordered_walk
    ltac:(idtac; match goal with
          | H : outcome _ = Ok ?a
            |- ordered _ _ _ (trace ((if ?a then _ else _) ≫= _)) =>
              apply wanted_inv in H; rewrite Hreq in H; subst a
          end)
    ltac:(apply all_nothing).
Qed.

Lemma packages_requested_list arguments l :
  arguments !! "packages" = Some (PyList l) ->
  packages_requested arguments = true <->
  exists first rest, l = first :: rest /\ first <> PyStr "".
Proof.
  intros Hl. unfold packages_requested, get_or. rewrite Hl. cbv zeta.
  destruct l as [|first rest]; simpl.
  - split; [done|]. by intros (? & ? & ? & ?).
  - split.
    + intros Hne. exists first, rest. split; [done|].
      intros ->. by simpl in Hne.
    + intros (f' & r' & [= <- <-] & Hne).
      destruct first as [| | | |s| | | | |]; try done. simpl.
      destruct (String.eqb_spec s ""); [by subst|done].
Qed.

(** C9 (as amended).  The additional packages are installed if and only
    if the package list is non-empty and its first entry is not the empty
    string.  The call is made only under the test of the code, and with
    the list of the plan.  Under that test it is made in every run that
    returns, and in every run, also one that fails later, it precedes the
    generation of the filesystem table.  For a list the test says that
    the list has a first entry other than the empty string. *)
Theorem additional_packages_iff_requested E v arguments mountpoint :
  let run := perform_installation E v arguments mountpoint in
  let packages := get_or arguments "packages" (packages_default v) in
  (forall p, In (Add_additional_packages user_packages p) (trace run) ->
     packages_requested arguments = true /\ p = packages)
  /\ (packages_requested arguments = true ->
      (outcome run = Ok tt ->
       In (Add_additional_packages user_packages packages) (trace run))
      /\ forall pre e post,
           trace run = (pre ++ e :: post)%list -> is_genfstab e = true ->
           In (Add_additional_packages user_packages packages) pre)
  /\ (forall l, arguments !! "packages" = Some (PyList l) ->
      (packages_requested arguments = true <->
       exists first rest, l = first :: rest /\ first <> PyStr "")).
Proof.
  intros run packages. split; [|split].
  - intros p Hin.
    pose proof (packages_only_if_requested E v arguments mountpoint) as Hall.
    rewrite List.Forall_forall in Hall. by destruct (Hall _ Hin p eq_refl).
  - intros Hreq.
    pose proof (packages_before_genfstab E v arguments mountpoint Hreq) as Hord.
    split.
    + intros Hout. eapply made_before; [exact Hord|].
      by apply (completed_run_has is_genfstab E v arguments mountpoint
                  ltac:(auto) tt).
    + intros pre e post Heq He. by eapply Hord.
  - apply packages_requested_list.
Qed.

Lemma additional_packages_witness :
  let arguments := <["packages" := PyList [PyStr "vim"]]> base_plan in
  let run := perform_installation (quiet uefi_machine true) guided_py arguments
               (PyPath "/mnt") in
  packages_requested arguments = true
  /\ outcome run = Ok tt
  /\ In (Add_additional_packages user_packages (PyList [PyStr "vim"])) (trace run)
  /\ existsb is_genfstab (trace run) = true.
Proof.
  intros arguments run. split; [reflexivity|].
  assert (Hout : outcome run = Ok tt) by (vm_compute; reflexivity).
  split; [exact Hout|]. split; [|vm_compute; reflexivity].
  destruct (additional_packages_iff_requested (quiet uefi_machine true) guided_py
              arguments (PyPath "/mnt")) as (_ & Hif & _).
  exact (proj1 (Hif eq_refl) Hout).
Defined.

(** The claim C9 as it was written fails: the list [['']] is not empty,
    the run gets to its end, and the additional packages are not
    installed. *)
Lemma nonempty_packages_not_installed :
  empty_name_plan !! "packages" = Some (PyList [PyStr ""])
  /\ outcome empty_name_run = Ok tt
  /\ existsb is_genfstab (trace empty_name_run) = true
  /\ existsb is_user_packages (trace empty_name_run) = false.
Proof. vm_compute. auto. Qed.

(** ** The audio server *)

Lemma audio_none E v arguments mountpoint :
  get_or arguments "audio" PyNone = PyStr "none" ->
  Forall (fun e => installs_audio_server e = false /\ is_no_audio e = false)
    (trace (perform_installation E v arguments mountpoint)).
Proof.
  unfold perform_installation. intros Haudio. cbv zeta. rewrite Haudio.
  change (truthy (PyStr "none")) with true.
  change (eq_str (PyStr "none") "pipewire") with false.
  change (eq_str (PyStr "none") "pulseaudio") with false.
  all_calls ltac:(by split).
Qed.

Lemma installing_audio_before_genfstab E v arguments mountpoint :
  truthy (get_or arguments "audio" PyNone) = true ->
  ordered (installing_audio (get_or arguments "audio" PyNone)) nothing is_genfstab
    (trace (perform_installation E v arguments mountpoint)).
Proof.
  unfold perform_installation, installing_audio. intros Haudio. cbv zeta.
  rewrite Haudio.
  ordered_walk
    ltac:(idtac; match goal with
          | |- ordered ?x _ _ (trace ((call _ ?x ≫= _) ≫= _)) =>
              apply ordered_first;
              [ all_calls ltac:(reflexivity)
              | rewrite trace_bind, trace_call; by left ]
          end)
    ltac:(apply all_nothing).
Qed.

Lemma no_audio_only_if_falsy E v arguments mountpoint :
  Forall (fun e => is_no_audio e = true ->
                   truthy (get_or arguments "audio" PyNone) = false)
    (trace (perform_installation E v arguments mountpoint)).
Proof.
  unfold perform_installation.
  all_calls ltac:(first [by intros [=] | by intros _]).
Qed.

Lemma no_audio_before_genfstab E v arguments mountpoint :
  truthy (get_or arguments "audio" PyNone) = false ->
  ordered (no_audio v) nothing is_genfstab
    (trace (perform_installation E v arguments mountpoint)).
Proof.
  unfold perform_installation, no_audio. intros Haudio. cbv zeta.
  rewrite Haudio. ordered_walk idtac ltac:(apply all_nothing).
Qed.

Lemma falsy_examples v :
  v = PyNone \/ v = PyBool false \/ v = PyInt 0 \/ (exists e, v = PyFloat 0 e)
  \/ v = PyStr "" \/ v = PyList [] \/ v = PyDict ∅ ->
  truthy v = false.
Proof. by intros [-> | [-> | [-> | [[e ->] | [-> | [-> | ->]]]]]]. Qed.

(** C10 (as amended).  When the audio field is the string 'none' the
    pipeline takes the audio-chosen branch: it logs "Installing audio
    server: none" (in every run that returns, and before the filesystem
    table is generated), installs neither pipewire nor pulseaudio and does
    not log that no audio server will be installed.  That last message is
    logged if and only if the audio field is false in the truth test of
    the code: only then, and then in every run that returns, before the
    filesystem table is generated.  An absent or null field is false in
    that test, and so are False, 0, 0.0, the empty string, the empty list
    and the empty dict. *)
Theorem audio_none_string_takes_chosen_branch E v arguments mountpoint :
  let run := perform_installation E v arguments mountpoint in
  let audio := get_or arguments "audio" PyNone in
  (audio = PyStr "none" ->
     render [Lit "Installing audio server: "; Interp audio]
       = Some "Installing audio server: none"
     /\ (outcome run = Ok tt -> In (installing_audio audio) (trace run))
     /\ (forall pre e post,
          trace run = (pre ++ e :: post)%list -> is_genfstab e = true ->
          In (installing_audio audio) pre)
     /\ Forall (fun e => installs_audio_server e = false /\ is_no_audio e = false)
          (trace run))
  /\ (forall e, In e (trace run) -> is_no_audio e = true -> truthy audio = false)
  /\ (truthy audio = false ->
      (outcome run = Ok tt -> In (no_audio v) (trace run))
      /\ forall pre e post,
           trace run = (pre ++ e :: post)%list -> is_genfstab e = true ->
           In (no_audio v) pre)
  /\ (arguments !! "audio" = None \/ audio = PyNone \/ audio = PyBool false
      \/ audio = PyInt 0 \/ (exists e, audio = PyFloat 0 e) \/ audio = PyStr ""
      \/ audio = PyList [] \/ audio = PyDict ∅ ->
      truthy audio = false).
Proof.
  intros run audio.
  assert (Hfstab : outcome run = Ok tt -> existsb is_genfstab (trace run) = true).
  { apply (completed_run_has is_genfstab E v arguments mountpoint). auto. }
  split; [|split; [|split]].
  - intros Haudio.
    assert (Hord : ordered (installing_audio audio) nothing is_genfstab (trace run)).
    { apply (installing_audio_before_genfstab E v arguments mountpoint).
      fold audio. by rewrite Haudio. }
    split; [by rewrite Haudio|]. split; [|split].
    + intros Hout. eapply made_before; [exact Hord|by apply Hfstab].
    + intros pre e post Heq He. by eapply Hord.
    + by apply audio_none.
  - intros e Hin.
    pose proof (no_audio_only_if_falsy E v arguments mountpoint) as Hall.
    rewrite List.Forall_forall in Hall. by apply Hall.
  - intros Hfalsy.
    pose proof (no_audio_before_genfstab E v arguments mountpoint Hfalsy) as Hord.
    split.
    + intros Hout. eapply made_before; [exact Hord|by apply Hfstab].
    + intros pre e post Heq He. by eapply Hord.
  - intros [Habsent|Hfalsy].
    + unfold audio, get_or. by rewrite Habsent.
    + by apply falsy_examples.
Qed.

Lemma audio_none_witness :
  let arguments := <["audio" := PyStr "none"]> base_plan in
  let run := perform_installation (quiet uefi_machine true) guided_py arguments
               (PyPath "/mnt") in
  get_or arguments "audio" PyNone = PyStr "none"
  /\ outcome run = Ok tt
  /\ In (installing_audio (PyStr "none")) (trace run)
  /\ Forall (fun e => installs_audio_server e = false /\ is_no_audio e = false)
       (trace run).
Proof.
  intros arguments run. split; [reflexivity|].
  assert (Hout : outcome run = Ok tt) by (vm_compute; reflexivity).
  split; [exact Hout|].
  destruct (audio_none_string_takes_chosen_branch (quiet uefi_machine true)
              guided_py arguments (PyPath "/mnt")) as (Hnone & _).
  destruct (Hnone eq_refl) as (_ & Hlogged & _ & Hsilent).
  split; [exact (Hlogged Hout) | exact Hsilent].
Defined.

(** The claim C10 as it was written fails in its last part: with the
    empty string in the audio field, which is neither absent nor null, the
    run logs that no audio server will be installed. *)
Lemma no_audio_message_for_empty_string :
  empty_audio_plan !! "audio" = Some (PyStr "")
  /\ existsb is_no_audio (trace empty_audio_run) = true.
Proof. vm_compute. auto. Qed.

(** ** Keyboard layout after the profile *)

Lemma profile_before_keyboard E v arguments mountpoint :
  truthy (get_or arguments "profile_config" PyNone) = true ->
  ordered (Install_profile_config (get_or arguments "profile_config" PyNone))
    is_profile_install is_keyboard_step
    (trace (perform_installation E v arguments mountpoint)).
Proof.
  unfold perform_installation. intros Hprofile. cbv zeta. rewrite Hprofile.
  ordered_walk idtac ltac:(all_calls ltac:(reflexivity)).
Qed.

(** C3.  Whenever a profile config is present, every call that sets the
    keyboard and console language comes after the installation of that
    profile, and no profile is installed from that call on; this holds for
    every run, also for those that stop before their end. *)
Theorem keyboard_language_after_profile E v arguments mountpoint :
  truthy (get_or arguments "profile_config" PyNone) = true ->
  forall pre e post,
    trace (perform_installation E v arguments mountpoint) = (pre ++ e :: post)%list ->
    is_keyboard_step e = true ->
    In (Install_profile_config (get_or arguments "profile_config" PyNone)) pre
    /\ Forall (fun e' => is_profile_install e' = false) (e :: post).
Proof.
  intros Hprofile pre e post Heq He.
  by eapply (profile_before_keyboard E v arguments mountpoint Hprofile).
Qed.

Lemma keyboard_language_witness :
  let arguments := <["profile_config" := profile]> base_plan in
  let run := perform_installation (quiet uefi_machine true) guided_py arguments
               (PyPath "/mnt") in
  existsb is_keyboard_step (trace run) = true
  /\ forall pre e post,
       trace run = (pre ++ e :: post)%list -> is_keyboard_step e = true ->
       In (Install_profile_config profile) pre
       /\ Forall (fun e' => is_profile_install e' = false) (e :: post).
Proof.
  intros arguments run. split; [reflexivity|].
  apply (keyboard_language_after_profile (quiet uefi_machine true) guided_py
           arguments (PyPath "/mnt")).
  reflexivity.
Defined.

(** ** The dry-run gate *)

Lemma dry_run_installs_nothing E arguments :
  truthy (get (plan E guided_py arguments) "dry_run") = true ->
  Forall (fun e => installation_step e = false /\ mutating e = false)
    (trace (guided E arguments)).
Proof.
  intros Hdry. unfold guided, ask_user_questions.
  all_calls ltac:(by split).
  all: match goal with
       | H : outcome (if negb _ then _ else _) = Ok ?a |- _ =>
           apply (gathered_plan _ _ a) in H; subst a
       end.
  all: match goal with
       | H : outcome (if truthy (get _ "dry_run") then _ else _) = Ok _ |- _ =>
           rewrite Hdry in H; discriminate H
       end.
Qed.

Lemma dry_run_stops_after_save E arguments :
  truthy (get (plan E guided_py arguments) "dry_run") = true ->
  raises E ConfigurationOutput_save = None ->
  In ConfigurationOutput_save (trace (guided E arguments)) ->
  ends_with ConfigurationOutput_save (Fail (SystemExit 0)) (guided E arguments).
Proof.
  intros Hdry Hsave. unfold guided, ask_user_questions.
  repeat match goal with
    | |- In _ (trace (call _ ConfigurationOutput_save ≫= _)) -> _ => fail 1
    | |- In _ (trace (_ ≫= _)) -> _ =>
        apply (ends_with_skip persists); [reflexivity | all_calls ltac:(reflexivity) | intros ? ?; cbv beta]
    end.
  match goal with
  | H : outcome (if negb _ then _ else _) = Ok ?a |- _ =>
      apply (gathered_plan _ _ a) in H; subst a
  end.
  intros _. unfold ends_with.
  rewrite outcome_bind, trace_bind, outcome_call, trace_call, Hsave.
  rewrite outcome_bind, trace_bind, Hdry. split; [done|]. by exists [].
Qed.

Lemma dry_run_reaches_save E arguments :
  (forall e, raises E e = None) ->
  truthy (get arguments "help") = false ->
  is_False (get_or arguments "skip-mirror-check" (PyBool false)) = false
  \/ mirror_reachable E = true ->
  In ConfigurationOutput_save (trace (guided E arguments)).
Proof.
  intros Hquiet Hhelp Hmirror. unfold guided.
  rewrite Hhelp. eapply in_bind_r; [done|].
  eapply (in_bind_r _ _ tt).
  { destruct Hmirror as [-> | Hreach]; [done|].
    destruct (is_False _); [|done].
    unfold ask. rewrite !outcome_bind, outcome_call, Hquiet. simpl.
    by rewrite Hreach. }
  eapply (in_bind_r _ _ (plan E guided_py arguments)).
  { unfold plan, ask_user_questions, ask.
    destruct (negb (truthy (get arguments "silent"))); [|done].
    by rewrite outcome_bind, outcome_call, Hquiet. }
  eapply in_bind_r; [by rewrite outcome_call, Hquiet|].
  eapply (in_bind_r _ _ tt).
  { destruct (negb _); [|done]. by rewrite outcome_call, Hquiet. }
  rewrite trace_bind, trace_call. by left.
Qed.

(** C1 (as amended).  In every run of guided.py whose plan has [dry_run]
    set, no step of the installation is called, and in particular none of
    the steps that write to the disk; if the run gets to the saving of the
    configuration and that call returns, the process exits with code 0
    right after it; and the run does get there when help is not asked for,
    the mirrors are reachable or their check is skipped, and every call
    returns. *)
Theorem dry_run_exits_after_save E arguments :
  truthy (get (plan E guided_py arguments) "dry_run") = true ->
  let run := guided E arguments in
  Forall (fun e => installation_step e = false /\ mutating e = false) (trace run)
  /\ (raises E ConfigurationOutput_save = None ->
      In ConfigurationOutput_save (trace run) ->
      outcome run = Fail (SystemExit 0)
      /\ exit_status (outcome run) = 0
      /\ exists pre, trace run = (pre ++ [ConfigurationOutput_save])%list)
  /\ ((forall e, raises E e = None) ->
      truthy (get arguments "help") = false ->
      is_False (get_or arguments "skip-mirror-check" (PyBool false)) = false
      \/ mirror_reachable E = true ->
      In ConfigurationOutput_save (trace run)).
Proof.
  intros Hdry. cbv zeta. split; [|split].
  - by apply dry_run_installs_nothing.
  - intros Hsave Hin.
    destruct (dry_run_stops_after_save E arguments Hdry Hsave Hin) as [Hout Hpre].
    split; [done|]. split; [|done]. by rewrite Hout.
  - by apply dry_run_reaches_save.
Qed.

Lemma dry_run_witness :
  let arguments := <["dry_run" := PyBool true]> base_plan in
  let run := guided (quiet uefi_machine true) arguments in
  truthy (get (plan (quiet uefi_machine true) guided_py arguments) "dry_run") = true
  /\ Forall (fun e => installation_step e = false /\ mutating e = false) (trace run)
  /\ outcome run = Fail (SystemExit 0)
  /\ exists pre, trace run = (pre ++ [ConfigurationOutput_save])%list.
Proof.
  intros arguments run. split; [reflexivity|].
  destruct (dry_run_exits_after_save (quiet uefi_machine true) arguments eq_refl)
    as (Hnone & Hstop & Hreach).
  split; [exact Hnone|].
  destruct Hstop as (Hout & _ & Hpre).
  - reflexivity.
  - apply Hreach; [reflexivity | reflexivity | right; reflexivity].
  - split; [exact Hout | exact Hpre].
Defined.

(** The claim C1 as it was written fails: with [dry_run] set, a run whose
    mirror check fails exits with code 1 and never saves the plan. *)
Lemma dry_run_exits_1_when_mirrors_fail :
  truthy (get (<["dry_run" := PyBool true]> base_plan) "dry_run") = true
  /\ exit_status (outcome unreachable_dry_run) = 1
  /\ existsb persists (trace unreachable_dry_run) = false.
Proof. vm_compute. auto. Qed.

(** ** The mirror check *)

Lemma os_path_join_status a b x :
  os_path_join a b = Fail x -> exit_status (Fail x : result unit) = 1.
Proof.
  intros Hjoin%os_path_join_fails.
  by destruct x as [code|[]].
Qed.

Lemma failed_preflight E :
  mirror_reachable E = false ->
  let preflight :=
    ask E Check_mirror_reachable (mirror_reachable E)
    ≫= λ reachable : bool,
         if negb reachable then
           lift (os_path_join (get_or (storage E) "LOG_PATH" PyNone)
                   (get_or (storage E) "LOG_FILE" PyNone))
           ≫= λ log_file : string,
                call E (Info (mirrors_not_reachable log_file))
                ≫= λ _ : (), exit 1
         else pass in
  (exists x, outcome preflight = Fail x
     /\ ((forall e y, In e (trace preflight) -> raises E e = Some y ->
             exit_status (Fail y : result unit) = 1) ->
         exit_status (Fail x : result unit) = 1))
  /\ Forall (fun e => gathers e = false /\ persists e = false
                      /\ installation_step e = false) (trace preflight)
  /\ (raises E Check_mirror_reachable = None ->
      forall log_file,
        os_path_join (get_or (storage E) "LOG_PATH" PyNone)
          (get_or (storage E) "LOG_FILE" PyNone) = Ok log_file ->
        raises E (Info (mirrors_not_reachable log_file)) = None ->
        outcome preflight = Fail (SystemExit 1)).
Proof.
  intros Hreach. cbv zeta. split; [|split].
  - destruct (raises E Check_mirror_reachable) as [y|] eqn:Hcheck.
    { exists y. split.
      - unfold ask. by rewrite !outcome_bind, outcome_call, Hcheck.
      - intros Hall. apply (Hall Check_mirror_reachable y); [|done].
        rewrite trace_bind, trace_ask. by left. }
    assert (Hask : outcome (ask E Check_mirror_reachable (mirror_reachable E))
                   = Ok false).
    { unfold ask. rewrite outcome_bind, outcome_call, Hcheck. by rewrite <- Hreach. }
    destruct (os_path_join (get_or (storage E) "LOG_PATH" PyNone)
                (get_or (storage E) "LOG_FILE" PyNone)) as [log_file|x] eqn:Hjoin.
    + destruct (raises E (Info (mirrors_not_reachable log_file))) as [y|] eqn:Hinfo.
      * exists y. split.
        -- rewrite outcome_bind, Hask. cbn [negb]. cbv beta iota.
           rewrite outcome_bind.
           change (outcome (lift (Ok log_file) : M string)) with (Ok log_file).
           cbv beta iota. by rewrite outcome_bind, outcome_call, Hinfo.
        -- intros Hall.
           apply (Hall (Info (mirrors_not_reachable log_file)) y); [|done].
           eapply in_bind_r; [exact Hask|]. cbn [negb]. cbv beta iota.
           eapply (in_bind_r _ _ log_file); [done|].
           rewrite trace_bind, trace_call. by left.
      * exists (SystemExit 1). split; [|done].
        rewrite outcome_bind, Hask. cbn [negb]. cbv beta iota.
        rewrite outcome_bind.
        change (outcome (lift (Ok log_file) : M string)) with (Ok log_file).
        cbv beta iota. by rewrite outcome_bind, outcome_call, Hinfo.
    + exists x. split.
      * rewrite outcome_bind, Hask. cbn [negb]. cbv beta iota.
        by rewrite outcome_bind.
      * intros _. by eapply os_path_join_status.
  - all_calls ltac:(by repeat split).
  - intros Hcheck log_file Hjoin Hinfo.
    unfold ask. rewrite !outcome_bind, outcome_call, Hcheck.
    change (outcome (mret (mirror_reachable E) : M bool))
      with (Ok (mirror_reachable E)).
    cbv beta iota. rewrite Hreach. cbn [negb]. rewrite outcome_bind.
    change (outcome (lift ?r)) with r. rewrite Hjoin.
    by rewrite outcome_bind, outcome_call, Hinfo.
Qed.

(** C4.  When [skip-mirror-check] is False (or absent) and the check of
    the mirrors, once made, answers that they cannot be reached, the run
    stops there: the questions are not asked, the plan is not saved and no
    step of the installation is called.  The process exits with code 1:
    through [exit(1)] when the check and the logging of the failure
    return, and with the status of an uncaught exception when one of them
    raises one that leaves that status (a keyboard interrupt or an exit of
    the callee does not). *)
Theorem unreachable_mirrors_exit_1 E arguments :
  is_False (get_or arguments "skip-mirror-check" (PyBool false)) = true ->
  mirror_reachable E = false ->
  In Check_mirror_reachable (trace (guided E arguments)) ->
  (exists x, outcome (guided E arguments) = Fail x)
  /\ ((forall e y, In e (trace (guided E arguments)) -> raises E e = Some y ->
         exit_status (Fail y : result unit) = 1) ->
      exit_status (outcome (guided E arguments)) = 1)
  /\ Forall (fun e => gathers e = false /\ persists e = false
                      /\ installation_step e = false)
       (trace (guided E arguments))
  /\ (raises E Check_mirror_reachable = None ->
      forall log_file,
        os_path_join (get_or (storage E) "LOG_PATH" PyNone)
          (get_or (storage E) "LOG_FILE" PyNone) = Ok log_file ->
        raises E (Info (mirrors_not_reachable log_file)) = None ->
        outcome (guided E arguments) = Fail (SystemExit 1)).
Proof.
  intros Hskip Hreach. unfold guided. rewrite Hskip.
  destruct (truthy (get arguments "help")); cbv beta iota.
  - rewrite trace_bind, (outcome_bind (call E _)), outcome_call.
    rewrite trace_bind, trace_call, outcome_call.
    intros Hin. exfalso.
    destruct (raises E _); unfold exit in Hin; cbn in Hin;
      by destruct Hin as [Hin|Hin].
  - intros _.
    destruct (failed_preflight E Hreach) as ([x [Hout Hstatus]] & Hall & Hexit).
    cbv zeta in Hout, Hstatus, Hall, Hexit.
    rewrite (outcome_bind pass), (trace_bind pass).
    change (outcome pass) with (Ok tt : result unit).
    change (trace pass) with ([] : list event).
    cbv beta iota. rewrite outcome_bind, trace_bind, Hout, app_nil_r.
    split; [by exists x|]. split; [exact Hstatus|]. split; [done|].
    intros Hcheck log_file Hjoin Hinfo.
    rewrite <- Hout. by eapply Hexit.
Qed.

Lemma unreachable_mirrors_witness :
  is_False (get_or base_plan "skip-mirror-check" (PyBool false)) = true
  /\ mirror_reachable (quiet uefi_machine false) = false
  /\ In Check_mirror_reachable (trace (guided (quiet uefi_machine false) base_plan))
  /\ exit_status (outcome (guided (quiet uefi_machine false) base_plan)) = 1
  /\ Forall (fun e => gathers e = false /\ persists e = false
                      /\ installation_step e = false)
       (trace (guided (quiet uefi_machine false) base_plan))
  /\ outcome (guided (quiet uefi_machine false) base_plan) = Fail (SystemExit 1).
Proof.
  split; [reflexivity|]. split; [reflexivity|].
  assert (Hin : In Check_mirror_reachable
                  (trace (guided (quiet uefi_machine false) base_plan)))
    by (vm_compute; left; reflexivity).
  split; [exact Hin|].
  destruct (unreachable_mirrors_exit_1 (quiet uefi_machine false) base_plan
              eq_refl eq_refl Hin) as (_ & Hstatus & Hall & Hexit).
  split; [|split; [exact Hall|]].
  - apply Hstatus. intros e y _ Hraised. discriminate Hraised.
  - apply (Hexit eq_refl "/var/log/archinstall/install.log"); reflexivity.
Defined.

End GuidedSpec.

(* ===================================================================== *)
(** * More on the hardware detectors                                      *)
(* ===================================================================== *)

Module HardwareMore.
Import Python Hardware Scenarios HardwareSpec.

Lemma Forall_false {A} (f : A -> bool) l :
  forallb (fun x => negb (f x)) l = true -> Forall (fun x => f x = false) l.
Proof.
  induction l as [|x l IH]; simpl; [constructor|].
  intros [Hx Hl]%andb_prop. constructor; [by apply negb_true_iff|by apply IH].
Qed.

(** ** Stripping *)

Lemma rev_app_app s t u :
  String.rev_app s (t +:+ u) = String.rev_app s t +:+ u.
Proof.
  revert t. induction s as [|c s IH]; intros t; simpl; [done|].
  by rewrite <- IH.
Qed.

Lemma rev_cons c s : String.rev (String c s) = String.rev s +:+ String c "".
Proof.
  unfold String.rev. simpl.
  by rewrite <- (rev_app_app s "" (String c "")).
Qed.

Lemma rev_app_rev s t : String.rev_app (String.rev_app s t) "" = String.rev_app t s.
Proof.
  revert t. induction s as [|c s IH]; intros t; simpl; [done|].
  by rewrite IH.
Qed.

Lemma rev_involutive s : String.rev (String.rev s) = s.
Proof. unfold String.rev. by rewrite rev_app_rev. Qed.

Lemma head_kept_app drop s t :
  s <> "" -> head_kept drop (s +:+ t) <-> head_kept drop s.
Proof. by destruct s. Qed.

Lemma rev_empty s : String.rev s = "" -> s = "".
Proof.
  intros H. rewrite <- (rev_involutive s). by rewrite H.
Qed.

Lemma lstrip_head_kept drop s : head_kept drop (lstrip_by drop s).
Proof.
  induction s as [|c s IH]; simpl; [done|].
  by destruct (drop c) eqn:Hc.
Qed.

Lemma lstrip_id drop s : head_kept drop s -> lstrip_by drop s = s.
Proof. destruct s as [|c s]; simpl; [done|]. by intros ->. Qed.

Lemma lstrip_last_kept drop s :
  head_kept drop (String.rev s) -> head_kept drop (String.rev (lstrip_by drop s)).
Proof.
  induction s as [|c s IH]; simpl; [done|].
  destruct (drop c) eqn:Hc; [|done].
  intros Hlast. apply IH. rewrite rev_cons in Hlast.
  destruct (String.rev s) as [|d r] eqn:Hr; [|done].
  apply rev_empty in Hr. by subst.
Qed.

Lemma strip_by_stripped drop s : stripped drop (strip_by drop s).
Proof.
  unfold stripped, strip_by. rewrite rev_involutive. split.
  - apply lstrip_last_kept. rewrite rev_involutive. apply lstrip_head_kept.
  - apply lstrip_head_kept.
Qed.

Lemma strip_by_id drop s : stripped drop s -> strip_by drop s = s.
Proof.
  intros [Hhead Hlast]. unfold strip_by.
  by rewrite (lstrip_id _ s), (lstrip_id _ (String.rev s)), rev_involutive.
Qed.

Lemma strip_by_idempotent drop s :
  strip_by drop (strip_by drop s) = strip_by drop s.
Proof. apply strip_by_id, strip_by_stripped. Qed.

(** ** What the cpu-info mapping holds *)

Lemma cpu_info_line_lookup cpu line cpu' key :
  cpu_info_line cpu line = Ok cpu' ->
  cpu' !! key = if defines key line then Some (value_of line) else cpu !! key.
Proof.
  unfold cpu_info_line, defines, value_of.
  destruct (negb (String.eqb (strip line) "")); simpl; [|by intros [= <-]].
  destruct (split1 ":" (strip line)) as [|k [|v [|x l]]]; try done.
  intros [= <-]. rewrite lookup_insert.
  destruct (String.eqb_spec (strip k) key) as [->|Hne].
  - by rewrite decide_True.
  - by rewrite decide_False.
Qed.

Lemma for_each_cpu_lookup l acc cpu key :
  for_each cpu_info_line acc l = Ok cpu ->
  cpu !! key = last_value key (acc !! key) l.
Proof.
  revert acc. induction l as [|line l IH]; intros acc; simpl.
  - by intros [= <-].
  - destruct (cpu_info_line acc line) as [acc'|] eqn:Hline; [|done].
    intros Hrest. rewrite (IH _ Hrest).
    by rewrite (cpu_info_line_lookup _ _ _ key Hline).
Qed.

Lemma cpu_info_line_stripped cpu line cpu' :
  cpu_info_line cpu line = Ok cpu' ->
  (forall k v, cpu !! k = Some v -> strip k = k /\ strip v = v) ->
  forall k v, cpu' !! k = Some v -> strip k = k /\ strip v = v.
Proof.
  unfold cpu_info_line.
  destruct (negb (String.eqb (strip line) "")); simpl; [|by intros [= <-]].
  destruct (split1 ":" (strip line)) as [|key [|value [|x l]]]; try done.
  intros [= <-] Hcpu k v. rewrite lookup_insert.
  case_decide as Hk; [|by apply Hcpu].
  intros [= <-]. subst k. unfold strip. by rewrite !strip_by_idempotent.
Qed.

Lemma for_each_cpu_stripped l acc cpu :
  for_each cpu_info_line acc l = Ok cpu ->
  (forall k v, acc !! k = Some v -> strip k = k /\ strip v = v) ->
  forall k v, cpu !! k = Some v -> strip k = k /\ strip v = v.
Proof.
  revert acc. induction l as [|line l IH]; intros acc; simpl.
  - by intros [= <-].
  - destruct (cpu_info_line acc line) as [acc'|] eqn:Hline; [|done].
    intros Hrest Hacc. apply (IH _ Hrest).
    by apply (cpu_info_line_stripped _ _ _ Hline).
Qed.

(** X1.  On a cpu-info file without malformed line, and before anything
    is cached, [cpu_vendor] and [cpu_model] return the value of the last
    line that sets their key (the last processor of the file wins), or
    None when no line sets it. *)
Theorem cpu_queries_return_last_value m st content :
  cpu_info_cache st = None ->
  files m !! "/proc/cpuinfo" = Some content ->
  Forall (fun line => cpu_line_malformed line = false) (file_lines content) ->
  fst (cpu_vendor m st) = Ok (last_value "vendor_id" None (file_lines content))
  /\ fst (cpu_model m st) = Ok (last_value "model name" None (file_lines content)).
Proof.
  intros Hcache Hfile Hgood.
  destruct (read_cpu_info_wellformed _ _ Hfile Hgood) as [cpu Hread].
  unfold cpu_vendor, cpu_model. rewrite !cpu_query_fresh by done.
  rewrite Hread. simpl.
  unfold read_cpu_info, open in Hread. rewrite Hfile in Hread. simpl in Hread.
  by rewrite !(for_each_cpu_lookup _ _ _ _ Hread), lookup_empty.
Qed.

Lemma cpu_queries_witness :
  fst (cpu_vendor two_cpu_machine initial)
    = Ok (last_value "vendor_id" None (file_lines two_cpu_info))
  /\ fst (cpu_model two_cpu_machine initial)
    = Ok (last_value "model name" None (file_lines two_cpu_info))
  /\ last_value "vendor_id" None (file_lines two_cpu_info) = Some "AuthenticAMD".
Proof.
  assert (Hgood : Forall (fun line => cpu_line_malformed line = false)
                    (file_lines two_cpu_info))
    by (apply Forall_false; vm_compute; reflexivity).
  destruct (cpu_queries_return_last_value two_cpu_machine initial two_cpu_info
              eq_refl eq_refl Hgood) as [Hvendor Hmodel].
  split; [exact Hvendor|]. split; [exact Hmodel|]. vm_compute. reflexivity.
Defined.

(** X2.  The texts that the detectors return carry no blank at either
    end: stripping the vendor or the model of the cpu (read before
    anything is cached), the system vendor or the product name again
    changes nothing, and the virtualization name neither starts nor ends
    with a carriage return or a line feed. *)
Theorem detector_texts_are_stripped m st :
  (cpu_info_cache st = None ->
   (forall v, fst (cpu_vendor m st) = Ok (Some v) -> strip v = v)
   /\ (forall v, fst (cpu_model m st) = Ok (Some v) -> strip v = v))
  /\ (forall v, fst (sys_vendor m st) = Ok v -> strip v = v)
  /\ (forall v, fst (product_name m st) = Ok v -> strip v = v)
  /\ (forall v, fst (virtualization m st) = Ok (Some v) -> strip_crlf v = v).
Proof.
  split; [|split; [|split]].
  - intros Hcache. unfold cpu_vendor, cpu_model.
    rewrite !cpu_query_fresh by done.
    assert (Hall : forall cpu, read_cpu_info m = Ok cpu ->
              forall k v, cpu !! k = Some v -> strip k = k /\ strip v = v).
    { intros cpu. unfold read_cpu_info.
      destruct (open m "/proc/cpuinfo") as [content|]; simpl; [|done].
      intros Hread. by apply (for_each_cpu_stripped _ _ _ Hread). }
    destruct (read_cpu_info m) as [cpu|]; simpl.
    + split; intros v [= Hv]; by eapply Hall.
    + by split.
  - intros v. unfold sys_vendor, lift. simpl.
    destruct (open m _); simpl; [|done].
    intros [= <-]. apply strip_by_idempotent.
  - intros v. unfold product_name, lift. simpl.
    destruct (open m _); simpl; [|done].
    intros [= <-]. apply strip_by_idempotent.
  - intros v. unfold virtualization.
    destruct (commands m "systemd-detect-virt") as [out|[c|e]]; simpl;
      [| done |].
    + intros [= <-]. apply strip_by_idempotent.
    + by destruct e.
Qed.

Lemma detector_texts_witness :
  fst (cpu_vendor bios_machine initial) = Ok (Some "GenuineIntel")
  /\ strip "GenuineIntel" = "GenuineIntel".
Proof.
  assert (Hrun : fst (cpu_vendor bios_machine initial) = Ok (Some "GenuineIntel"))
    by (vm_compute; reflexivity).
  split; [exact Hrun|].
  destruct (detector_texts_are_stripped bios_machine initial) as [Hcpu _].
  destruct (Hcpu eq_refl) as [Hvendor _].
  exact (Hvendor "GenuineIntel" Hrun).
Defined.

(** ** The two caches *)

Lemma cpu_info_hit m st cpu :
  cpu_info_cache st = Some cpu -> cpu_info m st = (Ok cpu, st).
Proof. intros Hc. unfold cpu_info. by rewrite Hc. Qed.

Lemma mem_info_hit m st mem :
  mem_info_cache st = Some mem -> mem_info m st = (Ok mem, st).
Proof. intros Hc. unfold mem_info. by rewrite Hc. Qed.

Lemma cpu_info_fills m st cpu st' :
  cpu_info m st = (Ok cpu, st') -> cpu_info_cache st' = Some cpu.
Proof.
  unfold cpu_info. destruct (cpu_info_cache st) as [c|] eqn:Hc.
  - by intros [= <- <-].
  - destruct (read_cpu_info m); [|done]. by intros [= <- <-].
Qed.

Lemma mem_info_fills m st mem st' :
  mem_info m st = (Ok mem, st') -> mem_info_cache st' = Some mem.
Proof.
  unfold mem_info. destruct (mem_info_cache st) as [c|] eqn:Hc.
  - by intros [= <- <-].
  - destruct (read_mem_info m); [|done]. by intros [= <- <-].
Qed.

(** X3.  The two pseudo-files are read once: after a first successful
    access, every cpu query and every memory query answers from the
    mapping built then and leaves the state as it is, whatever the machine
    holds by that time (other files, or none). *)
Theorem pseudo_files_are_read_once m m' st :
  (forall cpu st', cpu_info m st = (Ok cpu, st') ->
     cpu_vendor m' st' = (Ok (cpu !! "vendor_id"), st')
     /\ cpu_model m' st' = (Ok (cpu !! "model name"), st'))
  /\ (forall mem st', mem_info m st = (Ok mem, st') ->
     forall key,
       mem_info_by_key m' key st'
       = (match mem !! key with
          | Some n => Ok n
          | None => raise (KeyError key)
          end, st')).
Proof.
  split.
  - intros cpu st' Hfirst. apply cpu_info_fills in Hfirst.
    unfold cpu_vendor, cpu_model, mbind, H_bind.
    by rewrite !(cpu_info_hit m' st' cpu Hfirst).
  - intros mem st' Hfirst key. apply mem_info_fills in Hfirst.
    unfold mem_info_by_key, mbind, H_bind.
    rewrite (mem_info_hit m' st' mem Hfirst).
    by destruct (mem !! key).
Qed.

Lemma pseudo_files_witness :
  cpu_info bios_machine initial = (Ok bios_cpu_info, bios_cached)
  /\ cpu_vendor bare_machine bios_cached
     = (Ok (bios_cpu_info !! "vendor_id"), bios_cached)
  /\ cpu_model bare_machine bios_cached
     = (Ok (bios_cpu_info !! "model name"), bios_cached).
Proof.
  assert (Hfirst : cpu_info bios_machine initial = (Ok bios_cpu_info, bios_cached))
    by (vm_compute; reflexivity).
  split; [exact Hfirst|].
  exact (proj1 (pseudo_files_are_read_once bios_machine bare_machine initial)
           bios_cpu_info bios_cached Hfirst).
Defined.

(** X4.  What the detectors change: a failing query leaves the state as
    it was (an exception is not cached); the cpu queries change nothing but
    the cpu cache and the memory queries nothing but the memory cache;
    [sys_vendor] and [product_name] change nothing; [virtualization] and
    [is_vm] touch neither cache and only add to the log. *)
Theorem detectors_footprint m st :
  (forall x st', cpu_info m st = (Fail x, st') -> st' = st)
  /\ (forall x st', mem_info m st = (Fail x, st') -> st' = st)
  /\ (mem_info_cache (snd (cpu_info m st)) = mem_info_cache st
      /\ debug_log (snd (cpu_info m st)) = debug_log st)
  /\ (cpu_info_cache (snd (mem_info m st)) = cpu_info_cache st
      /\ debug_log (snd (mem_info m st)) = debug_log st)
  /\ snd (sys_vendor m st) = st
  /\ snd (product_name m st) = st
  /\ (cpu_info_cache (snd (virtualization m st)) = cpu_info_cache st
      /\ mem_info_cache (snd (virtualization m st)) = mem_info_cache st
      /\ exists msgs, debug_log (snd (virtualization m st))
                      = (debug_log st ++ msgs)%list)
  /\ (cpu_info_cache (snd (is_vm m st)) = cpu_info_cache st
      /\ mem_info_cache (snd (is_vm m st)) = mem_info_cache st
      /\ exists msgs, debug_log (snd (is_vm m st))
                      = (debug_log st ++ msgs)%list).
Proof.
  repeat apply conj.
  - intros x st'. unfold cpu_info.
    destruct (cpu_info_cache st); [done|].
    destruct (read_cpu_info m); [done|]. by intros [= _ <-].
  - intros x st'. unfold mem_info.
    destruct (mem_info_cache st); [done|].
    destruct (read_mem_info m); [done|]. by intros [= _ <-].
  - unfold cpu_info. destruct (cpu_info_cache st); [done|].
    by destruct (read_cpu_info m).
  - unfold cpu_info. destruct (cpu_info_cache st); [done|].
    by destruct (read_cpu_info m).
  - unfold mem_info. destruct (mem_info_cache st); [done|].
    by destruct (read_mem_info m).
  - unfold mem_info. destruct (mem_info_cache st); [done|].
    by destruct (read_mem_info m).
  - done.
  - done.
  - unfold virtualization.
    by destruct (commands m _) as [out|[c|[]]].
  - unfold virtualization.
    by destruct (commands m _) as [out|[c|[]]].
  - unfold virtualization.
    destruct (commands m _) as [out|[c|[]]]; simpl;
      first [by exists []; rewrite app_nil_r | by eexists].
  - unfold is_vm. by destruct (commands m _) as [out|[c|[]]].
  - unfold is_vm. by destruct (commands m _) as [out|[c|[]]].
  - unfold is_vm.
    destruct (commands m _) as [out|[c|[]]]; simpl;
      first [by exists []; rewrite app_nil_r | by eexists].
Qed.

Lemma detectors_footprint_witness :
  cpu_info bare_machine initial
    = (raise (FileNotFoundError "/proc/cpuinfo"), initial)
  /\ snd (cpu_info bare_machine initial) = initial.
Proof.
  assert (Hrun : cpu_info bare_machine initial
                 = (raise (FileNotFoundError "/proc/cpuinfo"), initial))
    by (vm_compute; reflexivity).
  split; [exact Hrun|].
  rewrite Hrun. simpl.
  exact (eq_sym (eq_sym (proj1 (detectors_footprint bare_machine initial)
                                _ _ Hrun))).
Defined.

(** ** Blank lines *)

Lemma blank_cpu_line cpu line :
  strip line = "" -> cpu_info_line cpu line = Ok cpu.
Proof. intros Hb. unfold cpu_info_line. by rewrite Hb. Qed.

Lemma blank_mem_line mem line :
  strip line = "" -> mem_info_line mem line = raise ValueError.
Proof. intros Hb. unfold mem_info_line. by rewrite Hb. Qed.

(** X5.  Blank lines: the cpu-info parser skips them, so that they change
    nothing in its mapping wherever they stand, while a blank line
    anywhere in the mem-info file makes the parsing raise ValueError or
    IndexError and so every memory query fail. *)
Theorem blank_lines_in_pseudo_files before blank after :
  strip blank = "" ->
  (forall acc,
     for_each cpu_info_line acc (before ++ blank :: after)
     = for_each cpu_info_line acc (before ++ after))
  /\ (forall acc,
       is_ok (for_each mem_info_line acc (before ++ blank :: after)) = false).
Proof.
  intros Hblank. split.
  - induction before as [|line before IH]; intros acc; simpl.
    + by rewrite (blank_cpu_line _ _ Hblank).
    + destruct (cpu_info_line acc line); [apply IH|done].
  - induction before as [|line before IH]; intros acc; simpl.
    + by rewrite (blank_mem_line _ _ Hblank).
    + destruct (mem_info_line acc line); [apply IH|done].
Qed.

Lemma blank_lines_witness :
  is_ok (for_each mem_info_line ∅ ["MemTotal: 1 kB"; ""; "MemFree: 1 kB"]) = false.
Proof.
  apply (blank_lines_in_pseudo_files ["MemTotal: 1 kB"] "" ["MemFree: 1 kB"]).
  reflexivity.
Defined.

(** ** What the mem-info mapping holds *)

Lemma mem_info_line_lookup mem line mem' key :
  mem_info_line mem line = Ok mem' ->
  mem' !! key = if mem_defines key line then amount_of line else mem !! key.
Proof.
  unfold mem_info_line, mem_defines, amount_of.
  destruct (split ":" (strip line)) as [|k [|value [|x l]]]; try done.
  destruct (split_ws value) as [|num rest]; [done|].
  destruct (int num) as [n|]; simpl; [|done].
  intros [= <-]. rewrite lookup_insert.
  destruct (String.eqb_spec k key) as [->|Hne].
  - by rewrite decide_True.
  - by rewrite decide_False.
Qed.

Lemma for_each_mem_lookup l acc mem key :
  for_each mem_info_line acc l = Ok mem ->
  mem !! key = last_amount key (acc !! key) l.
Proof.
  revert acc. induction l as [|line l IH]; intros acc; simpl.
  - by intros [= <-].
  - destruct (mem_info_line acc line) as [acc'|] eqn:Hline; [|done].
    intros Hrest. rewrite (IH _ Hrest).
    by rewrite (mem_info_line_lookup _ _ _ key Hline).
Qed.

(** X6.  On a mem-info file whose lines are all well formed, and before
    anything is cached, a memory query returns the integer that the last
    line whose text before the colon is its key, as it stands, gives
    first after the colon, whatever unit follows; it raises KeyError when
    no line has that key.  [mem_total], [mem_free] and [mem_available] are
    the queries for their three keys. *)
Theorem mem_queries_return_last_amount m st content :
  mem_info_cache st = None ->
  files m !! "/proc/meminfo" = Some content ->
  Forall (fun line => mem_line_wellformed line = true) (file_lines content) ->
  let answer key :=
    match last_amount key None (file_lines content) with
    | Some n => Ok n
    | None => raise (KeyError key)
    end in
  (forall key, fst (mem_info_by_key m key st) = answer key)
  /\ fst (mem_total m st) = answer "MemTotal"
  /\ fst (mem_free m st) = answer "MemFree"
  /\ fst (mem_available m st) = answer "MemAvailable".
Proof.
  intros Hcache Hfile Hgood answer.
  assert (Hall : forall key, fst (mem_info_by_key m key st) = answer key).
  { intros key. rewrite mem_info_by_key_fresh by done.
    destruct (read_mem_info_wellformed _ _ Hfile Hgood) as [mem Hread].
    rewrite Hread. simpl.
    unfold read_mem_info, open in Hread. rewrite Hfile in Hread. simpl in Hread.
    unfold answer.
    by rewrite (for_each_mem_lookup _ _ _ key Hread), lookup_empty. }
  split; [exact Hall|]. repeat split; apply Hall.
Qed.

Lemma mem_queries_witness :
  fst (mem_total bios_machine initial) = Ok 16384
  /\ fst (mem_available bios_machine initial) = raise (KeyError "MemAvailable").
Proof.
  assert (Hfile : files bios_machine !! "/proc/meminfo"
                  = Some ("MemTotal:       16384 kB" +:+ newline +:+
                          "MemFree:         1024 kB" +:+ newline))
    by (vm_compute; reflexivity).
  assert (Hgood : Forall (fun line => mem_line_wellformed line = true)
                    (file_lines ("MemTotal:       16384 kB" +:+ newline +:+
                                 "MemFree:         1024 kB" +:+ newline))).
  { apply List.Forall_forall. intros line Hin. vm_compute in Hin.
    destruct Hin as [<-|[<-|[]]]; vm_compute; reflexivity. }
  destruct (mem_queries_return_last_amount bios_machine initial _
              eq_refl Hfile Hgood) as (_ & Htotal & _ & Havailable).
  split.
  - rewrite Htotal. vm_compute. reflexivity.
  - rewrite Havailable. vm_compute. reflexivity.
Defined.

End HardwareMore.

(* ===================================================================== *)
(** * More on the installation pipeline                                   *)
(* ===================================================================== *)

Module GuidedMore.
Import Python Guided Runs Steps Scenarios GuidedSpec.

(** ** The order of the steps *)

Lemma sanity_check_before_base E v arguments mountpoint :
  preceded is_sanity_check is_minimal_installation
    (trace (perform_installation E v arguments mountpoint)).
Proof. unfold perform_installation. preceded_walk idtac. Qed.

Lemma base_before_bootloader E v arguments mountpoint :
  preceded is_minimal_installation is_add_bootloader
    (trace (perform_installation E v arguments mountpoint)).
Proof. unfold perform_installation. preceded_walk idtac. Qed.

Lemma bootloader_before_keyboard E v arguments mountpoint :
  preceded is_add_bootloader is_keyboard_step
    (trace (perform_installation E v arguments mountpoint)).
Proof. unfold perform_installation. preceded_walk idtac. Qed.

Lemma keyboard_before_post_install E v arguments mountpoint :
  preceded is_keyboard_step is_post_install
    (trace (perform_installation E v arguments mountpoint)).
Proof. unfold perform_installation. preceded_walk idtac. Qed.

Lemma keyboard_before_genfstab E v arguments mountpoint :
  preceded is_keyboard_step is_genfstab
    (trace (perform_installation E v arguments mountpoint)).
Proof. unfold perform_installation. preceded_walk idtac. Qed.

(** X7.  The steps that do not depend on the plan come in a fixed order
    in every run, complete or not: the sanity check is made before the
    base system is installed, the base system before the bootloader, the
    bootloader before the keyboard layout is set, and the keyboard layout
    before the post-install hook of the profile and before the filesystem
    table is generated. *)
Theorem unconditional_steps_in_order E v arguments mountpoint :
  let tr := trace (perform_installation E v arguments mountpoint) in
  preceded is_sanity_check is_minimal_installation tr
  /\ preceded is_minimal_installation is_add_bootloader tr
  /\ preceded is_add_bootloader is_keyboard_step tr
  /\ preceded is_keyboard_step is_post_install tr
  /\ preceded is_keyboard_step is_genfstab tr.
Proof.
  cbv zeta. repeat apply conj.
  - apply sanity_check_before_base.
  - apply base_before_bootloader.
  - apply bootloader_before_keyboard.
  - apply keyboard_before_post_install.
  - apply keyboard_before_genfstab.
Qed.

(** ** The [with] block *)

Lemma installer_entered_before E v arguments mountpoint :
  preceded is_installer_enter uses_installer
    (trace (perform_installation E v arguments mountpoint)).
Proof. unfold perform_installation. preceded_walk idtac. Qed.

Lemma installer_exit_after E v arguments mountpoint :
  followed is_installer_exit uses_installer
    (trace (perform_installation E v arguments mountpoint)).
Proof.
  unfold perform_installation. cbv zeta.
  repeat match goal with
    | |- followed _ _ (trace (with_Installer _ _ _ _ _ _ ≫= _)) =>
        apply followed_bind_l;
        [ apply followed_with_Installer; reflexivity
        | intros ?; all_calls ltac:(reflexivity) ]
    | |- followed _ _ (trace (_ ≫= _)) =>
        apply followed_skip;
        [ all_calls ltac:(reflexivity) | intros ? ?; cbv beta iota zeta ]
    end.
Qed.

Lemma installer_exit_if_entered E v arguments mountpoint :
  followed is_installer_exit
    (fun e => is_installer_enter e
              && match raises E e with Some _ => false | None => true end)
    (trace (perform_installation E v arguments mountpoint)).
Proof.
  unfold perform_installation. cbv zeta.
  repeat match goal with
    | |- followed _ _ (trace (with_Installer _ _ _ _ _ _ ≫= _)) =>
        apply followed_bind_l; [ | intros ?; all_calls ltac:(reflexivity) ]
    | |- followed _ _ (trace (_ ≫= _)) =>
        apply followed_skip;
        [ all_calls ltac:(reflexivity) | intros ? ?; cbv beta iota zeta ]
    end.
  match goal with
  | |- followed _ _ (trace (with_Installer _ ?mp ?dc ?enc ?k _)) =>
      destruct (raises E (Installer_enter mp dc enc k)) as [x|] eqn:Hret
  end.
  - intros pre e post Heq He. rewrite trace_with_Installer, Hret in Heq.
    destruct pre as [|b [|c pre]]; simpl in Heq; try discriminate.
    injection Heq as <- _. simpl in He. by rewrite Hret in He.
  - apply followed_entered; [|reflexivity|reflexivity|exact Hret].
    all_calls ltac:(reflexivity).
Qed.

(** X8.  The installer is a scoped resource: every call that is handed
    the installation is made after the [with] block was entered and is
    followed by the call of [__exit__]; and once [__enter__] has returned,
    [__exit__] is called on every way out, also when a step raises. *)
Theorem installer_calls_stay_in_the_with_block E v arguments mountpoint :
  let tr := trace (perform_installation E v arguments mountpoint) in
  (forall pre e post,
     tr = (pre ++ e :: post)%list -> uses_installer e = true ->
     existsb is_installer_enter pre = true
     /\ existsb is_installer_exit post = true)
  /\ (forall pre e post,
       tr = (pre ++ e :: post)%list -> is_installer_enter e = true ->
       raises E e = None ->
       existsb is_installer_exit post = true).
Proof.
  cbv zeta. split.
  - intros pre e post Heq He. split.
    + by eapply installer_entered_before.
    + by eapply installer_exit_after.
  - intros pre e post Heq He Hret.
    eapply installer_exit_if_entered; [exact Heq|].
    by rewrite He, Hret.
Qed.

Lemma with_block_witness :
  let run := perform_installation (quiet uefi_machine true) guided_py
               no_keyboard_plan (PyPath "/mnt") in
  outcome run = raise (KeyError "keyboard-layout")
  /\ forall pre e post,
       trace run = (pre ++ e :: post)%list -> is_installer_enter e = true ->
       raises (quiet uefi_machine true) e = None ->
       existsb is_installer_exit post = true.
Proof.
  intros run. split; [vm_compute; reflexivity|].
  apply (installer_calls_stay_in_the_with_block (quiet uefi_machine true)
           guided_py no_keyboard_plan (PyPath "/mnt")).
Defined.

(** ** The filesystem table *)

Lemma genfstab_is_last E v arguments mountpoint :
  none_after mutating is_genfstab
    (trace (perform_installation E v arguments mountpoint)).
Proof.
  unfold perform_installation. cbv zeta.
  repeat match goal with
    | |- none_after _ _ (trace (call _ Genfstab ≫= _)) =>
        apply none_after_here; intros ?; all_calls ltac:(reflexivity)
    | |- none_after _ _ (trace (with_Installer _ _ _ _ _ _ ≫= _)) =>
        apply none_after_bind_l;
        [ apply none_after_with_Installer; [reflexivity | reflexivity | reflexivity | ]
        | intros ?; all_calls ltac:(split; reflexivity) ]
    | |- none_after _ _ (trace (_ ≫= _)) =>
        apply none_after_skip;
        [ all_calls ltac:(reflexivity) | intros ? ?; cbv beta iota zeta ]
    end.
Qed.

(** X9.  The generation of the filesystem table is the last step that
    writes to the target: it is called at most once, and after it no
    mounting, key-file generation, package installation, swap setup,
    bootloader installation or other mutating step is called. *)
Theorem genfstab_is_the_last_mutating_step E v arguments mountpoint :
  forall pre e post,
    trace (perform_installation E v arguments mountpoint) = (pre ++ e :: post)%list ->
    is_genfstab e = true ->
    Forall (fun e' => mutating e' = false) post.
Proof. apply genfstab_is_last. Qed.

Lemma genfstab_witness :
  let tr := trace (perform_installation (quiet uefi_machine true) guided_py
                     base_plan (PyPath "/mnt")) in
  tr = (firstn 10 tr ++ Genfstab :: skipn 11 tr)%list
  /\ length (skipn 11 tr) = 3%nat
  /\ Forall (fun e' => mutating e' = false) (skipn 11 tr).
Proof.
  intros tr.
  assert (Hsplit : tr = (firstn 10 tr ++ Genfstab :: skipn 11 tr)%list)
    by (vm_compute; reflexivity).
  split; [exact Hsplit|]. split; [vm_compute; reflexivity|].
  exact (genfstab_is_the_last_mutating_step (quiet uefi_machine true) guided_py
           base_plan (PyPath "/mnt") (firstn 10 tr) Genfstab (skipn 11 tr)
           Hsplit eq_refl).
Defined.

(** ** Exit codes *)

Lemma perform_installation_ends E Q v arguments mountpoint :
  (forall e x, raises E e = Some x -> Q x) ->
  (forall x, operand_error x = true -> Q x) ->
  ends_only Q (perform_installation E v arguments mountpoint).
Proof.
  intros Hcall Hop. unfold perform_installation. ends_walk Hcall Hop idtac.
Qed.

Lemma install_ends E Q v arguments :
  (forall e x, raises E e = Some x -> Q x) ->
  (forall x, operand_error x = true -> Q x) ->
  ends_only Q (install E v arguments).
Proof.
  intros Hcall Hop. unfold install, perform_filesystem_operations.
  ends_walk Hcall Hop idtac.
  by apply perform_installation_ends.
Qed.

Lemma guided_ends E Q arguments :
  (forall e x, raises E e = Some x -> Q x) ->
  (forall x, operand_error x = true -> Q x) ->
  (truthy (get arguments "help") = true
   \/ truthy (get (plan E guided_py arguments) "dry_run") = true ->
   Q (SystemExit 0)) ->
  (is_False (get_or arguments "skip-mirror-check" (PyBool false)) = true ->
   mirror_reachable E = false -> Q (SystemExit 1)) ->
  ends_only Q (guided E arguments).
Proof.
  intros Hcall Hop Hzero Hone. unfold guided.
  ends_walk Hcall Hop ltac:(idtac;
    repeat match goal with
      | H : outcome (ask _ _ _) = Ok _ |- _ => apply outcome_ask_inv in H; subst
      | H : outcome (if negb (truthy (get _ "silent")) then _ else _) = Ok ?a |- _ =>
          apply (gathered_plan _ _ a) in H; subst a
      | H : negb _ = true |- _ => apply negb_true_iff in H
      end;
    first [ apply Hzero; first [by left | by right] | by apply Hone ]).
  by apply install_ends.
Qed.

Lemma example_ends E Q arguments :
  (forall e x, raises E e = Some x -> Q x) ->
  (forall x, operand_error x = true -> Q x) ->
  ends_only Q (interactive_installation E arguments).
Proof.
  intros Hcall Hop. unfold interactive_installation.
  ends_walk Hcall Hop idtac. by apply install_ends.
Qed.

Lemma operand_error_status x :
  operand_error x = true -> exit_status (Fail x : result unit) = 1.
Proof. by destruct x as [code|[]]. Qed.

(** X10.  The exit codes.  The scripts call [exit] with 0 and 1 only: when
    no callee calls [exit], guided.py exits with code 0 only when help is
    asked for or the plan has [dry_run] set, and with code 1 only when the
    check of the mirrors was not skipped and failed, and
    [perform_installation] and the example script never exit.  When,
    besides, no callee raises a keyboard interrupt, the status of the
    process is 0 or 1 in every run of either script. *)
Theorem exit_codes E v arguments :
  (forall e code, raises E e <> Some (SystemExit code)) ->
  (forall code, outcome (guided E arguments) = Fail (SystemExit code) ->
     (code = 0
      /\ (truthy (get arguments "help") = true
          \/ truthy (get (plan E guided_py arguments) "dry_run") = true))
     \/ (code = 1
         /\ is_False (get_or arguments "skip-mirror-check" (PyBool false)) = true
         /\ mirror_reachable E = false))
  /\ (forall mountpoint code,
       outcome (perform_installation E v arguments mountpoint)
       <> Fail (SystemExit code))
  /\ (forall code,
       outcome (interactive_installation E arguments) <> Fail (SystemExit code))
  /\ ((forall e, raises E e <> Some (Raised KeyboardInterrupt)) ->
      exit_status (outcome (main E v arguments)) = 0
      \/ exit_status (outcome (main E v arguments)) = 1).
Proof.
  intros Hexit.
  assert (Hcall : forall (P : Z -> Prop) e x,
            raises E e = Some x -> forall code, x = SystemExit code -> P code).
  { intros P e x Hraised code ->. by destruct (Hexit e code). }
  assert (Hop : forall (P : Z -> Prop) x,
            operand_error x = true -> forall code, x = SystemExit code -> P code).
  { by intros P x Hx code ->. }
  split; [|split; [|split]].
  - intros code Hout.
    set (P := fun c : Z =>
           (c = 0
            /\ (truthy (get arguments "help") = true
                \/ truthy (get (plan E guided_py arguments) "dry_run") = true))
           \/ (c = 1
               /\ is_False (get_or arguments "skip-mirror-check" (PyBool false)) = true
               /\ mirror_reachable E = false)).
    assert (Hends : ends_only (fun x => forall c, x = SystemExit c -> P c)
                      (guided E arguments)).
    { apply guided_ends.
      - intros e x Hraised c Hc. exact (Hcall P e x Hraised c Hc).
      - intros x Hx c Hc. exact (Hop P x Hx c Hc).
      - intros Hwhy c [= <-]. by left.
      - intros Hskip Hreach c [= <-]. by right. }
    exact (Hends _ Hout code eq_refl).
  - intros mountpoint code Hout.
    assert (Hends : ends_only (fun x => forall c, x = SystemExit c -> False)
                      (perform_installation E v arguments mountpoint)).
    { apply perform_installation_ends.
      - intros e x Hraised c Hc. exact (Hcall (fun _ => False) e x Hraised c Hc).
      - intros x Hx c Hc. exact (Hop (fun _ => False) x Hx c Hc). }
    exact (Hends _ Hout code eq_refl).
  - intros code Hout.
    assert (Hends : ends_only (fun x => forall c, x = SystemExit c -> False)
                      (interactive_installation E arguments)).
    { apply example_ends.
      - intros e x Hraised c Hc. exact (Hcall (fun _ => False) e x Hraised c Hc).
      - intros x Hx c Hc. exact (Hop (fun _ => False) x Hx c Hc). }
    exact (Hends _ Hout code eq_refl).
  - intros Hint.
    set (Q := fun x : abort => exit_status (Fail x : result unit) = 0
                               \/ exit_status (Fail x : result unit) = 1).
    assert (Hcalls : forall e x, raises E e = Some x -> Q x).
    { intros e [code|y] Hraised; [by destruct (Hexit e code)|].
      right. destruct y; try reflexivity. by destruct (Hint e). }
    assert (Hops : forall x, operand_error x = true -> Q x).
    { intros x Hx. right. by apply operand_error_status. }
    assert (Hends : ends_only Q (main E v arguments)).
    { destruct v; unfold main.
      - apply guided_ends; [done|done|by left|by right].
      - by apply example_ends. }
    destruct (outcome (main E v arguments)) as [|x] eqn:Hout; [by left|].
    exact (Hends x Hout).
Qed.

Lemma exit_codes_witness :
  outcome (guided (quiet uefi_machine false) base_plan) = Fail (SystemExit 1)
  /\ is_False (get_or base_plan "skip-mirror-check" (PyBool false)) = true
  /\ mirror_reachable (quiet uefi_machine false) = false
  /\ exit_status (outcome (main (quiet uefi_machine false) guided_py base_plan)) = 1.
Proof.
  assert (Hout : outcome (guided (quiet uefi_machine false) base_plan)
                 = Fail (SystemExit 1)) by (vm_compute; reflexivity).
  assert (Hexit : forall e code,
            raises (quiet uefi_machine false) e <> Some (SystemExit code))
    by (intros e code; discriminate).
  destruct (exit_codes (quiet uefi_machine false) guided_py base_plan Hexit)
    as (Hcodes & _ & _ & Hstatus).
  split; [exact Hout|].
  destruct (Hcodes 1 Hout) as [[Hcode _]|[_ Hwhy]]; [discriminate Hcode|].
  split; [exact (proj1 Hwhy)|]. split; [exact (proj2 Hwhy)|].
  destruct (Hstatus ltac:(intros e; discriminate)) as [Hzero|Hone];
    [|exact Hone].
  exfalso. revert Hzero. vm_compute. discriminate.
Defined.

(** ** The help gate *)

Lemma help_run E arguments :
  truthy (get arguments "help") = true ->
  trace (guided E arguments) = [Print "See `man archinstall` for help."]
  /\ (raises E (Print "See `man archinstall` for help.") = None ->
      outcome (guided E arguments) = Fail (SystemExit 0)).
Proof.
  intros Hhelp. unfold guided. rewrite Hhelp. cbv beta iota.
  rewrite trace_bind, (outcome_bind (call E _ ≫= _)).
  rewrite (outcome_bind (call E _)), outcome_call, trace_bind, trace_call, outcome_call.
  destruct (raises E _); split; try done.
Qed.

(** X11.  When help is asked for, guided.py prints the pointer to the
    manual and makes no other call: no mirror check, no question, nothing
    saved or installed; it then exits with code 0, provided that the
    printing returns. *)
Theorem help_only_prints E arguments :
  truthy (get arguments "help") = true ->
  trace (guided E arguments) = [Print "See `man archinstall` for help."]
  /\ (raises E (Print "See `man archinstall` for help.") = None ->
      outcome (guided E arguments) = Fail (SystemExit 0)).
Proof. apply help_run. Qed.

Lemma help_witness :
  trace (guided (quiet uefi_machine false) (<["help" := PyBool true]> base_plan))
    = [Print "See `man archinstall` for help."]
  /\ outcome (guided (quiet uefi_machine false) (<["help" := PyBool true]> base_plan))
     = Fail (SystemExit 0).
Proof.
  assert (Hhelp : truthy (get (<["help" := PyBool true]> base_plan) "help") = true)
    by reflexivity.
  destruct (help_only_prints (quiet uefi_machine false)
              (<["help" := PyBool true]> base_plan) Hhelp) as [Htrace Hout].
  split; [exact Htrace | exact (Hout eq_refl)].
Defined.

(** ** Silent runs *)

Lemma silent_installation E v arguments mountpoint :
  truthy (get arguments "silent") = true ->
  Forall (fun e => prompts e = false)
    (trace (perform_installation E v arguments mountpoint)).
Proof.
  intros Hsilent. unfold perform_installation. cbv zeta. rewrite Hsilent.
  change (negb true) with false. cbv beta iota. all_calls ltac:(reflexivity).
Qed.

(** X12.  A silent run of guided.py waits for nobody: when [silent] is
    set, the menu is not run, the configuration is not shown, no key
    press is awaited, and the question about the chroot is not asked; the
    plan is the arguments as they were given. *)
Theorem silent_run_never_prompts E arguments :
  truthy (get arguments "silent") = true ->
  plan E guided_py arguments = arguments
  /\ Forall (fun e => prompts e = false) (trace (guided E arguments)).
Proof.
  intros Hsilent. split; [unfold plan; by rewrite Hsilent|].
  unfold guided. rewrite Hsilent. change (negb true) with false. cbv beta iota.
  repeat match goal with
    | |- Forall _ (trace (mret arguments ≫= _)) =>
        apply all_bind; [apply all_ret|]; intros ? [= <-]; cbv beta;
        rewrite Hsilent; change (negb true) with false; cbv beta iota
    | |- Forall _ (trace (install _ _ _)) =>
        unfold install, perform_filesystem_operations
    | |- Forall _ (trace (perform_installation _ _ _ _)) =>
        by apply silent_installation
    | |- Forall _ (trace (_ ≫= _)) =>
        apply all_bind; [all_calls ltac:(reflexivity) | intros ? ?; cbv beta zeta]
    | |- Forall _ (trace (if _ then _ else _)) => all_calls ltac:(reflexivity)
    end.
Qed.

Lemma silent_witness :
  Forall (fun e => prompts e = false)
    (trace (guided (quiet uefi_machine true) base_plan)).
Proof.
  apply (silent_run_never_prompts (quiet uefi_machine true) base_plan).
  reflexivity.
Defined.

(** ** When the mirrors are checked *)

Lemma is_False_get_or arguments key :
  is_False (get_or arguments key (PyBool false)) = true <->
  arguments !! key = None \/ arguments !! key = Some (PyBool false).
Proof.
  unfold get_or. destruct (arguments !! key) as [[|[]| | | | | | | |]|]; simpl;
    split; try done; auto; by intros [|].
Qed.

Lemma mirror_check_only_if E arguments :
  truthy (get arguments "help") = false ->
  Forall (fun e => e = Check_mirror_reachable ->
                   is_False (get_or arguments "skip-mirror-check" (PyBool false)) = true)
    (trace (guided E arguments)).
Proof.
  intros Hhelp. unfold guided, ask_user_questions, install,
    perform_filesystem_operations, perform_installation.
  rewrite Hhelp. cbv beta iota.
  all_calls ltac:(first [by intros [=] | by intros _]).
Qed.

(** X13.  The mirrors are checked only when help is not asked for and
    [skip-mirror-check] is absent or is the object False itself: any other
    value, the null of a configuration file included, skips the check.
    When it is made, the check is the first call of the run. *)
Theorem mirror_check_is_made_only_for_False E arguments :
  (In Check_mirror_reachable (trace (guided E arguments)) ->
     truthy (get arguments "help") = false
     /\ (arguments !! "skip-mirror-check" = None
         \/ arguments !! "skip-mirror-check" = Some (PyBool false)))
  /\ (truthy (get arguments "help") = false ->
      arguments !! "skip-mirror-check" = None
      \/ arguments !! "skip-mirror-check" = Some (PyBool false) ->
      exists rest, trace (guided E arguments) = Check_mirror_reachable :: rest).
Proof.
  split.
  - intros Hin. destruct (truthy (get arguments "help")) eqn:Hhelp.
    + destruct (help_run E arguments Hhelp) as [Htrace _].
      rewrite Htrace in Hin. by destruct Hin as [|[]].
    + split; [done|]. apply is_False_get_or.
      pose proof (mirror_check_only_if E arguments Hhelp) as Hall.
      rewrite List.Forall_forall in Hall. by apply (Hall _ Hin).
  - intros Hhelp Hskip%is_False_get_or. unfold guided.
    rewrite Hhelp, Hskip. cbv beta iota.
    rewrite (trace_bind pass). change (trace pass) with ([] : list event).
    change (outcome pass) with (Ok tt : result unit). cbv beta iota.
    rewrite trace_bind, (trace_bind (ask _ _ _)), trace_ask. simpl. by eexists.
Qed.

Lemma mirror_check_witness :
  exists rest,
    trace (guided (quiet uefi_machine false) base_plan)
    = Check_mirror_reachable :: rest.
Proof.
  apply (proj2 (mirror_check_is_made_only_for_False (quiet uefi_machine false)
                  base_plan)).
  - reflexivity.
  - left. reflexivity.
Defined.

(** ** Runs that return *)

Lemma completed_run_reads E v arguments mountpoint :
  outcome (perform_installation E v arguments mountpoint) = Ok tt ->
  (exists dc ct, arguments !! "disk_config" = Some dc
                 /\ getattr dc "config_type" = Ok ct)
  /\ is_Some (arguments !! "bootloader")
  /\ is_Some (arguments !! "keyboard-layout")
  /\ (exists enc, get_or arguments "sys-encoding" (PyStr "UTF-8") = PyStr enc)
  /\ is_ok (contains_str "multilib"
              (get_or arguments "additional-repositories" (PyList []))) = true.
Proof.
  unfold perform_installation. cbv zeta. intros Hout.
  repeat match type of Hout with
    | outcome (with_Installer _ _ _ _ _ _ ≫= _) = Ok _ =>
        apply outcome_bind_ok in Hout as (? & Hout & _);
        apply with_Installer_ok in Hout as (_ & Hout & _)
    | outcome (_ ≫= _) = Ok _ =>
        let a := fresh "a" in let H := fresh "H" in
        apply outcome_bind_ok in Hout as (a & H & Hout); cbv beta iota zeta in Hout
    end.
  repeat match goal with
    | H : outcome (lift _) = Ok _ |- _ => apply lift_ok in H
    end.
  repeat match goal with
    | H : getitem _ _ = Ok _ |- _ =>
        unfold getitem in H;
        match type of H with
        | match ?o with _ => _ end = _ => destruct o eqn:?; [|done]
        end; injection H as H; subst
    end.
  repeat apply conj; eauto.
  - match goal with
    | H : upper_method ?v = Ok _ |- _ => destruct v; try done
    end. by eexists.
  - match goal with
    | H : contains_str "multilib" _ = Ok _ |- _ => by rewrite H
    end.
Qed.

(** X14.  A run of [perform_installation] that returns has read a
    [disk_config] with a [config_type], a [bootloader] and a
    [keyboard-layout] from the plan, a [sys-encoding] that is a str and
    additional repositories that can be searched; it has made the sanity
    check, generated the filesystem table and left the [with] block. *)
Theorem completed_installation E v arguments mountpoint :
  outcome (perform_installation E v arguments mountpoint) = Ok tt ->
  let tr := trace (perform_installation E v arguments mountpoint) in
  ((exists dc ct, arguments !! "disk_config" = Some dc
                  /\ getattr dc "config_type" = Ok ct)
   /\ is_Some (arguments !! "bootloader")
   /\ is_Some (arguments !! "keyboard-layout")
   /\ (exists enc, get_or arguments "sys-encoding" (PyStr "UTF-8") = PyStr enc)
   /\ is_ok (contains_str "multilib"
               (get_or arguments "additional-repositories" (PyList []))) = true)
  /\ In Sanity_check tr /\ In Genfstab tr /\ In Installer_exit tr.
Proof.
  intros Hout. cbv zeta.
  split; [by apply (completed_run_reads E v arguments mountpoint)|].
  assert (Hhas : forall x, x = Sanity_check \/ x = Genfstab \/ x = Installer_exit ->
            In x (trace (perform_installation E v arguments mountpoint))).
  { intros x Hx.
    pose proof (completed_run_has
                  (fun e => match x, e with
                            | Sanity_check, Sanity_check => true
                            | Genfstab, Genfstab => true
                            | Installer_exit, Installer_exit => true
                            | _, _ => false
                            end) E v arguments mountpoint) as Hrun.
    assert (Hex : existsb (fun e => match x, e with
                            | Sanity_check, Sanity_check => true
                            | Genfstab, Genfstab => true
                            | Installer_exit, Installer_exit => true
                            | _, _ => false
                            end) (trace (perform_installation E v arguments mountpoint)) = true).
    { apply (Hrun ltac:(destruct Hx as [->|[->| ->]]; auto) tt Hout). }
    apply existsb_exists in Hex as (e & Hin & He).
    destruct Hx as [->|[->| ->]]; destruct e; try discriminate; exact Hin. }
  repeat split; apply Hhas; auto.
Qed.

Lemma completed_installation_witness :
  let run := perform_installation (quiet uefi_machine true) guided_py base_plan
               (PyPath "/mnt") in
  outcome run = Ok tt
  /\ In Sanity_check (trace run) /\ In Genfstab (trace run)
  /\ In Installer_exit (trace run).
Proof.
  intros run.
  assert (Hout : outcome run = Ok tt) by (vm_compute; reflexivity).
  split; [exact Hout|].
  exact (proj2 (completed_installation (quiet uefi_machine true) guided_py
                  base_plan (PyPath "/mnt") Hout)).
Defined.

(** ** Mounting and key files *)

Ltac read_disk_mode Hmode :=
  repeat match goal with
    | Hdc : outcome (lift (getitem _ "disk_config")) = Ok ?dc,
      Hct : outcome (lift (getattr ?dc "config_type")) = Ok ?ct |- _ =>
        pose proof (disk_mode_inv _ _ _ _ Hmode (lift_ok _ _ Hdc) (lift_ok _ _ Hct));
        subst ct
    end.

Lemma disk_mode_intro arguments dc ct :
  outcome (lift (getitem arguments "disk_config")) = Ok dc ->
  outcome (lift (getattr dc "config_type")) = Ok ct ->
  disk_mode arguments = Ok ct.
Proof.
  intros Hdc%lift_ok Hct%lift_ok. unfold disk_mode. by rewrite Hdc.
Qed.

Lemma mount_only_if_not_pre_mounted E v arguments mountpoint :
  Forall (fun e => calls "mount_ordered_layout" e = true
                   \/ calls "generate_key_files" e = true ->
                   exists ct, disk_mode arguments = Ok ct
                              /\ eq_enum ct "DiskLayoutType" "Pre_mount" = false)
    (trace (perform_installation E v arguments mountpoint)).
Proof.
  unfold perform_installation.
  all_calls ltac:(try (by intros [|])).
  all: intros _; eexists; split; [by eapply disk_mode_intro|];
    by apply negb_true_iff.
Qed.

Lemma key_files_only_if_encrypted E v arguments mountpoint :
  Forall (fun e => calls "generate_key_files" e = true ->
                   let encryption := get_or arguments "disk_encryption" PyNone in
                   truthy encryption = true
                   /\ exists kind, getattr encryption "encryption_type" = Ok kind
                        /\ eq_enum kind "EncryptionType" "NoEncryption" = false)
    (trace (perform_installation E v arguments mountpoint)).
Proof.
  unfold perform_installation.
  all_calls ltac:(try (by intros [=])).
  intros _. cbv zeta. split; [done|]. eexists. split; [by eapply lift_ok|].
  by apply negb_true_iff.
Qed.

Lemma mount_before_sanity_check E v arguments mountpoint ct :
  disk_mode arguments = Ok ct ->
  eq_enum ct "DiskLayoutType" "Pre_mount" = false ->
  preceded (calls "mount_ordered_layout") (calls "sanity_check")
    (trace (perform_installation E v arguments mountpoint)).
Proof.
  intros Hmode Hct. unfold perform_installation.
  runs_before ltac:(idtac; progress (read_disk_mode Hmode); rewrite ?Hct;
                    cbn [negb]; cbv beta iota).
Qed.

Lemma key_files_before_base E v arguments mountpoint ct kind :
  disk_mode arguments = Ok ct ->
  eq_enum ct "DiskLayoutType" "Pre_mount" = false ->
  truthy (get_or arguments "disk_encryption" PyNone) = true ->
  getattr (get_or arguments "disk_encryption" PyNone) "encryption_type" = Ok kind ->
  eq_enum kind "EncryptionType" "NoEncryption" = false ->
  preceded (calls "generate_key_files") (calls "minimal_installation")
    (trace (perform_installation E v arguments mountpoint)).
Proof.
  intros Hmode Hct Henc Hkind Hnone. unfold perform_installation. cbv zeta.
  rewrite Henc, Hkind.
  runs_before ltac:(idtac; first
    [ progress (read_disk_mode Hmode); rewrite ?Hct; cbn [negb]; cbv beta iota
    | match goal with
      | H : outcome (lift (Ok kind)) = Ok ?k |- _ =>
          apply lift_ok in H; injection H as <-; rewrite ?Hnone; cbn [negb];
          cbv beta iota
      end ]).
Qed.

(** X15.  Inside [perform_installation] the layout is mounted if and only
    if the disk configuration is not pre-mounted, and the key files are
    generated if and only if, besides, a disk encryption is set whose type
    is not NoEncryption: both calls are made only under these tests, the
    mount then comes before every sanity check and the key files before
    every installation of the base system. *)
Theorem mount_and_key_files E v arguments mountpoint :
  let tr := trace (perform_installation E v arguments mountpoint) in
  let encryption := get_or arguments "disk_encryption" PyNone in
  (In Mount_ordered_layout tr \/ In Generate_key_files tr ->
     exists ct, disk_mode arguments = Ok ct
                /\ eq_enum ct "DiskLayoutType" "Pre_mount" = false)
  /\ (In Generate_key_files tr ->
      truthy encryption = true
      /\ exists kind, getattr encryption "encryption_type" = Ok kind
           /\ eq_enum kind "EncryptionType" "NoEncryption" = false)
  /\ (forall ct, disk_mode arguments = Ok ct ->
      eq_enum ct "DiskLayoutType" "Pre_mount" = false ->
      preceded (calls "mount_ordered_layout") (calls "sanity_check") tr
      /\ forall kind,
           truthy encryption = true ->
           getattr encryption "encryption_type" = Ok kind ->
           eq_enum kind "EncryptionType" "NoEncryption" = false ->
           preceded (calls "generate_key_files") (calls "minimal_installation") tr).
Proof.
  cbv zeta. split; [|split].
  - pose proof (mount_only_if_not_pre_mounted E v arguments mountpoint) as Hall.
    rewrite List.Forall_forall in Hall.
    intros [Hin|Hin]; apply (Hall _ Hin); auto.
  - pose proof (key_files_only_if_encrypted E v arguments mountpoint) as Hall.
    rewrite List.Forall_forall in Hall.
    intros Hin. by apply (Hall _ Hin).
  - intros ct Hmode Hct. split.
    + by eapply mount_before_sanity_check.
    + intros kind Henc Hkind Hnone. by eapply key_files_before_base.
Qed.

Lemma mount_and_key_files_witness :
  let run := perform_installation (quiet uefi_machine true) guided_py
               encrypted_plan (PyPath "/mnt") in
  preceded (calls "mount_ordered_layout") (calls "sanity_check") (trace run)
  /\ preceded (calls "generate_key_files") (calls "minimal_installation") (trace run)
  /\ existsb (calls "minimal_installation") (trace run) = true.
Proof.
  intros run.
  destruct (mount_and_key_files (quiet uefi_machine true) guided_py
              encrypted_plan (PyPath "/mnt")) as (_ & _ & Hif).
  destruct (Hif (PyEnum "DiskLayoutType" "Default")) as [Hmount Hkeys];
    [reflexivity | reflexivity |].
  split; [exact Hmount|]. split; [|vm_compute; reflexivity].
  apply (Hkeys (PyEnum "EncryptionType" "Luks")); reflexivity.
Defined.

(** ** Mirrors *)

Lemma getitem_lookup (d : gmap string pyval) key a :
  outcome (lift (getitem d key)) = Ok a -> d !! key = Some a.
Proof.
  intros H%lift_ok. unfold getitem in H. destruct (d !! key); [|done].
  by injection H as ->.
Qed.

Lemma is_not_None_get arguments key :
  is_not_None (get_or arguments key PyNone) = true <->
  exists v, arguments !! key = Some v /\ v <> PyNone.
Proof.
  unfold get_or. destruct (arguments !! key) as [v|]; simpl.
  - split.
    + intros Hv. exists v. split; [done|]. by intros ->.
    + intros (w & [= <-] & Hw). by destruct v.
  - split; [done|]. by intros (? & ? & ?).
Qed.

Lemma mirrors_only_if E v arguments mountpoint :
  Forall (fun e =>
            match e with
            | Use_mirrors region =>
                truthy (get_or arguments "mirror-region" PyNone) = true
                /\ arguments !! "mirror-region" = Some region
            | Set_mirrors region =>
                arguments !! "mirror-region" = Some region
                /\ is_not_None (get arguments "mirror-region") = true
                /\ is_not_None (get_or arguments "mirrors" PyNone) = true
            | _ => True
            end)
    (trace (perform_installation E v arguments mountpoint)).
Proof.
  unfold perform_installation.
  all_calls ltac:(first [exact I | by repeat split; try apply getitem_lookup]).
Qed.

Lemma use_mirrors_before_base E v arguments mountpoint :
  truthy (get_or arguments "mirror-region" PyNone) = true ->
  preceded (calls "use_mirrors") (calls "minimal_installation")
    (trace (perform_installation E v arguments mountpoint)).
Proof.
  intros Hregion. unfold perform_installation. cbv zeta. rewrite Hregion.
  runs_before idtac.
Qed.

Lemma set_mirrors_before_bootloader E v arguments mountpoint :
  is_not_None (get arguments "mirror-region") = true ->
  is_not_None (get_or arguments "mirrors" PyNone) = true ->
  preceded (calls "set_mirrors") (calls "add_bootloader")
    (trace (perform_installation E v arguments mountpoint)).
Proof.
  intros Hregion Hmirrors. unfold perform_installation. cbv zeta.
  rewrite Hregion, Hmirrors. runs_before idtac.
Qed.

(** X16.  The two mirror steps have different tests.  The mirrors of the
    live medium are set only when the region of the plan is true in a
    test, and then before the base system is installed; the mirrors of
    the target are set only when the region is not None and the plan has
    a [mirrors] entry that is not None, and then before the bootloader is
    installed.  Both are called with the region of the plan. *)
Theorem mirror_steps E v arguments mountpoint :
  let tr := trace (perform_installation E v arguments mountpoint) in
  (forall region, In (Use_mirrors region) tr ->
     truthy (get_or arguments "mirror-region" PyNone) = true
     /\ arguments !! "mirror-region" = Some region)
  /\ (forall region, In (Set_mirrors region) tr ->
     arguments !! "mirror-region" = Some region
     /\ region <> PyNone
     /\ exists mirrors, arguments !! "mirrors" = Some mirrors /\ mirrors <> PyNone)
  /\ (truthy (get_or arguments "mirror-region" PyNone) = true ->
      preceded (calls "use_mirrors") (calls "minimal_installation") tr)
  /\ (forall region mirrors,
       arguments !! "mirror-region" = Some region -> region <> PyNone ->
       arguments !! "mirrors" = Some mirrors -> mirrors <> PyNone ->
       preceded (calls "set_mirrors") (calls "add_bootloader") tr).
Proof.
  cbv zeta.
  pose proof (mirrors_only_if E v arguments mountpoint) as Hall.
  rewrite List.Forall_forall in Hall.
  split; [|split; [|split]].
  - intros region Hin. exact (Hall _ Hin).
  - intros region Hin. destruct (Hall _ Hin) as (Hregion & Hnone & Hmirrors).
    split; [done|]. split.
    + apply is_not_None_get in Hnone as (w & Hw & Hne). congruence.
    + by apply is_not_None_get.
  - apply use_mirrors_before_base.
  - intros region mirrors Hregion Hne Hmirrors Hne'.
    apply set_mirrors_before_bootloader; apply is_not_None_get; eauto.
Qed.

Lemma mirror_steps_witness :
  let run := perform_installation (quiet uefi_machine true) guided_py
               empty_region_plan (PyPath "/mnt") in
  preceded (calls "set_mirrors") (calls "add_bootloader") (trace run)
  /\ existsb (calls "add_bootloader") (trace run) = true
  /\ existsb (calls "use_mirrors") (trace run) = false.
Proof.
  intros run. split; [|vm_compute; auto].
  apply (mirror_steps (quiet uefi_machine true) guided_py empty_region_plan
           (PyPath "/mnt")) with (region := PyList []) (mirrors := PyList []);
    first [reflexivity | discriminate].
Defined.

(** ** Swap *)

Lemma swap_only_if E v arguments mountpoint :
  Forall (fun e => forall kind, e = Setup_swap kind ->
                   kind = "zram" /\ truthy (get arguments "swap") = true)
    (trace (perform_installation E v arguments mountpoint)).
Proof.
  unfold perform_installation. all_calls ltac:(by intros ? [=]).
Qed.

Lemma swap_before_bootloader E v arguments mountpoint :
  truthy (get arguments "swap") = true ->
  preceded (calls "setup_swap") (calls "add_bootloader")
    (trace (perform_installation E v arguments mountpoint)).
Proof.
  intros Hswap. unfold perform_installation. cbv zeta. rewrite Hswap.
  runs_before idtac.
Qed.

(** X17.  The swap is set up if and only if the [swap] field of the plan
    is true in a test: [setup_swap] is called only then, always with
    'zram', after the base system (in every run) and before the
    bootloader is installed. *)
Theorem swap_iff_requested E v arguments mountpoint :
  let tr := trace (perform_installation E v arguments mountpoint) in
  (forall kind, In (Setup_swap kind) tr ->
     kind = "zram" /\ truthy (get arguments "swap") = true)
  /\ preceded (calls "minimal_installation") (calls "setup_swap") tr
  /\ (truthy (get arguments "swap") = true ->
      preceded (calls "setup_swap") (calls "add_bootloader") tr).
Proof.
  cbv zeta. split; [|split].
  - intros kind Hin.
    pose proof (swap_only_if E v arguments mountpoint) as Hall.
    rewrite List.Forall_forall in Hall. by apply (Hall _ Hin).
  - unfold perform_installation. preceded_walk idtac.
  - apply swap_before_bootloader.
Qed.

Lemma swap_witness :
  let run := perform_installation (quiet uefi_machine true) guided_py
               (<["swap" := PyBool true]> base_plan) (PyPath "/mnt") in
  preceded (calls "setup_swap") (calls "add_bootloader") (trace run)
  /\ existsb (calls "add_bootloader") (trace run) = true.
Proof.
  intros run. split; [|vm_compute; reflexivity].
  apply (swap_iff_requested (quiet uefi_machine true) guided_py
           (<["swap" := PyBool true]> base_plan) (PyPath "/mnt")).
  reflexivity.
Defined.

(** ** Accounts *)

Lemma root_password_test arguments a :
  outcome
    (if truthy (get_or arguments "!root-password" PyNone)
     then lift (len (get_or arguments "!root-password" PyNone))
            ≫= λ n : Z, mret (negb (n =? 0))
     else mret false) = Ok a ->
  a = true <->
  truthy (get_or arguments "!root-password" PyNone) = true
  /\ exists n, len (get_or arguments "!root-password" PyNone) = Ok n /\ n <> 0.
Proof.
  destruct (truthy (get_or arguments "!root-password" PyNone)); simpl.
  - destruct (len (get_or arguments "!root-password" PyNone)) as [n|]; simpl;
      [|done].
    intros [= <-]. split.
    + intros Hn%negb_true_iff%Z.eqb_neq. eauto.
    + intros [_ (m & [= <-] & Hm)]. by apply negb_true_iff, Z.eqb_neq.
  - intros [= <-]. split; [done|]. by intros [? _].
Qed.

Lemma accounts_only_if E v arguments mountpoint :
  Forall (fun e =>
            match e with
            | Create_users users =>
                users = get_or arguments "!users" PyNone /\ truthy users = true
            | User_set_pw user password =>
                user = "root"
                /\ password = get_or arguments "!root-password" PyNone
                /\ truthy password = true
                /\ exists n, len password = Ok n /\ n <> 0
            | _ => True
            end)
    (trace (perform_installation E v arguments mountpoint)).
Proof.
  unfold perform_installation.
  all_calls ltac:(first [exact I | done | idtac]).
  split; [done|]. split; [done|].
  match goal with
  | H : outcome _ = Ok true |- _ => by apply root_password_test in H as [H _]; apply H
  end.
Qed.

Lemma users_before_keyboard E v arguments mountpoint :
  truthy (get_or arguments "!users" PyNone) = true ->
  preceded (calls "create_users") (calls "set_keyboard_language")
    (trace (perform_installation E v arguments mountpoint)).
Proof.
  intros Husers. unfold perform_installation. cbv zeta. rewrite Husers.
  runs_before idtac.
Qed.

Lemma root_password_before_keyboard E v arguments mountpoint :
  (truthy (get_or arguments "!root-password" PyNone) = true
   /\ exists n, len (get_or arguments "!root-password" PyNone) = Ok n /\ n <> 0) ->
  preceded (calls "user_set_pw") (calls "set_keyboard_language")
    (trace (perform_installation E v arguments mountpoint)).
Proof.
  intros Hpw. unfold perform_installation.
  runs_before ltac:(idtac; match goal with
    | H : outcome (if truthy (get_or _ "!root-password" _) then _ else _) = Ok ?a
      |- _ =>
        apply root_password_test in H as [_ H]; specialize (H Hpw); subst a;
        cbv beta iota
    end).
Qed.

Lemma unsized_root_password E v arguments mountpoint x :
  truthy (get_or arguments "!root-password" PyNone) = true ->
  len (get_or arguments "!root-password" PyNone) = Fail x ->
  Forall (fun e => calls "user_set_pw" e = false
                   /\ calls "set_keyboard_language" e = false
                   /\ calls "genfstab" e = false)
    (trace (perform_installation E v arguments mountpoint)).
Proof.
  intros Hpw Hlen. unfold perform_installation. cbv zeta. rewrite Hpw, Hlen.
  all_calls ltac:(try (by repeat split)).
  all: match goal with
       | H : outcome (lift (Fail _) ≫= _) = Ok _ |- _ => discriminate H
       end.
Qed.

(** X18.  The accounts: the users are created only when the plan has a
    [!users] entry that is true in a test, and the password of root is set
    only when [!root-password] is true in a test and has a length other
    than 0 (a non-empty str, list or dict, for instance): both calls are
    made only then, with the values of the plan, and then before the
    keyboard layout is set.  A root password that is true in a test but
    has no length, such as a number, stops the run before the password,
    the keyboard layout or the filesystem table is touched. *)
Theorem account_steps E v arguments mountpoint :
  let tr := trace (perform_installation E v arguments mountpoint) in
  let password := get_or arguments "!root-password" PyNone in
  (forall users, In (Create_users users) tr ->
     users = get_or arguments "!users" PyNone /\ truthy users = true)
  /\ (forall user pw, In (User_set_pw user pw) tr ->
     user = "root" /\ pw = password
     /\ truthy pw = true /\ exists n, len pw = Ok n /\ n <> 0)
  /\ (truthy (get_or arguments "!users" PyNone) = true ->
      preceded (calls "create_users") (calls "set_keyboard_language") tr)
  /\ (truthy password = true -> (exists n, len password = Ok n /\ n <> 0) ->
      preceded (calls "user_set_pw") (calls "set_keyboard_language") tr)
  /\ (forall x, truthy password = true -> len password = Fail x ->
      Forall (fun e => calls "user_set_pw" e = false
                       /\ calls "set_keyboard_language" e = false
                       /\ calls "genfstab" e = false) tr).
Proof.
  cbv zeta.
  pose proof (accounts_only_if E v arguments mountpoint) as Hall.
  rewrite List.Forall_forall in Hall.
  repeat apply conj.
  - intros users Hin. exact (Hall _ Hin).
  - intros user pw Hin. exact (Hall _ Hin).
  - apply users_before_keyboard.
  - intros Htrue Hlen. by apply root_password_before_keyboard.
  - intros x. apply unsized_root_password.
Qed.

Lemma account_steps_witness :
  let run := perform_installation (quiet uefi_machine true) guided_py
               (<["!root-password" := PyStr "secret"]> base_plan) (PyPath "/mnt") in
  let bad := perform_installation (quiet uefi_machine true) guided_py
               (<["!root-password" := PyInt 1234]> base_plan) (PyPath "/mnt") in
  preceded (calls "user_set_pw") (calls "set_keyboard_language") (trace run)
  /\ In (User_set_pw "root" (PyStr "secret")) (trace run)
  /\ existsb (calls "set_keyboard_language") (trace run) = true
  /\ Forall (fun e => calls "user_set_pw" e = false
                      /\ calls "set_keyboard_language" e = false
                      /\ calls "genfstab" e = false) (trace bad).
Proof.
  intros run bad.
  destruct (account_steps (quiet uefi_machine true) guided_py
              (<["!root-password" := PyStr "secret"]> base_plan) (PyPath "/mnt"))
    as (_ & _ & _ & Hroot & _).
  destruct (account_steps (quiet uefi_machine true) guided_py
              (<["!root-password" := PyInt 1234]> base_plan) (PyPath "/mnt"))
    as (_ & _ & _ & _ & Hbad).
  split; [|split; [|split; [vm_compute; reflexivity|]]].
  - apply Hroot; [reflexivity|]. exists 6. split; [reflexivity|discriminate].
  - vm_compute. repeat (first [left; reflexivity | right]).
  - apply (Hbad (Raised TypeError)); reflexivity.
Defined.

(** ** The shell in the new system *)











(** ** What is read before the installer is entered *)

Lemma trace_lift_bind {A B} (r : result A) (f : A -> M B) :
  trace (lift r ≫= f) = match r with Ok a => trace (f a) | Fail _ => [] end.
Proof. rewrite trace_bind. by destruct r. Qed.

Lemma is_ok_false {A} (r : result A) : is_ok r = false -> exists x, r = Fail x.
Proof. destruct r as [a|x]; [done|]. by exists x. Qed.

Lemma searched_alike s t v : is_ok (contains_str s v) = is_ok (contains_str t v).
Proof. by destruct v. Qed.

Lemma prologue_trace E v arguments mountpoint :
  arguments !! "disk_config" = None
  \/ is_ok (contains_str "testing"
              (get_or arguments "additional-repositories" (PyList []))) = false
  \/ is_ok (upper_method (get_or arguments "sys-encoding" (PyStr "UTF-8"))) = false ->
  trace (perform_installation E v arguments mountpoint)
  = [Info [Lit "Starting installation"]].
Proof.
  intros Hbad. unfold perform_installation. cbv zeta.
  rewrite trace_bind, trace_call. destruct (outcome (call E _)); [|done].
  cbn [app]. f_equal. rewrite trace_lift_bind.
  destruct (getitem arguments "disk_config") as [dc|] eqn:Hdc; [|done].
  rewrite trace_lift_bind.
  destruct (contains_str "testing" _) as [testing|] eqn:Htesting; [|done].
  rewrite trace_lift_bind.
  destruct (contains_str "multilib" _) as [multilib|] eqn:Hmultilib; [|done].
  rewrite trace_lift_bind.
  destruct (upper_method _) as [encoding|] eqn:Hencoding; [|done].
  exfalso. destruct Hbad as [Hnone|[Hrepo|Henc]]; try done.
  unfold getitem in Hdc. by rewrite Hnone in Hdc.
Qed.

Lemma prologue_fails E v arguments mountpoint :
  arguments !! "disk_config" = None
  \/ is_ok (contains_str "testing"
              (get_or arguments "additional-repositories" (PyList []))) = false
  \/ is_ok (upper_method (get_or arguments "sys-encoding" (PyStr "UTF-8"))) = false ->
  fails (perform_installation E v arguments mountpoint).
Proof.
  intros Hbad. unfold perform_installation. cbv zeta.
  assert (Hfail : (exists x, getitem arguments "disk_config" = Fail x)
            \/ (exists x, contains_str "testing"
                  (get_or arguments "additional-repositories" (PyList [])) = Fail x)
            \/ (exists x, upper_method
                  (get_or arguments "sys-encoding" (PyStr "UTF-8")) = Fail x)).
  { destruct Hbad as [Hnone|[Hrepo|Henc]].
    - left. unfold getitem. rewrite Hnone. by eexists.
    - right. left. by apply is_ok_false.
    - right. right. by apply is_ok_false. }
  destruct Hfail as [[x Hx]|[[x Hx]|[x Hx]]];
    repeat first
      [ apply fails_here; eapply fails_lift; eassumption
      | apply fails_skip; intros ? ? ].
Qed.

(** X20.  The plan is checked only as it is read.  When it has no
    [disk_config], when its additional repositories cannot be searched or
    when its [sys-encoding] is not a str, [perform_installation] logs its
    first message and stops with the exception, before the installer is
    created.  In both scripts a plan with a [disk_config] and one of the
    two other flaws has by then been handed to the filesystem handler. *)
Theorem malformed_plan_stops_before_the_installer E v arguments mountpoint :
  arguments !! "disk_config" = None
  \/ is_ok (contains_str "testing"
              (get_or arguments "additional-repositories" (PyList []))) = false
  \/ is_ok (upper_method (get_or arguments "sys-encoding" (PyStr "UTF-8"))) = false ->
  trace (perform_installation E v arguments mountpoint)
    = [Info [Lit "Starting installation"]]
  /\ fails (perform_installation E v arguments mountpoint)
  /\ (forall dc, arguments !! "disk_config" = Some dc ->
        In (FilesystemHandler_init dc (get_or arguments "disk_encryption" PyNone))
          (trace (install E v arguments))
        /\ Forall (fun e => is_installer_enter e = false)
             (trace (install E v arguments))
        /\ fails (install E v arguments)).
Proof.
  intros Hbad. split; [by apply prologue_trace|]. split; [by apply prologue_fails|].
  intros dc Hdc. unfold install.
  assert (Hget : getitem arguments "disk_config" = Ok dc)
    by (unfold getitem; by rewrite Hdc).
  rewrite Hget. split; [|split].
  - rewrite trace_lift_bind, trace_bind, trace_call. by left.
  - unfold perform_filesystem_operations.
    all_calls ltac:(try reflexivity).
    rewrite prologue_trace by done. by constructor.
  - do 3 (apply fails_skip; intros ? ?). by apply prologue_fails.
Qed.

Lemma malformed_plan_witness :
  let arguments := <["sys-encoding" := PyNone]> base_plan in
  trace (perform_installation (quiet uefi_machine true) guided_py arguments
           (PyPath "/mnt")) = [Info [Lit "Starting installation"]]
  /\ In (FilesystemHandler_init (layout "Default") PyNone)
       (trace (install (quiet uefi_machine true) guided_py arguments)).
Proof.
  intros arguments.
  assert (Hbad : arguments !! "disk_config" = None
            \/ is_ok (contains_str "testing"
                 (get_or arguments "additional-repositories" (PyList []))) = false
            \/ is_ok (upper_method
                 (get_or arguments "sys-encoding" (PyStr "UTF-8"))) = false)
    by (right; right; reflexivity).
  destruct (malformed_plan_stops_before_the_installer (quiet uefi_machine true)
              guided_py arguments (PyPath "/mnt") Hbad) as (Htrace & _ & Hinstall).
  split; [exact Htrace|].
  assert (Hdc : arguments !! "disk_config" = Some (layout "Default"))
    by (vm_compute; reflexivity).
  exact (proj1 (Hinstall (layout "Default") Hdc)).
Defined.

(** ** The audio server *)

Lemma eq_str_spec v s : eq_str v s = true <-> v = PyStr s.
Proof.
  destruct v; simpl; try (split; [done|by intros [=]]).
  split; [by intros ->%String.eqb_eq|]. intros [= ->]. apply String.eqb_refl.
Qed.

Lemma audio_only_if E v arguments mountpoint :
  Forall (fun e =>
            match e with
            | PipewireProfile_install =>
                get_or arguments "audio" PyNone = PyStr "pipewire"
            | Add_additional_packages pulseaudio_server p =>
                get_or arguments "audio" PyNone = PyStr "pulseaudio"
                /\ p = PyStr "pulseaudio"
            | _ => True
            end)
    (trace (perform_installation E v arguments mountpoint)).
Proof.
  unfold perform_installation.
  all_calls ltac:(first [exact I | by apply eq_str_spec
                        | by split; [apply eq_str_spec|] ]).
Qed.

Lemma audio_before_accessibility E v arguments mountpoint :
  get_or arguments "audio" PyNone = PyStr "pipewire"
  \/ get_or arguments "audio" PyNone = PyStr "pulseaudio" ->
  preceded installs_audio_server (calls "accessibility_tools_in_use")
    (trace (perform_installation E v arguments mountpoint)).
Proof.
  intros Haudio. unfold perform_installation. cbv zeta.
  destruct Haudio as [-> | ->]; simpl truthy; simpl eq_str; cbv beta iota;
    preceded_walk ltac:(idtac; match goal with
      | |- preceded _ _ (trace (ask _ _ _ ≫= _)) => fail 1
      | |- preceded _ _ (trace ((call _ (Info _) ;; call _ ?x) ≫= _)) =>
          apply preceded_in;
          [ solve [all_calls ltac:(reflexivity)]
          | apply returns_after_skip; intros ? ?;
            apply returns_after_call; reflexivity ]
      end).
Qed.

(** X21.  At most one audio server is installed, and the choice is by the
    exact name: the pipewire profile is installed only when [audio] is the
    str 'pipewire', the pulseaudio package only when it is 'pulseaudio';
    for either value the server is installed before the accessibility
    tools are looked for, and for every other value, in another case for
    instance, no server is installed. *)
Theorem audio_server_choice E v arguments mountpoint :
  let tr := trace (perform_installation E v arguments mountpoint) in
  let audio := get_or arguments "audio" PyNone in
  (In PipewireProfile_install tr -> audio = PyStr "pipewire")
  /\ (forall p, In (Add_additional_packages pulseaudio_server p) tr ->
        audio = PyStr "pulseaudio" /\ p = PyStr "pulseaudio")
  /\ (audio = PyStr "pipewire" \/ audio = PyStr "pulseaudio" ->
      preceded installs_audio_server (calls "accessibility_tools_in_use") tr)
  /\ (audio <> PyStr "pipewire" -> audio <> PyStr "pulseaudio" ->
      Forall (fun e => installs_audio_server e = false) tr).
Proof.
  cbv zeta.
  pose proof (audio_only_if E v arguments mountpoint) as Hall.
  rewrite List.Forall_forall in Hall.
  split; [|split; [|split]].
  - intros Hin. exact (Hall _ Hin).
  - intros p Hin. exact (Hall _ Hin).
  - apply audio_before_accessibility.
  - intros Hpipewire Hpulse. apply List.Forall_forall. intros e Hin.
    specialize (Hall e Hin).
    destruct e as [| | | | | | | | | | | | | | | | | | | |site ?| | | | | | | | | | | | | | | | |];
      try reflexivity; [destruct site; try reflexivity|]; exfalso; tauto.
Qed.

Lemma audio_server_witness :
  let run audio := perform_installation (quiet uefi_machine true) guided_py
                     (<["audio" := PyStr audio]> base_plan) (PyPath "/mnt") in
  preceded installs_audio_server (calls "accessibility_tools_in_use")
    (trace (run "pulseaudio"))
  /\ In Accessibility_tools_in_use (trace (run "pulseaudio"))
  /\ Forall (fun e => installs_audio_server e = false) (trace (run "Pipewire")).
Proof.
  intros run.
  destruct (audio_server_choice (quiet uefi_machine true) guided_py
              (<["audio" := PyStr "pulseaudio"]> base_plan) (PyPath "/mnt"))
    as (_ & _ & Hif & _).
  destruct (audio_server_choice (quiet uefi_machine true) guided_py
              (<["audio" := PyStr "Pipewire"]> base_plan) (PyPath "/mnt"))
    as (_ & _ & _ & Hnot).
  split; [apply Hif; right; reflexivity|].
  split; [vm_compute; repeat (first [left; reflexivity | right])|].
  apply Hnot; discriminate.
Defined.

(** ** The optional settings *)

Lemma truthy_get_or d key default :
  truthy (get_or d key PyNone) = true ->
  d !! key = Some (get_or d key default)
  /\ get_or d key default = get_or d key PyNone.
Proof. unfold get_or. by destruct (d !! key). Qed.

Lemma optional_only_if E v arguments mountpoint :
  Forall (fun e =>
            match e with
            | Config_installer network_config profile_config =>
                network_config = get_or arguments "nic" PyNone
                /\ truthy network_config = true
                /\ profile_config = get_or arguments "profile_config" PyNone
            | Set_timezone timezone =>
                timezone = get_or arguments "timezone" PyNone
                /\ truthy timezone = true
            | Activate_time_syncronization =>
                truthy (get_or arguments "ntp" (PyBool false)) = true
            | Enable_espeakup => accessibility_tools E = true
            | Enable_service services =>
                arguments !! "services" = Some services /\ truthy services = true
            | Run_custom_user_commands commands =>
                arguments !! "custom-commands" = Some commands
                /\ truthy commands = true
            | _ => True
            end)
    (trace (perform_installation E v arguments mountpoint)).
Proof.
  unfold perform_installation.
  all_calls ltac:(first
    [ exact I
    | by repeat split
    | match goal with
      | H : outcome (ask _ _ _) = Ok _ |- _ => by apply outcome_ask_inv in H
      end
    | match goal with
      | H : truthy (get_or _ "services" PyNone) = true |- _ =>
          destruct (truthy_get_or _ _ (PyList []) H) as [Hkey Hsame];
          split; [exact Hkey | by rewrite Hsame]
      end
    | match goal with
      | H : truthy (get_or _ "custom-commands" PyNone) = true,
        Hget : outcome (lift (getitem _ "custom-commands")) = Ok _ |- _ =>
          apply lift_ok, getitem_lookup in Hget; split; [exact Hget|];
          unfold get_or in H; by rewrite Hget in H
      end ]).
Qed.

Lemma network_before_accessibility E v arguments mountpoint :
  truthy (get_or arguments "nic" PyNone) = true ->
  preceded (calls "config_installer") (calls "accessibility_tools_in_use")
    (trace (perform_installation E v arguments mountpoint)).
Proof.
  intros Hset. unfold perform_installation. cbv zeta. rewrite Hset.
  runs_before idtac.
Qed.

Lemma timezone_before_accessibility E v arguments mountpoint :
  truthy (get_or arguments "timezone" PyNone) = true ->
  preceded (calls "set_timezone") (calls "accessibility_tools_in_use")
    (trace (perform_installation E v arguments mountpoint)).
Proof.
  intros Hset. unfold perform_installation. cbv zeta. rewrite Hset.
  runs_before idtac.
Qed.

Lemma ntp_before_accessibility E v arguments mountpoint :
  truthy (get_or arguments "ntp" (PyBool false)) = true ->
  preceded (calls "activate_time_syncronization")
    (calls "accessibility_tools_in_use")
    (trace (perform_installation E v arguments mountpoint)).
Proof.
  intros Hset. unfold perform_installation. cbv zeta. rewrite Hset.
  runs_before idtac.
Qed.

Lemma espeakup_before_keyboard E v arguments mountpoint :
  accessibility_tools E = true ->
  preceded (calls "enable_espeakup") (calls "set_keyboard_language")
    (trace (perform_installation E v arguments mountpoint)).
Proof.
  intros Hset. unfold perform_installation.
  runs_before ltac:(idtac; match goal with
    | H : outcome (ask _ _ (accessibility_tools E)) = Ok ?a |- _ =>
        apply outcome_ask_inv in H; rewrite Hset in H; subst a; cbv beta iota
    end).
Qed.

Lemma services_before_genfstab E v arguments mountpoint :
  truthy (get_or arguments "services" PyNone) = true ->
  preceded (calls "enable_service") (calls "genfstab")
    (trace (perform_installation E v arguments mountpoint)).
Proof.
  intros Hset. unfold perform_installation. cbv zeta. rewrite Hset.
  runs_before idtac.
Qed.

Lemma commands_before_genfstab E v arguments mountpoint :
  truthy (get_or arguments "custom-commands" PyNone) = true ->
  preceded (calls "run_custom_user_commands") (calls "genfstab")
    (trace (perform_installation E v arguments mountpoint)).
Proof.
  intros Hset. unfold perform_installation. cbv zeta. rewrite Hset.
  runs_before idtac.
Qed.

Lemma keyboard_before_services E v arguments mountpoint :
  preceded (calls "set_keyboard_language")
    (fun e => calls "enable_service" e || calls "run_custom_user_commands" e)
    (trace (perform_installation E v arguments mountpoint)).
Proof. unfold perform_installation. runs_before idtac. Qed.

(** X22.  The optional settings are applied only on request and with the
    values of the plan: the network configuration, the timezone and the
    time synchronisation only for a [nic], a [timezone] and an [ntp] entry
    that are true in a test, the speech service only when the
    accessibility tools are in use, the services and the custom commands
    only for non-empty [services] and [custom-commands] entries.  When
    requested, the first three are applied before the accessibility tools
    are looked for, the speech service before the keyboard layout is set,
    and the services and the custom commands between the keyboard layout
    and the filesystem table. *)
Theorem optional_settings E v arguments mountpoint :
  let tr := trace (perform_installation E v arguments mountpoint) in
  (forall e, In e tr ->
     match e with
     | Config_installer network_config profile_config =>
         network_config = get_or arguments "nic" PyNone
         /\ truthy network_config = true
         /\ profile_config = get_or arguments "profile_config" PyNone
     | Set_timezone timezone =>
         timezone = get_or arguments "timezone" PyNone /\ truthy timezone = true
     | Activate_time_syncronization =>
         truthy (get_or arguments "ntp" (PyBool false)) = true
     | Enable_espeakup => accessibility_tools E = true
     | Enable_service services =>
         arguments !! "services" = Some services /\ truthy services = true
     | Run_custom_user_commands commands =>
         arguments !! "custom-commands" = Some commands
         /\ truthy commands = true
     | _ => True
     end)
  /\ (truthy (get_or arguments "nic" PyNone) = true ->
      preceded (calls "config_installer") (calls "accessibility_tools_in_use") tr)
  /\ (truthy (get_or arguments "timezone" PyNone) = true ->
      preceded (calls "set_timezone") (calls "accessibility_tools_in_use") tr)
  /\ (truthy (get_or arguments "ntp" (PyBool false)) = true ->
      preceded (calls "activate_time_syncronization")
        (calls "accessibility_tools_in_use") tr)
  /\ (accessibility_tools E = true ->
      preceded (calls "enable_espeakup") (calls "set_keyboard_language") tr)
  /\ (truthy (get_or arguments "services" PyNone) = true ->
      preceded (calls "enable_service") (calls "genfstab") tr)
  /\ (truthy (get_or arguments "custom-commands" PyNone) = true ->
      preceded (calls "run_custom_user_commands") (calls "genfstab") tr)
  /\ preceded (calls "set_keyboard_language")
       (fun e => calls "enable_service" e || calls "run_custom_user_commands" e) tr.
Proof.
  cbv zeta. repeat apply conj.
  - apply List.Forall_forall, optional_only_if.
  - apply network_before_accessibility.
  - apply timezone_before_accessibility.
  - apply ntp_before_accessibility.
  - apply espeakup_before_keyboard.
  - apply services_before_genfstab.
  - apply commands_before_genfstab.
  - apply keyboard_before_services.
Qed.

Lemma optional_settings_witness :
  let arguments := <["services" := PyList [PyStr "sshd"]]>
                     (<["ntp" := PyBool true]> base_plan) in
  let tr := trace (perform_installation interrupted guided_py arguments
                     (PyPath "/mnt")) in
  preceded (calls "activate_time_syncronization")
    (calls "accessibility_tools_in_use") tr
  /\ preceded (calls "enable_espeakup") (calls "set_keyboard_language") tr
  /\ preceded (calls "enable_service") (calls "genfstab") tr
  /\ In Genfstab tr.
Proof.
  intros arguments tr.
  destruct (optional_settings interrupted guided_py arguments (PyPath "/mnt"))
    as (_ & _ & _ & Hntp & Hspeech & Hservices & _).
  split; [apply Hntp; reflexivity|].
  split; [apply Hspeech; reflexivity|].
  split; [apply Hservices; reflexivity|].
  vm_compute. repeat (first [left; reflexivity | right]).
Defined.

(** ** The profile after the installation *)

Lemma post_install_only_if E v arguments mountpoint :
  Forall (fun e => forall profile, e = Post_install profile ->
            truthy (get_or arguments "profile_config" PyNone) = true
            /\ getattr (get_or arguments "profile_config" PyNone) "profile"
               = Ok profile
            /\ exists cls attrs, profile = PyObj cls attrs)
    (trace (perform_installation E v arguments mountpoint)).
Proof.
  unfold perform_installation.
  all_calls ltac:(first
    [ by intros ? [=]
    | intros ? [= <-]; split; [done|]; split; [|by eexists _, _];
      match goal with
      | H : outcome (lift (getattr _ "profile")) = Ok _ |- _ =>
          by apply lift_ok in H
      end ]).
Qed.

Lemma no_profile_object E v arguments mountpoint :
  truthy (get_or arguments "profile_config" PyNone) = true ->
  (forall cls attrs,
     getattr (get_or arguments "profile_config" PyNone) "profile"
     <> Ok (PyObj cls attrs)) ->
  Forall (fun e => calls "post_install" e = false /\ calls "genfstab" e = false)
    (trace (perform_installation E v arguments mountpoint))
  /\ fails (perform_installation E v arguments mountpoint).
Proof.
  intros Hset Hnone. unfold perform_installation. cbv zeta. rewrite Hset. split.
  - all_calls ltac:(try (by split)).
    all: match goal with
         | H : outcome (lift (getattr _ "profile")) = Ok (PyObj ?c ?a) |- _ =>
             apply lift_ok in H; by destruct (Hnone c a)
         | H : outcome (lift (getattr _ "profile") ≫= _) = Ok _ |- _ =>
             apply outcome_bind_ok in H as (profile & Hget%lift_ok & Hrest);
             destruct profile; try discriminate Hrest;
             by destruct (Hnone _ _ Hget)
         end.
  - repeat first
      [ apply fails_with_Installer
      | match goal with
        | |- fails (with_Installer _ _ _ _ _ _ ≫= _) => apply fails_here
        | |- fails ((lift (getattr _ "profile") ≫= _) ≫= _) => apply fails_here
        | |- fails (lift (getattr _ "profile") ≫= _) =>
            apply fails_skip; intros [] Hget%lift_ok; try (by apply (fails_lift _ (Raised AttributeError)));
            by destruct (Hnone _ _ Hget)
        | |- fails (_ ≫= _) => apply fails_skip; intros ? ?
        end ].
Qed.

(** X23.  The hook of the profile that runs after the installation is
    called only for a [profile_config] that is true in a test and whose
    [profile] is an object, and it is handed that object.  A
    [profile_config] without such a profile, one whose [profile] is None
    for instance, makes every run fail: the hook is not called and the
    filesystem table is never generated. *)
Theorem post_install_needs_a_profile E v arguments mountpoint :
  let run := perform_installation E v arguments mountpoint in
  let profile_config := get_or arguments "profile_config" PyNone in
  (forall profile, In (Post_install profile) (trace run) ->
     truthy profile_config = true
     /\ getattr profile_config "profile" = Ok profile
     /\ exists cls attrs, profile = PyObj cls attrs)
  /\ (truthy profile_config = true ->
      (forall cls attrs, getattr profile_config "profile" <> Ok (PyObj cls attrs)) ->
      Forall (fun e => calls "post_install" e = false /\ calls "genfstab" e = false)
        (trace run)
      /\ fails run).
Proof.
  cbv zeta. split.
  - intros profile Hin.
    pose proof (post_install_only_if E v arguments mountpoint) as Hall.
    rewrite List.Forall_forall in Hall. by apply (Hall _ Hin).
  - apply no_profile_object.
Qed.

Lemma post_install_witness :
  let arguments :=
    <["profile_config" := PyObj "ProfileConfiguration" [("profile", PyNone)]]>
      base_plan in
  let run := perform_installation (quiet uefi_machine true) guided_py arguments
               (PyPath "/mnt") in
  Forall (fun e => calls "post_install" e = false /\ calls "genfstab" e = false)
    (trace run)
  /\ fails run
  /\ outcome run = Fail (Raised AttributeError)
  /\ existsb (calls "set_keyboard_language") (trace run) = true.
Proof.
  intros arguments run.
  destruct (proj2 (post_install_needs_a_profile (quiet uefi_machine true)
                     guided_py arguments (PyPath "/mnt")))
    as [Hnone Hfails]; [reflexivity|intros cls attrs; discriminate|].
  split; [exact Hnone|]. split; [exact Hfails|].
  split; vm_compute; reflexivity.
Defined.

(** ** The two module bodies *)

Lemma example_calls E arguments :
  Forall (fun e => preflight_or_persist e = false)
    (trace (interactive_installation E arguments)).
Proof.
  unfold interactive_installation, ask_user_questions, install,
    perform_filesystem_operations, perform_installation.
  all_calls ltac:(reflexivity).
Qed.

(** X24.  The example script has no preflight: whatever [help], [silent],
    [dry_run] and [skip-mirror-check] say, its first call runs the menu,
    it never prints the help, checks the mirrors, shows or saves the
    configuration or waits for a key, and as soon as the menu returns
    with a [disk_config] it builds the filesystem handler on it. *)
Theorem example_script_has_no_preflight E arguments :
  let tr := trace (interactive_installation E arguments) in
  let chosen := menu_result E (menu_entries arguments) arguments in
  (exists rest, tr = GlobalMenu_run (menu_entries arguments) :: rest)
  /\ Forall (fun e => preflight_or_persist e = false) tr
  /\ (raises E (GlobalMenu_run (menu_entries arguments)) = None ->
      forall dc, chosen !! "disk_config" = Some dc ->
        In (FilesystemHandler_init dc (get_or chosen "disk_encryption" PyNone)) tr).
Proof.
  cbv zeta. split; [|split; [apply example_calls|]].
  - unfold interactive_installation, ask_user_questions.
    rewrite trace_bind, trace_ask. by eexists.
  - intros Hmenu dc Hdc.
    unfold interactive_installation, ask_user_questions, ask.
    rewrite trace_bind, outcome_bind, trace_bind, outcome_call, trace_call, Hmenu.
    cbn [app mbind]. right.
    change (trace (mret (menu_result E (menu_entries arguments) arguments) : M _))
      with ([] : list event).
    change (outcome (mret (menu_result E (menu_entries arguments) arguments) : M _))
      with (Ok (menu_result E (menu_entries arguments) arguments)).
    cbn [app]. unfold install, getitem. rewrite Hdc.
    rewrite trace_lift_bind, trace_bind, trace_call. by left.
Qed.

Lemma example_script_witness :
  let arguments := <["dry_run" := PyBool true]> (<["help" := PyBool true]> base_plan) in
  In (FilesystemHandler_init (layout "Default") PyNone)
    (trace (interactive_installation (quiet uefi_machine false) arguments)).
Proof.
  intros arguments.
  destruct (example_script_has_no_preflight (quiet uefi_machine false) arguments)
    as (_ & _ & Hbuilt).
  apply (Hbuilt eq_refl (layout "Default")).
  vm_compute. reflexivity.
Defined.

Lemma save_before_installing E arguments :
  preceded (calls "ConfigurationOutput.save") installation_step
    (trace (guided E arguments)).
Proof. unfold guided, ask_user_questions. runs_before idtac. Qed.

Lemma built_before_saved E arguments :
  preceded (calls "ConfigurationOutput") (calls "ConfigurationOutput.save")
    (trace (guided E arguments)).
Proof. unfold guided, ask_user_questions. runs_before idtac. Qed.

Lemma menu_before_configuration E arguments :
  truthy (get arguments "silent") = false ->
  preceded (calls "GlobalMenu.run") (calls "ConfigurationOutput")
    (trace (guided E arguments)).
Proof.
  intros Hsilent. unfold guided, ask_user_questions. rewrite Hsilent.
  change (negb false) with true. cbv beta iota.
  runs_before ltac:(idtac; match goal with
    | |- preceded _ _ (trace (ask _ ?x _ ≫= _)) =>
        apply preceded_in;
        [ apply all_ask; reflexivity
        | intros ? _; rewrite trace_ask; reflexivity ]
    end).
Qed.

Lemma shown_and_confirmed E arguments :
  truthy (get (plan E guided_py arguments) "silent") = false ->
  preceded (calls "ConfigurationOutput.show") (calls "ConfigurationOutput.save")
    (trace (guided E arguments))
  /\ preceded (calls "input") installation_step (trace (guided E arguments)).
Proof.
  intros Hsilent. unfold guided.
  split;
    runs_before ltac:(idtac; match goal with
      | H : outcome (if negb (truthy (get _ "silent")) then _ else _) = Ok ?a
        |- _ =>
          apply (gathered_plan _ _ a) in H; subst a; rewrite Hsilent;
          change (negb false) with true; cbv beta iota
      | |- Forall _ (trace (ask_user_questions _ _)) => apply all_ask; reflexivity
      end).
Qed.

(** X25.  In every run of guided.py the configuration object is built
    before it is saved, and it is saved before the first step of the
    installation.  When the arguments are not silent the menu is run
    before the configuration object is built; when the plan that the menu
    leaves is not silent, the configuration is shown before it is saved
    and a key press is awaited before the first step of the
    installation. *)
Theorem configuration_is_saved_first E arguments :
  let tr := trace (guided E arguments) in
  preceded (calls "ConfigurationOutput") (calls "ConfigurationOutput.save") tr
  /\ preceded (calls "ConfigurationOutput.save") installation_step tr
  /\ (truthy (get arguments "silent") = false ->
      preceded (calls "GlobalMenu.run") (calls "ConfigurationOutput") tr)
  /\ (truthy (get (plan E guided_py arguments) "silent") = false ->
      preceded (calls "ConfigurationOutput.show")
        (calls "ConfigurationOutput.save") tr
      /\ preceded (calls "input") installation_step tr).
Proof.
  cbv zeta. split; [apply built_before_saved|].
  split; [apply save_before_installing|].
  split; [apply menu_before_configuration|apply shown_and_confirmed].
Qed.

Lemma configuration_witness :
  let tr := trace (guided (quiet uefi_machine true) attended_plan) in
  preceded (calls "GlobalMenu.run") (calls "ConfigurationOutput") tr
  /\ preceded (calls "input") installation_step tr
  /\ existsb installation_step tr = true.
Proof.
  intros tr.
  destruct (configuration_is_saved_first (quiet uefi_machine true) attended_plan)
    as (_ & _ & Hmenu & Hshown).
  split; [apply Hmenu; reflexivity|].
  split; [apply Hshown; reflexivity|].
  vm_compute. reflexivity.
Defined.

End GuidedMore.
